(** * gc-filter-worker: cooldown store, connection manager, worker loop, supervisor

    A shallow embedding of the four JavaScript classes of the repository

      - [CooldownStateManager]  (utils/cooldown-api.js)
      - [ConnectionManager]     (workers/connection-manager.js)
      - [FilterService]         (workers/filter-service.js)
      - [GCFilterWorker]        (main.js)

    and the properties of them that the specification states.

    Conventions of the embedding.

    - JavaScript numbers that hold counters, levels, delays and timestamps
      are integers of [Z]; [MAX_RETRIES] is a [nat] since it only bounds a loop.
    - A method is a computation of the monad [M St A]: it reads the
      environment [Env] (what the network, the Game Coordinator and the disk
      answer), threads the process state [Sys] (clock, pending timers, queued
      calls, the fallback file) and the object state [St], emits [event]s, and
      either returns a value or throws an [exn]. State changes made before a
      throw persist, as in JavaScript.
    - [await] of a request or of [delay] is written in direct style.  A call
      of an async method that the caller does not await is queued with
      [spawn]; its body runs when the queued [task] is run.  JavaScript runs
      the callee up to its first [await] at once.  Where the caller goes on
      to work on the same state -- the request timer of
      [fetchAndCheckProfile], which calls [handleConnectionTimeout()] in
      the middle of a turn of the processing loop -- the embedding runs
      that first part inside the call and queues the rest; elsewhere the
      first part touches nothing that the caller reads afterwards, and the
      embedding leaves it to the task as well.  So the events of a method are those of its
      own awaited calls, and what it has queued is in [spawned].
      [setTimeout] stores a [task] under a fresh handle.
    - Handlers do not interleave: a method runs from its call to its return
      with no other handler changing the state at its [await]s.
    - [logToFile] is taken to succeed and leaves no event: a log directory
      that cannot be written is outside the embedding. *)

From Stdlib Require Import ZArith Lia Bool.
From stdpp Require Import base gmap list strings.

Open Scope Z_scope.

(** ** Values exchanged with the outside *)

Inductive exn :=
| Error (msg : string)
| TypeError (msg : string)
| ReferenceError (name : string).

Module CooldownState.
(** [{ lastBanTime, totalBanCount, cooldownLevel }] *)
Record t := mk { lastBanTime : Z; totalBanCount : Z; cooldownLevel : Z }.
Definition zero : t := mk 0 0 0.
End CooldownState.

Module WorkItem.
(** [{ id, username }] as the claim endpoint returns it *)
Record t := mk { id : string; username : string }.
End WorkItem.

(** The body of a JSON answer, with the fields the code reads. *)
Record parsed := mkParsed {
  success : bool;
  found : bool;
  state : option CooldownState.t;
  items : option (list WorkItem.t);
  created : bool
}.

(** What Node's [http.request] delivers for one request. *)
Inductive http_outcome :=
| NetError                                    (* the 'error' event *)
| NetTimeout                                  (* the 'timeout' event *)
| Reply (statusCode : Z) (body : option parsed). (* [None]: JSON.parse throws *)

Inductive request :=
| QueueClaim (instance_id : string) (count : Z)
| QueueComplete (instance_id : string) (ids : list string)
| QueueRelease (instance_id : string) (ids : list string)
| ProcessorAdd (username : string) (ids : list string)
| CooldownGet (instanceId : string)
| CooldownPost (instanceId : string) (st : CooldownState.t)
| CooldownDelete (instanceId : string)
| MarkProcessed (steam_id : string).

(** [profile] as [requestPlayersProfile] hands it to its callback. *)
Record Profile := mkProfile {
  display_items_defidx : option (list Z);   (* profile.medals?.display_items_defidx *)
  cmd_friendly : Z;
  cmd_teaching : Z;
  cmd_leader : Z
}.

Inductive gc_reply :=
| GcSilent                          (* no callback before REQUEST_TIMEOUT *)
| GcProfile (p : option Profile).   (* callback called; [None]: falsy profile *)

Inductive steamid_parse :=
| SidThrows
| Sid (accountid : Z) (individual : bool).

(** Calls that are queued rather than awaited, and timer callbacks. *)
Inductive task :=
| T_loadCooldownState                            (* this.loadCooldownState() in the constructor *)
| T_saveCooldownState (st : CooldownState.t)     (* this.saveCooldownState() *)
| T_releaseToFilterQueue (ids : list string)     (* this.releaseToFilterQueue(ids) *)
| T_handleConnectionTimeout
| T_attemptSimpleGcReconnection_rest             (* the method from [await this.delay(5000)] on *)
| T_performCleanShutdown_rest (cooldownMinutes : option Z)
                                                 (* the method from [await this.delay(2000)] on *)
| T_startRecovery
| T_processQueue
| T_launchGame                                   (* the timer of the 'loggedOn' handler *)
| T_login                                        (* the retry and reconnect timers *)
| T_filterRestart                                (* the timer of scheduleFilterRestart *)
| T_exit (code : Z).                             (* process.exit(code) *)

Inductive event :=
| Http (r : request) (ok : bool)       (* a request was made; [ok]: its promise resolved *)
| Delay (ms : Z)
| FileWrite (st : CooldownState.t)
| FileUnlink
| RequestProfile (steamID64 : string) (answered : bool)
| GamesPlayed
| LogOn
| LogOff
| SetPersonaOnline
| ProcessExit (code : Z).

(** The worker's configuration after [loadConfig]. *)
Record Config := mkConfig {
  QUEUE_API_URL : option string;
  DJANGO_API_URL : option string;
  CLAIM_BATCH_SIZE : Z;
  EMPTY_QUEUE_DELAY : Z;
  PROCESSING_DELAY_MIN : Z;
  PROCESSING_DELAY_MAX : Z;
  LOGIN_TO_GAME_DELAY_MIN : Z;
  LOGIN_TO_GAME_DELAY_MAX : Z;
  ERROR_DELAY : Z;
  MAX_RETRIES : nat;
  REQUEST_TIMEOUT : Z;
  MAX_CONSECUTIVE_TIMEOUTS : Z;
  GC_CONNECTION_TIMEOUT : Z
}.

Record Env := mkEnv {
  http : nat -> http_outcome;         (* outcome of the n-th request of the process *)
  gc : nat -> gc_reply;               (* answer to the n-th profile request *)
  steamid : string -> steamid_parse;  (* [new SteamID(s)] *)
  fs_ok : bool;                       (* [false]: writeFileSync / unlinkSync throw *)
  random : Z -> Z -> Z;               (* [getRandomDelay(min, max)] *)
  totp_ok : bool;                     (* [false]: generateAuthCode throws *)
  gamesPlayed_ok : bool;              (* [false]: steamClient.gamesPlayed throws *)
  maFile_ok : bool;                   (* [false]: loadMaFile throws in the constructor *)
  worker_config : Config;             (* what loadConfig returns *)
  worker_id : string;                 (* the random instance id of a new FilterService *)
  RESET_COOLDOWN : bool;              (* process.env.RESET_COOLDOWN === 'true' *)
  argv_reset_cooldown : bool;         (* process.argv.includes('--reset-cooldown') *)
  INVOCATION_ID : bool;               (* process.env.INVOCATION_ID is set *)
  ppid : Z                            (* process.ppid *)
}.

Record Sys := mkSys {
  clock : Z;                                 (* Date.now() *)
  reqno : nat;
  gcno : nat;
  file : option (option CooldownState.t);    (* cooldown-state.json: absent / unreadable / state *)
  timerno : nat;
  timers : list (nat * (Z * task));          (* handle, delay, callback *)
  spawned : list task
}.

(** ** The monad of methods *)

Record Res (St A : Type) := mkRes {
  events : list event;
  sys_of : Sys;
  st_of : St;
  val_of : exn + A
}.
Arguments mkRes {St A} _ _ _ _.
Arguments events {St A} _.
Arguments sys_of {St A} _.
Arguments st_of {St A} _.
Arguments val_of {St A} _.

Definition M (St A : Type) : Type := Env -> Sys -> St -> Res St A.

Definition ret {St A} (a : A) : M St A :=
  fun _ sys s => mkRes [] sys s (inr a).

Definition throw {St A} (e : exn) : M St A :=
  fun _ sys s => mkRes [] sys s (inl e).

Definition bind {St A B} (m : M St A) (k : A -> M St B) : M St B :=
  fun env sys s =>
    match m env sys s with
    | mkRes ev sys1 s1 (inl e) => mkRes ev sys1 s1 (inl e)
    | mkRes ev sys1 s1 (inr a) =>
        match k a env sys1 s1 with
        | mkRes ev' sys2 s2 v => mkRes (ev ++ ev') sys2 s2 v
        end
    end.

Notation "'let*' x ':=' m 'in' k" := (bind m (fun x => k))
  (at level 10, x pattern, m at level 100, k at level 200).
Notation "m ';;' k" := (bind m (fun _ => k))
  (at level 100, k at level 200, right associativity).

(** [try { m } catch (e) { h e }] *)
Definition try_catch {St A} (m : M St A) (h : exn -> M St A) : M St A :=
  fun env sys s =>
    match m env sys s with
    | mkRes ev sys1 s1 (inr a) => mkRes ev sys1 s1 (inr a)
    | mkRes ev sys1 s1 (inl e) =>
        match h e env sys1 s1 with
        | mkRes ev' sys2 s2 v => mkRes (ev ++ ev') sys2 s2 v
        end
    end.

(** [try { m } finally { f }] where [f] does not throw *)
Definition finally {St A} (m : M St A) (f : M St unit) : M St A :=
  fun env sys s =>
    match m env sys s with
    | mkRes ev sys1 s1 v =>
        match f env sys1 s1 with
        | mkRes ev' sys2 s2 _ => mkRes (ev ++ ev') sys2 s2 v
        end
    end.

Definition get {St} : M St St := fun _ sys s => mkRes [] sys s (inr s).
Definition put {St} (s : St) : M St unit := fun _ sys _ => mkRes [] sys s (inr tt).
Definition modify {St} (f : St -> St) : M St unit :=
  fun _ sys s => mkRes [] sys (f s) (inr tt).
Definition ask {St} : M St Env := fun env sys s => mkRes [] sys s (inr env).
Definition get_sys {St} : M St Sys := fun _ sys s => mkRes [] sys s (inr sys).
Definition modify_sys {St} (f : Sys -> Sys) : M St unit :=
  fun _ sys s => mkRes [] (f sys) s (inr tt).
Definition emit {St} (e : event) : M St unit := fun _ sys s => mkRes [e] sys s (inr tt).

(** Run a method of a sub-object held in a field. *)
Definition zoom {St T A} (proj : T -> St) (upd : St -> T -> T) (m : M St A) : M T A :=
  fun env sys t =>
    match m env sys (proj t) with
    | mkRes ev sys1 s1 v => mkRes ev sys1 (upd s1 t) v
    end.

Definition set_clock (c : Z) (y : Sys) : Sys :=
  mkSys c (reqno y) (gcno y) (file y) (timerno y) (timers y) (spawned y).
Definition set_reqno (n : nat) (y : Sys) : Sys :=
  mkSys (clock y) n (gcno y) (file y) (timerno y) (timers y) (spawned y).
Definition set_gcno (n : nat) (y : Sys) : Sys :=
  mkSys (clock y) (reqno y) n (file y) (timerno y) (timers y) (spawned y).
Definition set_file (f : option (option CooldownState.t)) (y : Sys) : Sys :=
  mkSys (clock y) (reqno y) (gcno y) f (timerno y) (timers y) (spawned y).
Definition set_timers (n : nat) (l : list (nat * (Z * task))) (y : Sys) : Sys :=
  mkSys (clock y) (reqno y) (gcno y) (file y) n l (spawned y).
Definition set_spawned (l : list task) (y : Sys) : Sys :=
  mkSys (clock y) (reqno y) (gcno y) (file y) (timerno y) (timers y) l.

(** [Date.now()] *)
Definition now {St} : M St Z := fun _ sys s => mkRes [] sys s (inr (clock sys)).

(** [await delay(ms)] *)
Definition delay {St} (ms : Z) : M St unit :=
  fun _ sys s => mkRes [Delay ms] (set_clock (clock sys + ms) sys) s (inr tt).

(** A call of an async method that is not awaited. *)
Definition spawn {St} (t : task) : M St unit :=
  modify_sys (fun y => set_spawned (spawned y ++ [t]) y).

(** [setTimeout(cb, ms)], returning the handle *)
Definition setTimeout {St} (cb : task) (ms : Z) : M St nat :=
  fun _ sys s =>
    let h := timerno sys in
    mkRes [] (set_timers (S h) (timers sys ++ [(h, (ms, cb))]) sys) s (inr h).

(** [clearTimeout(h)] *)
Definition clearTimeout {St} (h : nat) : M St unit :=
  modify_sys (fun y =>
    set_timers (timerno y) (List.filter (fun e => negb (Nat.eqb (fst e) h)) (timers y)) y).

(** The three request helpers of the source ([makeApiRequest],
    [makeQueueApiRequest], [markSteamIdProcessed]) share this shape: without a
    base URL the promise rejects before anything is sent; otherwise the request
    is made, and its promise resolves with the parsed body when [accept]
    holds and rejects in every other case. *)
Definition node_request {St} (url : option string) (missing : exn)
    (accept : Z -> parsed -> bool) (r : request) : M St parsed :=
  fun env sys s =>
    match url with
    | None => mkRes [] sys s (inl missing)
    | Some _ =>
        let sys' := set_reqno (S (reqno sys)) sys in
        match http env (reqno sys) with
        | NetError => mkRes [Http r false] sys' s (inl (Error "request failed"))
        | NetTimeout => mkRes [Http r false] sys' s (inl (Error "request timeout"))
        | Reply _ None => mkRes [Http r false] sys' s (inl (Error "Failed to parse response"))
        | Reply code (Some p) =>
            if accept code p
            then mkRes [Http r true] sys' s (inr p)
            else mkRes [Http r false] sys' s (inl (Error "API error"))
        end
    end.

(** [res.statusCode === 200 && parsed.success] *)
Definition ok200 (code : Z) (p : parsed) : bool := (code =? 200) && success p.

(** ** utils/cooldown-api.js: [CooldownStateManager] *)

Module CooldownStateManager.

Record t := mk {
  instanceId : string;
  config_QUEUE_API_URL : option string;   (* this.config.QUEUE_API_URL *)
  useRedis : bool
}.

Definition set_useRedis (b : bool) (m : t) : t :=
  mk (instanceId m) (config_QUEUE_API_URL m) b.

(** [constructor(instanceId, config)] *)
Definition new (instanceId : string) (url : option string) : t :=
  mk instanceId url true.

Definition makeApiRequest (r : request) : M t parsed :=
  let* this := get in
  node_request (config_QUEUE_API_URL this) (Error "Missing QUEUE_API_URL") ok200 r.

Definition readFileSync : M t CooldownState.t :=
  let* y := get_sys in
  match file y with
  | Some (Some st) => ret st
  | _ => throw (Error "Error loading from file")
  end.

Definition writeFileSync (st : CooldownState.t) : M t unit :=
  let* env := ask in
  if fs_ok env
  then emit (FileWrite st) ;; modify_sys (set_file (Some (Some st)))
  else throw (Error "EACCES").

Definition unlinkSync : M t unit :=
  let* env := ask in
  if fs_ok env
  then emit FileUnlink ;; modify_sys (set_file None)
  else throw (Error "EACCES").

Definition existsSync : M t bool :=
  let* y := get_sys in
  ret (match file y with Some _ => true | None => false end).

(** [async load()].  The two [return]s inside the first [try] are the
    [Some] results; [None] falls through to the file. *)
Definition load : M t CooldownState.t :=
  let* this := get in
  let* fromRedis :=
    (if useRedis this then
       try_catch
         (let* response := makeApiRequest (CooldownGet (instanceId this)) in
          if found response then
            match state response with
            | Some st => ret (Some st)
            | None => throw (TypeError "response.state is undefined")
            end
          else ret (Some CooldownState.zero))
         (fun _ => modify (set_useRedis false) ;; ret None)
     else ret None) in
  match fromRedis with
  | Some st => ret st
  | None =>
      let* fromFile :=
        try_catch
          (let* there := existsSync in
           if there
           then (let* st := readFileSync in ret (Some st))
           else ret None)
          (fun _ => ret None) in
      match fromFile with
      | Some st => ret st
      | None => ret CooldownState.zero
      end
  end.

(** [async save(state)] *)
Definition save (st : CooldownState.t) : M t unit :=
  let* this := get in
  (if useRedis this then
     try_catch
       (let* _ := makeApiRequest (CooldownPost (instanceId this) st) in ret tt)
       (fun _ => modify (set_useRedis false))
   else ret tt) ;;
  try_catch (writeFileSync st) (fun _ => ret tt).

(** [async clear()] *)
Definition clear : M t unit :=
  let* this := get in
  (if useRedis this then
     try_catch
       (let* _ := makeApiRequest (CooldownDelete (instanceId this)) in ret tt)
       (fun _ => ret tt)
   else ret tt) ;;
  try_catch
    (let* there := existsSync in
     if there then unlinkSync else ret tt)
    (fun _ => ret tt).

(** A client of the store calls its three operations one after another. *)
Inductive op := Load | Save (st : CooldownState.t) | Clear.

Definition run_op (o : op) : M t unit :=
  match o with
  | Load => let* _ := load in ret tt
  | Save st => save st
  | Clear => clear
  end.

Fixpoint run_ops (l : list op) : M t unit :=
  match l with
  | [] => ret tt
  | o :: l' => run_op o ;; run_ops l'
  end.

End CooldownStateManager.

(** ** workers/connection-manager.js: [ConnectionManager]

    This module holds the record and the methods that touch only the
    manager's own fields; the methods that reach into [this.filterService]
    follow the worker, in [Recovery]. *)

(** [this.COOLDOWN_LEVELS], minutes per level *)
Definition COOLDOWN_LEVELS : list Z := [0; 30; 60; 120; 240; 480].

(** [table[i]] for a JavaScript integer index; [None] is [undefined] *)
Definition at_index (table : list Z) (i : Z) : option Z :=
  if i <? 0 then None else table !! Z.to_nat i.

(** The last index, [this.COOLDOWN_LEVELS.length - 1] *)
Definition maxLevel : Z := Z.of_nat (length COOLDOWN_LEVELS) - 1.

(** The answer of [getCooldownInfo()].  Before any ban it has three
    fields only; [details] holds the others.  A number that is [None] is
    JavaScript's [undefined] or [NaN]: the level has no entry in the table.
    [cooldownHours] and [escalationPath], which repeat [cooldownMinutes]
    and the table, are left out. *)
Module CooldownInfo.
Record details := mkDetails {
  cooldownMinutes : option Z;
  remainingMs : option Z;
  endTime : option Z;
  nextCooldownMinutes : option Z
}.
Record t := mk {
  inCooldown : bool;
  totalBans : Z;
  cooldownLevel : Z;
  more : option details
}.
End CooldownInfo.

Module ConnectionManager.

Record t := mk {
  gcConnectionAttempts : Z;
  lastGcConnectionTime : Z;
  connectionTimer : option nat;          (* handle of T_connect, or null *)
  recoveryInProgress : bool;
  lastBanTime : Z;
  totalBanCount : Z;
  cooldownLevel : Z;
  cooldownStateManager : CooldownStateManager.t;
  config_GC_CONNECTION_TIMEOUT : Z       (* this.config.GC_CONNECTION_TIMEOUT *)
}.

Definition set_gcConnectionAttempts (v : Z) (x : t) : t :=
  mk v (lastGcConnectionTime x) (connectionTimer x) (recoveryInProgress x)
    (lastBanTime x) (totalBanCount x) (cooldownLevel x)
    (cooldownStateManager x) (config_GC_CONNECTION_TIMEOUT x).
Definition set_lastGcConnectionTime (v : Z) (x : t) : t :=
  mk (gcConnectionAttempts x) v (connectionTimer x) (recoveryInProgress x)
    (lastBanTime x) (totalBanCount x) (cooldownLevel x)
    (cooldownStateManager x) (config_GC_CONNECTION_TIMEOUT x).
Definition set_connectionTimer (v : option nat) (x : t) : t :=
  mk (gcConnectionAttempts x) (lastGcConnectionTime x) v
    (recoveryInProgress x) (lastBanTime x) (totalBanCount x) (cooldownLevel x)
    (cooldownStateManager x) (config_GC_CONNECTION_TIMEOUT x).
Definition set_recoveryInProgress (v : bool) (x : t) : t :=
  mk (gcConnectionAttempts x) (lastGcConnectionTime x) (connectionTimer x) v
    (lastBanTime x) (totalBanCount x) (cooldownLevel x)
    (cooldownStateManager x) (config_GC_CONNECTION_TIMEOUT x).
Definition set_lastBanTime (v : Z) (x : t) : t :=
  mk (gcConnectionAttempts x) (lastGcConnectionTime x) (connectionTimer x)
    (recoveryInProgress x) v (totalBanCount x) (cooldownLevel x)
    (cooldownStateManager x) (config_GC_CONNECTION_TIMEOUT x).
Definition set_totalBanCount (v : Z) (x : t) : t :=
  mk (gcConnectionAttempts x) (lastGcConnectionTime x) (connectionTimer x)
    (recoveryInProgress x) (lastBanTime x) v (cooldownLevel x)
    (cooldownStateManager x) (config_GC_CONNECTION_TIMEOUT x).
Definition set_cooldownLevel (v : Z) (x : t) : t :=
  mk (gcConnectionAttempts x) (lastGcConnectionTime x) (connectionTimer x)
    (recoveryInProgress x) (lastBanTime x) (totalBanCount x) v
    (cooldownStateManager x) (config_GC_CONNECTION_TIMEOUT x).
Definition set_cooldownStateManager (v : CooldownStateManager.t) (x : t) : t :=
  mk (gcConnectionAttempts x) (lastGcConnectionTime x) (connectionTimer x)
    (recoveryInProgress x) (lastBanTime x) (totalBanCount x) (cooldownLevel x)
    v (config_GC_CONNECTION_TIMEOUT x).
Definition set_config_GC_CONNECTION_TIMEOUT (v : Z) (x : t) : t :=
  mk (gcConnectionAttempts x) (lastGcConnectionTime x) (connectionTimer x)
    (recoveryInProgress x) (lastBanTime x) (totalBanCount x) (cooldownLevel x)
    (cooldownStateManager x) v.

Definition store {A} (m : M CooldownStateManager.t A) : M t A :=
  zoom cooldownStateManager set_cooldownStateManager m.

(** [reset()] *)
Definition reset : M t unit :=
  modify (set_gcConnectionAttempts 0) ;;
  modify (set_lastGcConnectionTime 0) ;;
  modify (set_connectionTimer None) ;;
  modify (set_recoveryInProgress false).

(** [constructor(filterService, config, instanceId)]: the object after
    [this.reset()], with [this.loadCooldownState()] queued.  The
    constructor does not assign [lastBanTime], [totalBanCount] and
    [cooldownLevel]: they are [undefined] until the queued call assigns
    them, on either of its paths.  The record has no [undefined]; it holds
    0 in the three fields until then, and nothing below reads them from a
    manager whose load is still queued.  The URL handed to the store
    always has a value ([... || 'http://127.0.0.1:3001']). *)
Definition new {St} (instanceId : string) (config : Config) : M St t :=
  spawn T_loadCooldownState ;;
  ret (mk 0 0 None false 0 0 0
         (CooldownStateManager.new instanceId
            (Some (default "http://127.0.0.1:3001"%string (QUEUE_API_URL config))))
         (GC_CONNECTION_TIMEOUT config)).

(** [async loadCooldownState()] *)
Definition loadCooldownState : M t unit :=
  try_catch
    (let* st := store CooldownStateManager.load in
     modify (set_lastBanTime (CooldownState.lastBanTime st)) ;;
     modify (set_totalBanCount (CooldownState.totalBanCount st)) ;;
     modify (set_cooldownLevel (CooldownState.cooldownLevel st)))
    (fun _ =>
       modify (set_lastBanTime 0) ;;
       modify (set_totalBanCount 0) ;;
       modify (set_cooldownLevel 0)).

(** The object literal built at the start of [saveCooldownState] *)
Definition snapshot (this : t) : CooldownState.t :=
  CooldownState.mk (lastBanTime this) (totalBanCount this) (cooldownLevel this).

(** [async saveCooldownState()], from the point where the snapshot exists *)
Definition saveCooldownState_body (st : CooldownState.t) : M t unit :=
  try_catch (store (CooldownStateManager.save st)) (fun _ => ret tt).

(** [this.saveCooldownState()], as every caller in this class writes it:
    not awaited *)
Definition saveCooldownState : M t unit :=
  let* this := get in
  spawn (T_saveCooldownState (snapshot this)).

(** [clearConnectionTimer()] *)
Definition clearConnectionTimer : M t unit :=
  let* this := get in
  match connectionTimer this with
  | Some h => clearTimeout h ;; modify (set_connectionTimer None)
  | None => ret tt
  end.

(** [this.config.GC_CONNECTION_TIMEOUT || 120000] *)
Definition connectionTimeout (this : t) : Z :=
  if config_GC_CONNECTION_TIMEOUT this =? 0 then 120000
  else config_GC_CONNECTION_TIMEOUT this.

(** [startConnectionTimer()] *)
Definition startConnectionTimer : M t unit :=
  clearConnectionTimer ;;
  let* this := get in
  let* h := setTimeout T_handleConnectionTimeout (connectionTimeout this) in
  modify (set_connectionTimer (Some h)).

(** [onGcConnected()] *)
Definition onGcConnected : M t unit :=
  clearConnectionTimer ;;
  let* t0 := now in
  modify (set_lastGcConnectionTime t0) ;;
  let* this := get in
  (if 0 <? cooldownLevel this then
     modify (set_cooldownLevel 0) ;;
     saveCooldownState
   else ret tt) ;;
  reset.

(** [onGcDisconnected()] *)
Definition onGcDisconnected : M t unit :=
  clearConnectionTimer ;;
  let* this := get in
  if negb (recoveryInProgress this)
  then (let* _ := setTimeout T_startRecovery 5000 in ret tt)
  else ret tt.

(** [onSteamError(error)] *)
Definition onSteamError : M t unit :=
  clearConnectionTimer ;;
  let* this := get in
  if negb (recoveryInProgress this)
  then (let* _ := setTimeout T_startRecovery 10000 in ret tt)
  else ret tt.

(** [getCooldownInfo()] *)
Definition getCooldownInfo : M t CooldownInfo.t :=
  let* this := get in
  if lastBanTime this =? 0 then
    ret (CooldownInfo.mk false (totalBanCount this) (cooldownLevel this) None)
  else
    let cooldownMinutes := at_index COOLDOWN_LEVELS (cooldownLevel this) in
    let cooldownEndTime :=
      option_map (fun m => lastBanTime this + m * 60 * 1000) cooldownMinutes in
    let* t0 := now in
    let remainingMs := option_map (fun e => Z.max 0 (e - t0)) cooldownEndTime in
    ret (CooldownInfo.mk
           (match remainingMs with Some r => 0 <? r | None => false end)
           (totalBanCount this) (cooldownLevel this)
           (Some (CooldownInfo.mkDetails cooldownMinutes remainingMs cooldownEndTime
                    (if cooldownLevel this <? maxLevel
                     then at_index COOLDOWN_LEVELS (cooldownLevel this + 1)
                     else at_index COOLDOWN_LEVELS maxLevel)))).

(** [resetCooldown()] *)
Definition resetCooldown : M t unit :=
  modify (set_lastBanTime 0) ;;
  modify (set_cooldownLevel 0) ;;
  saveCooldownState.

(** [setCooldownLevel(level)] *)
Definition setCooldownLevel (level : Z) : M t unit :=
  if (0 <=? level) && (level <? Z.of_nat (length COOLDOWN_LEVELS))
  then modify (set_cooldownLevel level) ;; saveCooldownState
  else ret tt.

End ConnectionManager.

(** ** workers/filter-service.js: [FilterService] *)

(** Why [checkProfile] rejects a profile ([filterReason]) *)
Inductive FilterReason :=
| Commendations (total : Z)
| MissingMedal874
| FewMedals (n : nat)
| UnwantedMedal (m : Z).

(** What [processSteamIDWithRetries] returns: [{ success: true, passed,
    filterReason, ... }] or [{ success: false, error }] *)
Inductive ProcessResult :=
| Checked (passed : bool) (filterReason : option FilterReason)
| Failed (error : option exn).

Definition unwantedMedals : list Z :=
  [4960; 6111; 6112; 6123; 6126; 6129; 4918; 4555; 4759; 6101; 4687;
   6113; 6106; 6125; 4886; 4853; 4703; 4552; 960; 4959; 4762; 4919;
   4828; 4800; 4761; 4626; 4986; 4873; 6127; 6128; 4799; 4702; 909;
   4550; 6105; 4798; 4553; 4760; 4958; 6114; 4884; 4701; 4700; 6124;
   4885; 6130; 4690; 6115; 4691; 6131; 4887; 935; 912; 908; 902; 4552; 968;
   952; 946; 6034; 6117; 6116; 6120; 6109; 6104; 6108; 6118; 4623; 4851].

Definition mem_Z (x : Z) (l : list Z) : bool := existsb (Z.eqb x) l.

(** [checkProfile(steamID64, profile)]: throws on a falsy profile, else
    [(passedChecks, filterReason)] *)
Definition checkProfile (profile : option Profile) : exn + (bool * option FilterReason) :=
  match profile with
  | None => inl (Error "No profile data received")
  | Some profile =>
      let medals := default [] (display_items_defidx profile) in
      let totalCommendations :=
        cmd_friendly profile + cmd_teaching profile + cmd_leader profile in
      if 100 <=? totalCommendations then
        inr (false, Some (Commendations totalCommendations))
      else if negb (mem_Z 874 medals) then
        inr (false, Some MissingMedal874)
      else if (length medals <? 3)%nat then
        inr (false, Some (FewMedals (length medals)))
      else
        match List.find (fun m => mem_Z m unwantedMedals) medals with
        | Some firstUnwanted => inr (false, Some (UnwantedMedal firstUnwanted))
        | None => inr (true, None)
        end
  end.

(** What [failureStats] holds for an id: a count, or [NaN] *)
Inductive counter :=
| NaN
| Count (n : Z).

(** The properties that a plain object such as [failureStats] inherits from
    [Object.prototype]; all but [__proto__] are functions *)
Definition Object_prototype : list string :=
  ["constructor"; "hasOwnProperty"; "isPrototypeOf"; "propertyIsEnumerable";
   "toLocaleString"; "toString"; "valueOf"; "__defineGetter__";
   "__defineSetter__"; "__lookupGetter__"; "__lookupSetter__"; "__proto__"]%string.

Definition inherited (id : string) : bool := existsb (String.eqb id) Object_prototype.

Module FilterService.

Record t := mk {
  running : bool;
  processingActive : bool;
  instanceId : string;
  currentBatch : list WorkItem.t;
  currentItem : option WorkItem.t;
  failureStats : gmap string counter;      (* own properties of the object *)
  connectionManager : ConnectionManager.t;
  requestCount : Z;
  consecutiveTimeouts : Z;
  lastSuccessTime : Z;
  sessionStartTime : Z;
  steamID : bool;                  (* this.steamClient.steamID is set *)
  isBanned : bool;
  banEndTime : option Z;           (* [None]: never assigned *)
  config : Config
}.

Definition set_running (v : bool) (x : t) : t :=
  mk v (processingActive x) (instanceId x) (currentBatch x) (currentItem x)
    (failureStats x) (connectionManager x) (requestCount x)
    (consecutiveTimeouts x) (lastSuccessTime x) (sessionStartTime x)
    (steamID x) (isBanned x) (banEndTime x) (config x).
Definition set_processingActive (v : bool) (x : t) : t :=
  mk (running x) v (instanceId x) (currentBatch x) (currentItem x)
    (failureStats x) (connectionManager x) (requestCount x)
    (consecutiveTimeouts x) (lastSuccessTime x) (sessionStartTime x)
    (steamID x) (isBanned x) (banEndTime x) (config x).
Definition set_instanceId (v : string) (x : t) : t :=
  mk (running x) (processingActive x) v (currentBatch x) (currentItem x)
    (failureStats x) (connectionManager x) (requestCount x)
    (consecutiveTimeouts x) (lastSuccessTime x) (sessionStartTime x)
    (steamID x) (isBanned x) (banEndTime x) (config x).
Definition set_currentBatch (v : list WorkItem.t) (x : t) : t :=
  mk (running x) (processingActive x) (instanceId x) v (currentItem x)
    (failureStats x) (connectionManager x) (requestCount x)
    (consecutiveTimeouts x) (lastSuccessTime x) (sessionStartTime x)
    (steamID x) (isBanned x) (banEndTime x) (config x).
Definition set_currentItem (v : option WorkItem.t) (x : t) : t :=
  mk (running x) (processingActive x) (instanceId x) (currentBatch x) v
    (failureStats x) (connectionManager x) (requestCount x)
    (consecutiveTimeouts x) (lastSuccessTime x) (sessionStartTime x)
    (steamID x) (isBanned x) (banEndTime x) (config x).
Definition set_failureStats (v : gmap string counter) (x : t) : t :=
  mk (running x) (processingActive x) (instanceId x) (currentBatch x)
    (currentItem x) v (connectionManager x) (requestCount x)
    (consecutiveTimeouts x) (lastSuccessTime x) (sessionStartTime x)
    (steamID x) (isBanned x) (banEndTime x) (config x).
Definition set_connectionManager (v : ConnectionManager.t) (x : t) : t :=
  mk (running x) (processingActive x) (instanceId x) (currentBatch x)
    (currentItem x) (failureStats x) v (requestCount x)
    (consecutiveTimeouts x) (lastSuccessTime x) (sessionStartTime x)
    (steamID x) (isBanned x) (banEndTime x) (config x).
Definition set_requestCount (v : Z) (x : t) : t :=
  mk (running x) (processingActive x) (instanceId x) (currentBatch x)
    (currentItem x) (failureStats x) (connectionManager x) v
    (consecutiveTimeouts x) (lastSuccessTime x) (sessionStartTime x)
    (steamID x) (isBanned x) (banEndTime x) (config x).
Definition set_consecutiveTimeouts (v : Z) (x : t) : t :=
  mk (running x) (processingActive x) (instanceId x) (currentBatch x)
    (currentItem x) (failureStats x) (connectionManager x) (requestCount x) v
    (lastSuccessTime x) (sessionStartTime x) (steamID x) (isBanned x)
    (banEndTime x) (config x).
Definition set_lastSuccessTime (v : Z) (x : t) : t :=
  mk (running x) (processingActive x) (instanceId x) (currentBatch x)
    (currentItem x) (failureStats x) (connectionManager x) (requestCount x)
    (consecutiveTimeouts x) v (sessionStartTime x) (steamID x) (isBanned x)
    (banEndTime x) (config x).
Definition set_sessionStartTime (v : Z) (x : t) : t :=
  mk (running x) (processingActive x) (instanceId x) (currentBatch x)
    (currentItem x) (failureStats x) (connectionManager x) (requestCount x)
    (consecutiveTimeouts x) (lastSuccessTime x) v (steamID x) (isBanned x)
    (banEndTime x) (config x).
Definition set_steamID (v : bool) (x : t) : t :=
  mk (running x) (processingActive x) (instanceId x) (currentBatch x)
    (currentItem x) (failureStats x) (connectionManager x) (requestCount x)
    (consecutiveTimeouts x) (lastSuccessTime x) (sessionStartTime x) v
    (isBanned x) (banEndTime x) (config x).
Definition set_isBanned (v : bool) (x : t) : t :=
  mk (running x) (processingActive x) (instanceId x) (currentBatch x)
    (currentItem x) (failureStats x) (connectionManager x) (requestCount x)
    (consecutiveTimeouts x) (lastSuccessTime x) (sessionStartTime x)
    (steamID x) v (banEndTime x) (config x).
Definition set_banEndTime (v : option Z) (x : t) : t :=
  mk (running x) (processingActive x) (instanceId x) (currentBatch x)
    (currentItem x) (failureStats x) (connectionManager x) (requestCount x)
    (consecutiveTimeouts x) (lastSuccessTime x) (sessionStartTime x)
    (steamID x) (isBanned x) v (config x).
Definition set_config (v : Config) (x : t) : t :=
  mk (running x) (processingActive x) (instanceId x) (currentBatch x)
    (currentItem x) (failureStats x) (connectionManager x) (requestCount x)
    (consecutiveTimeouts x) (lastSuccessTime x) (sessionStartTime x)
    (steamID x) (isBanned x) (banEndTime x) v.

Definition cm {A} (m : M ConnectionManager.t A) : M t A :=
  zoom connectionManager set_connectionManager m.

(** [makeQueueApiRequest(method, endpoint, data)]; [new URL(endpoint,
    null)] throws inside the promise executor *)
Definition makeQueueApiRequest (r : request) : M t parsed :=
  let* this := get in
  node_request (QUEUE_API_URL (config this)) (TypeError "Invalid URL") ok200 r.

(** [markSteamIdProcessed(steamID, config)] *)
Definition markSteamIdProcessed (steamID64 : string) : M t parsed :=
  let* this := get in
  node_request (DJANGO_API_URL (config this)) (TypeError "Invalid URL")
    (fun code _ => code =? 200) (MarkProcessed steamID64).

(** The [for] loop of [markSteamIdProcessedWithRetries]; [remaining] is
    [maxRetries - attempt + 1]. *)
Fixpoint markLoop (remaining attempt maxRetries : nat) (steamID64 : string) : M t bool :=
  match remaining with
  | O => ret false
  | S rem =>
      let* marked :=
        try_catch
          (let* response := markSteamIdProcessed steamID64 in
           if success response then ret true
           else throw (Error "Unknown API error"))
          (fun _ =>
             (if (attempt <? maxRetries)%nat then delay 2000 else ret tt) ;;
             ret false) in
      if marked then ret true
      else markLoop rem (S attempt) maxRetries steamID64
  end.

(** [markSteamIdProcessedWithRetries(steamID, config)] with the default
    [maxRetries = 3] *)
Definition markSteamIdProcessedWithRetries (steamID64 : string) : M t bool :=
  markLoop 3 1 3 steamID64.

(** [async claimBatchFromQueue()] *)
Definition claimBatchFromQueue : M t (list WorkItem.t) :=
  try_catch
    (let* this := get in
     let* response :=
       makeQueueApiRequest
         (QueueClaim (instanceId this) (CLAIM_BATCH_SIZE (config this))) in
     ret (default [] (items response)))
    (fun _ => ret []).

(** [async completeInFilterQueue(itemIds)] *)
Definition completeInFilterQueue (itemIds : list string) : M t unit :=
  try_catch
    (let* this := get in
     let* _ := makeQueueApiRequest (QueueComplete (instanceId this) itemIds) in
     ret tt)
    (fun _ => ret tt).

(** [async releaseToFilterQueue(itemIds)] *)
Definition releaseToFilterQueue (itemIds : list string) : M t unit :=
  try_catch
    (let* this := get in
     let* _ := makeQueueApiRequest (QueueRelease (instanceId this) itemIds) in
     ret tt)
    (fun _ => ret tt).

(** [async addToProcessorQueue(steamID, username)]: logs and rethrows *)
Definition addToProcessorQueue (steamID64 username : string) : M t unit :=
  try_catch
    (let* _ := makeQueueApiRequest (ProcessorAdd username [steamID64]) in
     ret tt)
    (fun error => throw error).

(** [steamClient.logOff()] *)
Definition logOff : M t unit := emit LogOff.

(** [steamClient.gamesPlayed([730])] *)
Definition gamesPlayed : M t unit :=
  let* env := ask in
  if gamesPlayed_ok env then emit GamesPlayed
  else throw (Error "gamesPlayed failed").

(** [stop()]; [getStats()] near its end only reads *)
Definition stop : M t unit :=
  let* this := get in
  if negb (running this) then ret tt
  else
    modify (set_running false) ;;
    modify (set_processingActive false) ;;
    cm ConnectionManager.clearConnectionTimer ;;
    (match currentBatch this with
     | [] => ret tt
     | _ => spawn (T_releaseToFilterQueue (map WorkItem.id (currentBatch this)))
     end) ;;
    (match currentItem this with
     | Some item => spawn (T_releaseToFilterQueue [WorkItem.id item])
     | None => ret tt
     end) ;;
    (if steamID this then logOff else ret tt).

(** [isRunning()] *)
Definition isRunning (this : t) : bool := running this && processingActive this.

(** *** [this.connectionManager.handleConnectionTimeout()], called and not
    awaited

    The request timer of [fetchAndCheckProfile] calls the manager's method
    and goes on.  JavaScript runs the method inside that call up to the
    first [await] at which it has to wait -- [this.delay(5000)] in
    [attemptSimpleGcReconnection], [this.delay(2000)] in
    [performCleanShutdown] -- and runs the rest later.  The four
    definitions below are the parts of the manager's methods that run
    inside the call; each returns the call that is left to run, if any.
    With Steam logged off nothing waits, and the whole ban, [stop()]
    included, runs inside the call.  [Recovery] has the methods in full. *)

(** [this.filterService.currentSteamID]: [FilterService] never assigns
    such a property (its in-flight item is [currentItem]), so the read
    gives [undefined] *)
Definition currentSteamID (fs : t) : option WorkItem.t := None.

(** [this.filterService.returnToQueue(...)]: not a method of
    [FilterService] *)
Definition returnToQueue (item : WorkItem.t) : M t unit :=
  throw (TypeError "this.filterService.returnToQueue is not a function").

(** [performCleanShutdown(cooldownHours)] up to [await this.delay(2000)];
    with Steam logged off, the whole method *)
Definition performCleanShutdown_begin (cooldownMinutes : option Z) : M t (option task) :=
  try_catch
    (let* fs := get in
     (match currentSteamID fs with
      | Some item => returnToQueue item
      | None => ret tt
      end) ;;
     modify (set_processingActive false) ;;
     cm ConnectionManager.clearConnectionTimer ;;
     let* fs := get in
     if steamID fs then
       logOff ;;
       ret (Some (T_performCleanShutdown_rest cooldownMinutes))
     else
       (match cooldownMinutes with
        | None => throw (Error "RangeError: Invalid time value")
        | Some _ => ret tt
        end) ;;
       stop ;;
       modify (set_isBanned true) ;;
       let* t0 := now in
       modify (set_banEndTime (option_map (fun m => t0 + m * 60 * 1000) cooldownMinutes)) ;;
       ret None)
    (fun _ =>
       stop ;;
       modify (set_isBanned true) ;;
       ret None).

(** [handleBanDetected()] up to the wait of [performCleanShutdown] *)
Definition handleBanDetected_begin : M t (option task) :=
  let* fs := get in
  cm (modify (ConnectionManager.set_totalBanCount
                (ConnectionManager.totalBanCount (connectionManager fs) + 1))) ;;
  let* t0 := now in
  cm (modify (ConnectionManager.set_lastBanTime t0)) ;;
  let previousLevel := ConnectionManager.cooldownLevel (connectionManager fs) in
  cm (modify (ConnectionManager.set_cooldownLevel (Z.min (previousLevel + 1) maxLevel))) ;;
  let* fs := get in
  let cooldownMinutes :=
    at_index COOLDOWN_LEVELS (ConnectionManager.cooldownLevel (connectionManager fs)) in
  cm ConnectionManager.saveCooldownState ;;
  performCleanShutdown_begin cooldownMinutes.

(** [attemptSimpleGcReconnection()] up to [await this.delay(5000)] *)
Definition attemptSimpleGcReconnection_begin : M t (option task) :=
  try_catch
    (let* fs := get in
     if negb (steamID fs) then handleBanDetected_begin
     else
       modify (set_processingActive false) ;;
       ret (Some T_attemptSimpleGcReconnection_rest))
    (fun _ => handleBanDetected_begin).

(** [handleConnectionTimeout()] up to the wait of the method it calls *)
Definition handleConnectionTimeout_begin : M t (option task) :=
  let* fs := get in
  cm (modify (ConnectionManager.set_gcConnectionAttempts
                (ConnectionManager.gcConnectionAttempts (connectionManager fs) + 1))) ;;
  let* fs := get in
  if ConnectionManager.gcConnectionAttempts (connectionManager fs) =? 1
  then attemptSimpleGcReconnection_begin
  else handleBanDetected_begin.

(** The wait until the request timer of [fetchAndCheckProfile] fires *)
Definition elapse (ms : Z) : M t unit :=
  modify_sys (fun y => set_clock (clock y + ms) y).

(** [fetchAndCheckProfile(steamID64)]: the promise resolves with
    [(passed, filterReason)] or rejects.  [GcSilent] is the run of the
    request timer; a callback after that timer has no effect on the
    promise and is left out.  The timer's call of
    [handleConnectionTimeout()] is not awaited: what it throws would
    reject a promise that nobody holds. *)
Definition fetchAndCheckProfile (steamID64 : string)
    : M t (bool * option FilterReason) :=
  let* env := ask in
  match steamid env steamID64 with
  | SidThrows => throw (Error "SteamID construction error")
  | Sid accountID individual =>
      if accountID =? 0 then
        throw (Error "Invalid Steam ID or could not extract account ID")
      else if negb individual then
        throw (Error "not an individual account")
      else
        let* y := get_sys in
        modify_sys (set_gcno (S (gcno y))) ;;
        match gc env (gcno y) with
        | GcSilent =>
            emit (RequestProfile steamID64 false) ;;
            let* this := get in
            elapse (REQUEST_TIMEOUT (config this)) ;;
            modify (set_consecutiveTimeouts (consecutiveTimeouts this + 1)) ;;
            let* this := get in
            (if MAX_CONSECUTIVE_TIMEOUTS (config this) <=? consecutiveTimeouts this
             then
               try_catch
                 (let* rest := handleConnectionTimeout_begin in
                  match rest with
                  | Some call => spawn call
                  | None => ret tt
                  end)
                 (fun _ => ret tt)
             else ret tt) ;;
            throw (Error "Request timeout")
        | GcProfile profile =>
            emit (RequestProfile steamID64 true) ;;
            modify (set_consecutiveTimeouts 0) ;;
            match checkProfile profile with
            | inl error => throw error
            | inr result => ret result
            end
        end
  end.

(** The [while (attempts < maxRetries)] loop of
    [processSteamIDWithRetries]; [remaining] is [maxRetries - attempts]. *)
Fixpoint retryLoop (remaining attempts maxRetries : nat) (steamID64 : string)
    (lastError : option exn) : M t ProcessResult :=
  match remaining with
  | O => ret (Failed lastError)
  | S rem =>
      let attempts := S attempts in
      let* r :=
        try_catch
          (let* result := fetchAndCheckProfile steamID64 in ret (inr result))
          (fun error =>
             (let* this := get in
              if (attempts <? maxRetries)%nat
              then delay (ERROR_DELAY (config this))
              else ret tt) ;;
             ret (inl error)) in
      match r with
      | inr (passed, filterReason) => ret (Checked passed filterReason)
      | inl error => retryLoop rem attempts maxRetries steamID64 (Some error)
      end
  end.

(** [async processSteamIDWithRetries(steamID64, maxRetries)] *)
Definition processSteamIDWithRetries (steamID64 : string) (maxRetries : nat)
    : M t ProcessResult :=
  let* processResult := retryLoop maxRetries 0 maxRetries steamID64 None in
  try_catch
    (let* _ := markSteamIdProcessedWithRetries steamID64 in ret tt)
    (fun _ => ret tt) ;;
  ret processResult.

(** [if (!this.failureStats[id]) this.failureStats[id] = 0;
     this.failureStats[id]++].  [failureStats] is a plain object: for an id
    that it does not hold itself, the read finds what [Object.prototype]
    holds under that name, a function or the prototype object, which is
    truthy; the counter is then not set to 0, and [++] on such a value
    gives [NaN].  The assignment makes [NaN] an own property, except under
    [__proto__], whose setter ignores a number.  An own [0] or [NaN] is
    falsy and is counted from 0. *)
Definition countFailure (id : string) (stats : gmap string counter) : gmap string counter :=
  match stats !! id with
  | Some (Count n) => <[id := Count (n + 1)]> stats
  | Some NaN => <[id := Count 1]> stats
  | None =>
      if String.eqb id "__proto__" then stats
      else if inherited id then <[id := NaN]> stats
      else <[id := Count 1]> stats
  end.

(** What one turn of the [while] loop of [processQueue] does with the item
    it has taken from the batch *)
Definition processItem (item : WorkItem.t) : M t unit :=
  modify (set_currentItem (Some item)) ;;
  let* this := get in
  let* processResult :=
    processSteamIDWithRetries (WorkItem.id item) (MAX_RETRIES (config this)) in
  match processResult with
  | Checked true _ =>
      addToProcessorQueue (WorkItem.id item) (WorkItem.username item) ;;
      completeInFilterQueue [WorkItem.id item] ;;
      let* this := get in
      let* t0 := now in
      modify (set_requestCount (requestCount this + 1)) ;;
      modify (set_lastSuccessTime t0) ;;
      modify (set_consecutiveTimeouts 0)
  | Checked false _ =>
      completeInFilterQueue [WorkItem.id item] ;;
      let* this := get in
      modify (set_requestCount (requestCount this + 1)) ;;
      modify (set_consecutiveTimeouts 0)
  | Failed _ =>
      releaseToFilterQueue [WorkItem.id item] ;;
      let* this := get in
      modify (set_failureStats (countFailure (WorkItem.id item) (failureStats this)))
  end ;;
  modify (set_currentItem None) ;;
  let* env := ask in
  let* this := get in
  delay (random env (PROCESSING_DELAY_MIN (config this))
                    (PROCESSING_DELAY_MAX (config this))).

(** The body of the [while] loop of [processQueue], with its [try]/[catch] *)
Definition processQueue_turn : M t unit :=
  try_catch
    (let* this := get in
     let* claimed :=
       match currentBatch this with
       | [] =>
           let* batch := claimBatchFromQueue in
           match batch with
           | [] =>
               delay (EMPTY_QUEUE_DELAY (config this)) ;;
               ret false                                   (* continue *)
           | _ :: _ => modify (set_currentBatch batch) ;; ret true
           end
       | _ :: _ => ret true
       end in
     if claimed then
       let* this := get in
       match currentBatch this with
       | item :: rest =>
           modify (set_currentBatch rest) ;;              (* shift() *)
           processItem item
       | [] => throw (TypeError "item is undefined")
       end
     else ret tt)
    (fun _ =>
       let* this := get in
       delay (ERROR_DELAY (config this))).

(** [async processQueue()]: at most [turns] turns of the loop *)
Fixpoint processQueue (turns : nat) : M t unit :=
  match turns with
  | O => ret tt
  | S n =>
      let* this := get in
      if running this && processingActive this
      then processQueue_turn ;; processQueue n
      else ret tt
  end.

(** [startProcessing()] *)
Definition startProcessing : M t unit :=
  let* this := get in
  if processingActive this then ret tt
  else modify (set_processingActive true) ;; spawn T_processQueue.

(** [login()] *)
Definition login : M t unit :=
  let* env := ask in
  if totp_ok env then emit LogOn
  else (let* _ := setTimeout T_login 5000 in ret tt).

(** [start()]; [getCooldownInfo()] only reads the manager's fields *)
Definition start : M t unit :=
  let* this := get in
  if running this then ret tt
  else
    modify (set_running true) ;;
    let* t0 := now in
    modify (set_sessionStartTime t0) ;;
    login.

(** [new FilterService()]: [loadMaFile] rethrows when the file cannot be
    read *)
Definition new {St} : M St t :=
  let* env := ask in
  if negb (maFile_ok env) then throw (Error "Error loading maFile")
  else
    let id := worker_id env in
    let cfg := worker_config env in
    let* manager := ConnectionManager.new id cfg in
    let* t0 := now in
    ret (mk false false id [] None ∅ manager 0 0 t0 t0 false false None cfg).

(** *** The handlers that [setupEventHandlers] registers *)

(** ['loggedOn']; the client has set [steamID] before it emits the event *)
Definition on_loggedOn : M t unit :=
  modify (set_steamID true) ;;
  emit SetPersonaOnline ;;
  let* env := ask in
  let* this := get in
  let* _ := setTimeout T_launchGame
              (random env (LOGIN_TO_GAME_DELAY_MIN (config this))
                          (LOGIN_TO_GAME_DELAY_MAX (config this))) in
  ret tt.

(** The timer callback of ['loggedOn'] *)
Definition launchGame : M t unit :=
  let* this := get in
  if running this then
    gamesPlayed ;;
    cm ConnectionManager.startConnectionTimer
  else ret tt.

(** [csgo.on('connectedToGC', ...)] *)
Definition on_connectedToGC : M t unit :=
  cm ConnectionManager.clearConnectionTimer ;;
  cm ConnectionManager.reset ;;
  let* this := get in
  if negb (processingActive this) then startProcessing else ret tt.

(** [csgo.on('disconnectedFromGC', ...)] *)
Definition on_disconnectedFromGC : M t unit :=
  modify (set_processingActive false).

(** [steamClient.on('error', ...)]: the handler calls
    [this.connectionManager.handleConnectionError()], a method that
    [ConnectionManager] does not define *)
Definition on_error : M t unit :=
  throw (TypeError "this.connectionManager.handleConnectionError is not a function").

(** [steamClient.on('disconnected', ...)]; the client has cleared
    [steamID] before it emits the event *)
Definition on_disconnected : M t unit :=
  modify (set_steamID false) ;;
  modify (set_processingActive false) ;;
  let* this := get in
  if running this
  then (let* _ := setTimeout T_login 30000 in ret tt)
  else ret tt.

(** The timer callback of ['disconnected'] and of a failed [login] *)
Definition login_if_running : M t unit :=
  let* this := get in
  if running this then login else ret tt.

(** [process.on('SIGINT', ...)] and [process.on('SIGTERM', ...)] *)
Definition on_signal : M t unit :=
  stop ;;
  let* _ := setTimeout (T_exit 0) 5000 in
  ret tt.

End FilterService.

(** ** [ConnectionManager], continued: the methods that use
    [this.filterService].  Their state is the [FilterService] object, whose
    field [connectionManager] is the manager itself. *)

Module Recovery.
Import FilterService.

Definition attempts (fs : FilterService.t) : Z :=
  ConnectionManager.gcConnectionAttempts (connectionManager fs).
Definition level (fs : FilterService.t) : Z :=
  ConnectionManager.cooldownLevel (connectionManager fs).
Definition bans (fs : FilterService.t) : Z :=
  ConnectionManager.totalBanCount (connectionManager fs).
Definition lastBan (fs : FilterService.t) : Z :=
  ConnectionManager.lastBanTime (connectionManager fs).
Definition recovering (fs : FilterService.t) : bool :=
  ConnectionManager.recoveryInProgress (connectionManager fs).

(** [async performCleanShutdown(cooldownHours)].  The argument is given
    in minutes: the caller passes [cooldownMinutes / 60] and the method
    multiplies by [60 * 60 * 1000]; for the entries of the table, all
    multiples of 30, both steps are exact.  [None] is the [undefined] of
    an index outside the table, for which [toISOString] throws. *)
Definition performCleanShutdown (cooldownMinutes : option Z) : M FilterService.t unit :=
  try_catch
    (let* fs := get in
     (match currentSteamID fs with
      | Some item => returnToQueue item
      | None => ret tt
      end) ;;
     modify (set_processingActive false) ;;
     cm ConnectionManager.clearConnectionTimer ;;
     let* fs := get in
     (if steamID fs then logOff ;; delay 2000 else ret tt) ;;
     (match cooldownMinutes with
      | None => throw (Error "RangeError: Invalid time value")
      | Some _ => ret tt
      end) ;;
     stop ;;
     modify (set_isBanned true) ;;
     let* t0 := now in
     modify (set_banEndTime (option_map (fun m => t0 + m * 60 * 1000) cooldownMinutes)))
    (fun _ =>
       stop ;;
       modify (set_isBanned true)).

(** [async handleBanDetected()] *)
Definition handleBanDetected : M FilterService.t unit :=
  let* fs := get in
  cm (modify (ConnectionManager.set_totalBanCount (bans fs + 1))) ;;
  let* t0 := now in
  cm (modify (ConnectionManager.set_lastBanTime t0)) ;;
  let previousLevel := level fs in
  cm (modify (ConnectionManager.set_cooldownLevel (Z.min (previousLevel + 1) maxLevel))) ;;
  let* fs := get in
  let cooldownMinutes := at_index COOLDOWN_LEVELS (level fs) in
  cm ConnectionManager.saveCooldownState ;;
  performCleanShutdown cooldownMinutes.

(** [async attemptSimpleGcReconnection()] *)
Definition attemptSimpleGcReconnection : M FilterService.t unit :=
  try_catch
    (let* fs := get in
     if negb (steamID fs) then handleBanDetected
     else
       modify (set_processingActive false) ;;
       delay 5000 ;;
       gamesPlayed ;;
       cm ConnectionManager.startConnectionTimer)
    (fun _ => handleBanDetected).

(** [async handleConnectionTimeout()] *)
Definition handleConnectionTimeout : M FilterService.t unit :=
  let* fs := get in
  cm (modify (ConnectionManager.set_gcConnectionAttempts (attempts fs + 1))) ;;
  let* fs := get in
  if attempts fs =? 1 then attemptSimpleGcReconnection
  else handleBanDetected.

(** [async startRecovery()] *)
Definition startRecovery : M FilterService.t unit :=
  let* fs := get in
  if recovering fs then ret tt
  else
    cm (modify (ConnectionManager.set_recoveryInProgress true)) ;;
    finally
      (try_catch handleConnectionTimeout (fun _ => handleBanDetected))
      (cm (modify (ConnectionManager.set_recoveryInProgress false))).

(** [attemptSimpleGcReconnection()] from [await this.delay(5000)] on *)
Definition attemptSimpleGcReconnection_rest : M FilterService.t unit :=
  try_catch
    (delay 5000 ;;
     gamesPlayed ;;
     cm ConnectionManager.startConnectionTimer)
    (fun _ => handleBanDetected).

(** [performCleanShutdown(cooldownHours)] from [await this.delay(2000)] on *)
Definition performCleanShutdown_rest (cooldownMinutes : option Z) : M FilterService.t unit :=
  try_catch
    (delay 2000 ;;
     (match cooldownMinutes with
      | None => throw (Error "RangeError: Invalid time value")
      | Some _ => ret tt
      end) ;;
     stop ;;
     modify (set_isBanned true) ;;
     let* t0 := now in
     modify (set_banEndTime (option_map (fun m => t0 + m * 60 * 1000) cooldownMinutes)))
    (fun _ =>
       stop ;;
       modify (set_isBanned true)).

(** Running a queued call or a timer callback of the worker.  [turns]
    bounds the turns of a queued [processQueue]. *)
Definition run_task (turns : nat) (t : task) : M FilterService.t unit :=
  match t with
  | T_loadCooldownState => cm ConnectionManager.loadCooldownState
  | T_saveCooldownState st => cm (ConnectionManager.saveCooldownState_body st)
  | T_releaseToFilterQueue ids => releaseToFilterQueue ids
  | T_handleConnectionTimeout => handleConnectionTimeout
  | T_attemptSimpleGcReconnection_rest => attemptSimpleGcReconnection_rest
  | T_performCleanShutdown_rest cooldownMinutes => performCleanShutdown_rest cooldownMinutes
  | T_startRecovery => startRecovery
  | T_processQueue => processQueue turns
  | T_launchGame => launchGame
  | T_login => login_if_running
  | T_filterRestart => ret tt
  | T_exit code => emit (ProcessExit code)
  end.

(** Run the queued calls, oldest first, [n] of them at most. *)
Fixpoint drain (turns n : nat) : M FilterService.t unit :=
  match n with
  | O => ret tt
  | S n' =>
      let* y := get_sys in
      match spawned y with
      | [] => ret tt
      | t :: rest =>
          modify_sys (set_spawned rest) ;;
          run_task turns t ;;
          drain turns n'
      end
  end.

End Recovery.

(** ** main.js: [GCFilterWorker], the supervisor.  [start()], which wires
    the process, and [getStatus] are not part of the embedding. *)

(** [CONFIG.COOLDOWN_LEVELS] of main.js *)
Definition CONFIG_COOLDOWN_LEVELS : list Z := [0; 30; 60; 120; 240; 480].

(** [calculateCooldownEndTime(cooldownState)] *)
Definition calculateCooldownEndTime (cooldownState : CooldownState.t) : Z :=
  if (CooldownState.lastBanTime cooldownState =? 0)
     || (CooldownState.cooldownLevel cooldownState =? 0)
  then 0
  else
    let cooldownMinutes :=
      default 0 (at_index CONFIG_COOLDOWN_LEVELS (CooldownState.cooldownLevel cooldownState)) in
    CooldownState.lastBanTime cooldownState + cooldownMinutes * 60 * 1000.

(** [getRemainingCooldownTime(cooldownState)], with [Date.now()] as [t0] *)
Definition getRemainingCooldownTime (cooldownState : CooldownState.t) (t0 : Z) : Z :=
  Z.max 0 (calculateCooldownEndTime cooldownState - t0).

Module GCFilterWorker.

Record t := mk {
  running : bool;
  filterWorker : option FilterService.t;
  filterWorkerRunning : bool;
  filterRestartTimer : option nat;
  instanceId : string;
  cooldownStateManager : CooldownStateManager.t
}.

Definition set_running (v : bool) (x : t) : t :=
  mk v (filterWorker x) (filterWorkerRunning x) (filterRestartTimer x)
    (instanceId x) (cooldownStateManager x).
Definition set_filterWorker (v : option FilterService.t) (x : t) : t :=
  mk (running x) v (filterWorkerRunning x) (filterRestartTimer x)
    (instanceId x) (cooldownStateManager x).
Definition set_filterWorkerRunning (v : bool) (x : t) : t :=
  mk (running x) (filterWorker x) v (filterRestartTimer x) (instanceId x)
    (cooldownStateManager x).
Definition set_filterRestartTimer (v : option nat) (x : t) : t :=
  mk (running x) (filterWorker x) (filterWorkerRunning x) v (instanceId x)
    (cooldownStateManager x).
Definition set_instanceId (v : string) (x : t) : t :=
  mk (running x) (filterWorker x) (filterWorkerRunning x)
    (filterRestartTimer x) v (cooldownStateManager x).
Definition set_cooldownStateManager (v : CooldownStateManager.t) (x : t) : t :=
  mk (running x) (filterWorker x) (filterWorkerRunning x)
    (filterRestartTimer x) (instanceId x) v.

Definition store {A} (m : M CooldownStateManager.t A) : M t A :=
  zoom cooldownStateManager set_cooldownStateManager m.

(** A method call on [this.filterWorker] *)
Definition worker {A} (m : M FilterService.t A) : M t A :=
  fun env sys this =>
    match filterWorker this with
    | None => mkRes [] sys this (inl (TypeError "this.filterWorker is null"))
    | Some w =>
        match m env sys w with
        | mkRes ev sys1 w1 v => mkRes ev sys1 (set_filterWorker (Some w1) this) v
        end
    end.

(** [loadCooldownStateAsync(cooldownStateManager)] *)
Definition loadCooldownStateAsync : M t CooldownState.t :=
  try_catch (store CooldownStateManager.load) (fun _ => ret CooldownState.zero).

(** [loadCooldownState()]: main.js calls this name in the callback of
    [scheduleFilterRestart] (and in [getStatus]) but neither defines nor
    imports it -- the file only has [loadCooldownStateAsync] -- so the
    call throws a ReferenceError *)
Definition loadCooldownState : M t CooldownState.t :=
  throw (ReferenceError "loadCooldownState").

(** [detectManualRestart()] *)
Definition detectManualRestart (env : Env) : bool :=
  if RESET_COOLDOWN env then true
  else if argv_reset_cooldown env then true
  else if INVOCATION_ID env || (ppid env =? 1) then true
  else false.

(** [async clearCooldownState()] *)
Definition clearCooldownState : M t unit :=
  try_catch (store CooldownStateManager.clear) (fun _ => ret tt).

(** [scheduleFilterRestart(delayMs)] *)
Definition scheduleFilterRestart (delayMs : Z) : M t unit :=
  let* this := get in
  (match filterRestartTimer this with
   | Some h => clearTimeout h
   | None => ret tt
   end) ;;
  let* h := setTimeout T_filterRestart delayMs in
  modify (set_filterRestartTimer (Some h)).

(** [startFilterWorker()] *)
Definition startFilterWorker : M t unit :=
  let* this := get in
  if filterWorkerRunning this then ret tt
  else
    try_catch
      (let* w := FilterService.new in
       modify (set_filterWorker (Some w)) ;;
       worker FilterService.start ;;
       modify (set_filterWorkerRunning true))
      (fun _ => scheduleFilterRestart 60000).

(** The callback that [scheduleFilterRestart] hands to [setTimeout] *)
Definition filterRestart_callback : M t unit :=
  let* cooldownState := loadCooldownState in
  startFilterWorker.

(** [async checkAndStartFilterService()] *)
Definition checkAndStartFilterService : M t unit :=
  let* env := ask in
  if detectManualRestart env then
    clearCooldownState ;;
    startFilterWorker
  else
    let* cooldownState := loadCooldownStateAsync in
    let* t0 := now in
    let remainingCooldown := getRemainingCooldownTime cooldownState t0 in
    if 0 <? remainingCooldown
    then scheduleFilterRestart remainingCooldown
    else startFilterWorker.

(** [shutdown()] *)
Definition shutdown : M t unit :=
  let* this := get in
  if negb (running this) then ret tt
  else
    modify (set_running false) ;;
    (match filterRestartTimer this with
     | Some h => clearTimeout h ;; modify (set_filterRestartTimer None)
     | None => ret tt
     end) ;;
    (match filterWorker this with
     | Some _ => try_catch (worker FilterService.stop) (fun _ => ret tt)
     | None => ret tt
     end) ;;
    modify (set_filterWorkerRunning false) ;;
    let* _ := setTimeout (T_exit 0) 1000 in
    ret tt.

(** [process.on('uncaughtException', ...)] *)
Definition on_uncaughtException (error : exn) : M t unit := shutdown.

(** The timer with handle [h] fires: Node removes it and runs its
    callback; what the callback throws reaches the 'uncaughtException'
    handler.  Timers of the worker run on [this.filterWorker]. *)
Definition callback (turns : nat) (cb : task) : M t unit :=
  match cb with
  | T_filterRestart => filterRestart_callback
  | T_exit code => emit (ProcessExit code)
  | _ => worker (Recovery.run_task turns cb)
  end.

Definition fire (turns : nat) (h : nat) : M t unit :=
  let* y := get_sys in
  match List.find (fun e => Nat.eqb (fst e) h) (timers y) with
  | None => ret tt
  | Some (_, (_, cb)) =>
      clearTimeout h ;;
      try_catch (callback turns cb) on_uncaughtException
  end.

(** The two callbacks that [monitorFilterWorker] hands to [setTimeout] *)
Inductive monitor_timer :=
| StartIfIdle        (* if (this.running && !this.filterWorkerRunning) this.startFilterWorker() *)
| StartIfRunning.    (* if (this.running) this.startFilterWorker() *)

(** [monitorFilterWorker()], one tick of the 30-second interval.  It drops
    the handle of the timer it arms, so the timer is its result here: the
    delay and the callback, or [None] when it arms none.  [isRunning()]
    does not throw, so the [catch] is never entered. *)
Definition monitorFilterWorker : M t (option (Z * monitor_timer)) :=
  let* this := get in
  if negb (running this) then ret None
  else
    match filterWorkerRunning this, filterWorker this with
    | true, Some w =>
        if negb (FilterService.isRunning w) && negb (FilterService.isBanned w)
        then
          modify (set_filterWorkerRunning false) ;;
          modify (set_filterWorker None) ;;
          ret (Some (5000, StartIfRunning))
        else ret None
    | _, _ => ret (Some (2000, StartIfIdle))
    end.

(** A timer of the monitor fires *)
Definition monitor_callback (cb : monitor_timer) : M t unit :=
  let* this := get in
  match cb with
  | StartIfIdle =>
      if running this && negb (filterWorkerRunning this)
      then startFilterWorker else ret tt
  | StartIfRunning =>
      if running this then startFilterWorker else ret tt
  end.

End GCFilterWorker.

(** Requests among the events, and failed ones. *)
Definition is_remote (e : event) : bool :=
  match e with Http _ _ => true | _ => false end.

Definition remote_calls (l : list event) : list event := List.filter is_remote l.

Definition remote_failed (l : list event) : bool :=
  existsb (fun e => match e with Http _ false => true | _ => false end) l.

(** ** What the properties below observe *)

(** The requests that settle an item in the source queue or forward it. *)
Definition is_queue_call (e : event) : bool :=
  match e with
  | Http (QueueComplete _ _) _ | Http (QueueRelease _ _) _ | Http (ProcessorAdd _ _) _ => true
  | _ => false
  end.

Definition queue_calls (l : list event) : list event := List.filter is_queue_call l.

(** [complete] and [release] requests *)
Definition is_settlement (e : event) : bool :=
  match e with
  | Http (QueueComplete _ _) _ | Http (QueueRelease _ _) _ => true
  | _ => false
  end.

Definition settlements (l : list event) : list event := List.filter is_settlement l.

(** A downstream enqueue whose request failed *)
Definition enqueue_failed (l : list event) : bool :=
  existsb (fun e => match e with Http (ProcessorAdd _ _) false => true | _ => false end) l.

(** A release request that names [id] and succeeded *)
Definition release_confirmed (id : string) (l : list event) : bool :=
  existsb (fun e => match e with
                    | Http (QueueRelease _ ids) true => existsb (String.eqb id) ids
                    | _ => false
                    end) l.

(** The attempt that asks the Game Coordinator for the [n]-th time rejects:
    the id does not parse to an individual account, or the coordinator stays
    silent, or it hands over no profile. *)
Definition fetch_rejects (env : Env) (steamID64 : string) (n : nat) : bool :=
  match steamid env steamID64 with
  | SidThrows => true
  | Sid accountID individual =>
      (accountID =? 0) || negb individual ||
      match gc env n with
      | GcSilent | GcProfile None => true
      | GcProfile (Some _) => false
      end
  end.

(** What the loop sends to the queue for an item, by the outcome of its
    processing; [ok] is the fate of the last request. *)
Definition routed (inst : string) (item : WorkItem.t) (result : ProcessResult) (ok : bool)
    : list event :=
  match result with
  | Checked true _ =>
      [Http (ProcessorAdd (WorkItem.username item) [WorkItem.id item]) true;
       Http (QueueComplete inst [WorkItem.id item]) ok]
  | Checked false _ => [Http (QueueComplete inst [WorkItem.id item]) ok]
  | Failed _ => [Http (QueueRelease inst [WorkItem.id item]) ok]
  end.

(** What the timeout handling inside a fetch attempt leaves alone: the work
    the worker holds, its failure counters and its configuration.  (It can
    clear [running] and [processingActive], change the manager's fields
    and mark the worker banned.) *)
Definition same_work (a b : FilterService.t) : Prop :=
  FilterService.instanceId b = FilterService.instanceId a /\
  FilterService.currentBatch b = FilterService.currentBatch a /\
  FilterService.currentItem b = FilterService.currentItem a /\
  FilterService.failureStats b = FilterService.failureStats a /\
  FilterService.config b = FilterService.config a.

(** The item that a turn of the loop takes: the head of the batch in hand
    or, when none is in hand, the head of the batch that the turn claims;
    with it, the rest of that batch, and the process state in which the
    work on the item starts. *)
Definition next_item (env : Env) (sys : Sys) (fs : FilterService.t)
    : option (WorkItem.t * list WorkItem.t * Sys) :=
  match FilterService.currentBatch fs with
  | item :: rest => Some (item, rest, sys)
  | [] =>
      let claim := FilterService.claimBatchFromQueue env sys fs in
      match val_of claim with
      | inr (item :: rest) => Some (item, rest, sys_of claim)
      | _ => None
      end
  end.

(** What the part of the timeout handling that runs inside the request
    timer does not do: it holds on to the work, makes no request, lets no
    time pass, emits at most the log-off, and does not throw. *)
Definition quiet (sys : Sys) (fs : FilterService.t) (r : Res FilterService.t (option task))
    : Prop :=
  same_work fs (st_of r) /\
  Forall (fun e => e = LogOff) (events r) /\
  reqno (sys_of r) = reqno sys /\
  gcno (sys_of r) = gcno sys /\
  clock (sys_of r) = clock sys /\
  exists rest, val_of r = inr rest.

(** Running what a call that was begun has left to run *)
Definition finish (rest : option task) : M FilterService.t unit :=
  match rest with
  | Some call => Recovery.run_task 0 call
  | None => ret tt
  end.

(** What the work on an item never undoes: a call that is queued stays
    queued, a worker that was stopped stays stopped, a worker that was
    marked banned stays so. *)
Definition onward {A} (sys : Sys) (fs : FilterService.t) (r : Res FilterService.t A) : Prop :=
  (forall t, In t (spawned sys) -> In t (spawned (sys_of r))) /\
  (FilterService.running fs = false -> FilterService.running (st_of r) = false) /\
  (FilterService.isBanned fs = true -> FilterService.isBanned (st_of r) = true).

(** A ban was declared and [stop()] has queued the release of [item]. *)
Definition stopped_with {A} (item : WorkItem.t) (r : Res FilterService.t A) : Prop :=
  FilterService.running (st_of r) = false /\
  FilterService.isBanned (st_of r) = true /\
  In (T_releaseToFilterQueue [WorkItem.id item]) (spawned (sys_of r)).

(** The [catch] of the loop body of [processQueue] *)
Definition loop_catch : exn -> M FilterService.t unit :=
  fun _ => let* this := get in delay (ERROR_DELAY (FilterService.config this)).

(** The calls that [stop] queues *)
Definition queued_by_stop (fs : FilterService.t) : list task :=
  (match FilterService.currentBatch fs with
   | [] => []
   | _ :: _ => [T_releaseToFilterQueue (map WorkItem.id (FilterService.currentBatch fs))]
   end) ++
  (match FilterService.currentItem fs with
   | Some item => [T_releaseToFilterQueue [WorkItem.id item]]
   | None => []
   end).

(** The manager's cooldown fields and attempt counter agree in two states. *)
Definition same_cooldown (a b : FilterService.t) : Prop :=
  Recovery.bans b = Recovery.bans a /\
  Recovery.lastBan b = Recovery.lastBan a /\
  Recovery.level b = Recovery.level a /\
  Recovery.attempts b = Recovery.attempts a.

(** The state after the three assignments at the head of [handleBanDetected] *)
Definition escalated (t0 : Z) (fs : FilterService.t) : FilterService.t :=
  let m := FilterService.connectionManager fs in
  FilterService.set_connectionManager
    (ConnectionManager.set_cooldownLevel (Z.min (Recovery.level fs + 1) maxLevel)
       (ConnectionManager.set_lastBanTime t0
          (ConnectionManager.set_totalBanCount (Recovery.bans fs + 1) m))) fs.

(** The state after [this.gcConnectionAttempts++] *)
Definition counted (fs : FilterService.t) : FilterService.t :=
  FilterService.set_connectionManager
    (ConnectionManager.set_gcConnectionAttempts (Recovery.attempts fs + 1)
       (FilterService.connectionManager fs)) fs.

(** A run that ends with a ban declared: one more ban counted, the level one
    step up (capped), the worker marked banned. *)
Definition declares_ban (fs : FilterService.t) (r : Res FilterService.t unit) : Prop :=
  Recovery.bans (st_of r) = Recovery.bans fs + 1 /\
  Recovery.level (st_of r) = Z.min (Recovery.level fs + 1) maxLevel /\
  FilterService.isBanned (st_of r) = true.

(** ** Further observations *)

(** *** Calls on the connection manager

    The methods of [ConnectionManager] that a client calls, run on the
    worker that owns the manager.  [reset] and [loadCooldownState], which
    the constructor calls, and [performCleanShutdown], which
    [handleBanDetected] calls, are not among them. *)
Inductive manager_call :=
| BanDetected
| ConnectionTimeout
| StartRecovery
| GcConnected
| GcDisconnected
| SteamError
| StartConnectionTimer
| ClearConnectionTimer
| ResetCooldown
| SetCooldownLevel (level : Z).

Definition call (c : manager_call) : M FilterService.t unit :=
  match c with
  | BanDetected => Recovery.handleBanDetected
  | ConnectionTimeout => Recovery.handleConnectionTimeout
  | StartRecovery => Recovery.startRecovery
  | GcConnected => FilterService.cm ConnectionManager.onGcConnected
  | GcDisconnected => FilterService.cm ConnectionManager.onGcDisconnected
  | SteamError => FilterService.cm ConnectionManager.onSteamError
  | StartConnectionTimer => FilterService.cm ConnectionManager.startConnectionTimer
  | ClearConnectionTimer => FilterService.cm ConnectionManager.clearConnectionTimer
  | ResetCooldown => FilterService.cm ConnectionManager.resetCooldown
  | SetCooldownLevel level => FilterService.cm (ConnectionManager.setCooldownLevel level)
  end.

Fixpoint calls (l : list manager_call) : M FilterService.t unit :=
  match l with
  | [] => ret tt
  | c :: l' => call c ;; calls l'
  end.

(** [n] calls of [handleBanDetected], one after the other *)
Fixpoint bans_in_a_row (n : nat) : M FilterService.t unit :=
  match n with
  | O => ret tt
  | S n' => Recovery.handleBanDetected ;; bans_in_a_row n'
  end.

(** What one call can do to the ban count and to the level: the count
    stays or grows by one; the level stays, moves one step up (capped), or
    is set to a level of the table. *)
Definition steps (fs : FilterService.t) (r : Res FilterService.t unit) : Prop :=
  val_of r = inr tt /\
  (Recovery.bans (st_of r) = Recovery.bans fs \/
   Recovery.bans (st_of r) = Recovery.bans fs + 1) /\
  (Recovery.level (st_of r) = Recovery.level fs \/
   Recovery.level (st_of r) = Z.min (Recovery.level fs + 1) maxLevel \/
   0 <= Recovery.level (st_of r) <= maxLevel).

(** *** Pending timers *)

(** The connection timers among the pending timers *)
Definition is_connection_timer (e : nat * (Z * task)) : bool :=
  match snd (snd e) with T_handleConnectionTimeout => true | _ => false end.

Definition connection_timers (y : Sys) : list (nat * (Z * task)) :=
  List.filter is_connection_timer (timers y).

(** [this.connectionManager.connectionTimer] *)
Definition recorded_timer (fs : FilterService.t) : option nat :=
  ConnectionManager.connectionTimer (FilterService.connectionManager fs).

(** Handles are handed out in increasing order, and the only connection
    timer that can be pending is the one the manager has on record. *)
Definition timer_tracked (y : Sys) (fs : FilterService.t) : Prop :=
  Forall (fun e => (fst e < timerno y)%nat) (timers y) /\
  NoDup (map fst (timers y)) /\
  forall e, In e (connection_timers y) -> recorded_timer fs = Some (fst e).

(** The pending timers after [clearTimeout(h)], when [h] is a handle *)
Definition without (h : option nat) (l : list (nat * (Z * task))) : list (nat * (Z * task)) :=
  match h with
  | Some h => List.filter (fun e => negb (Nat.eqb (fst e) h)) l
  | None => l
  end.

(** What a call does to the pending timers and to the recorded handle:
    nothing; or the recorded timer is cleared; or it is cleared and a new
    connection timer is armed and recorded; or it is cleared and a recovery
    timer is armed. *)
Definition timer_shape (y : Sys) (fs : FilterService.t) (r : Res FilterService.t unit) : Prop :=
  (timers (sys_of r) = timers y /\ timerno (sys_of r) = timerno y /\
   recorded_timer (st_of r) = recorded_timer fs) \/
  (timers (sys_of r) = without (recorded_timer fs) (timers y) /\
   timerno (sys_of r) = timerno y /\ recorded_timer (st_of r) = None) \/
  (exists d,
     timers (sys_of r) =
       without (recorded_timer fs) (timers y) ++ [(timerno y, (d, T_handleConnectionTimeout))] /\
     timerno (sys_of r) = S (timerno y) /\ recorded_timer (st_of r) = Some (timerno y)) \/
  (exists d,
     timers (sys_of r) =
       without (recorded_timer fs) (timers y) ++ [(timerno y, (d, T_startRecovery))] /\
     timerno (sys_of r) = S (timerno y) /\ recorded_timer (st_of r) = None).

(** The restart timers of the supervisor among the pending timers *)
Definition is_restart_timer (e : nat * (Z * task)) : bool :=
  match snd (snd e) with T_filterRestart => true | _ => false end.
Definition restart_timers (y : Sys) : list (nat * (Z * task)) :=
  List.filter is_restart_timer (timers y).

(** *** Events by kind *)

(** The [n]-th request of the process, as [markSteamIdProcessedWithRetries]
    judges its answer: status 200, a body that parses, [success] true *)
Definition mark_ok (env : Env) (n : nat) : bool :=
  match http env n with
  | Reply code (Some p) => (code =? 200) && success p
  | _ => false
  end.

Definition is_mark (e : event) : bool :=
  match e with Http (MarkProcessed _) _ => true | _ => false end.
Definition mark_calls (l : list event) : list event := List.filter is_mark l.

Definition is_delay (e : event) : bool :=
  match e with Delay _ => true | _ => false end.
Definition delays (l : list event) : list event := List.filter is_delay l.

Definition is_profile_request (e : event) : bool :=
  match e with RequestProfile _ _ => true | _ => false end.
Definition profile_requests (l : list event) : list event :=
  List.filter is_profile_request l.

(** What [fetchAndCheckProfile] and the retry loop around it emit (the
    log-off is that of the timeout handling), and what
    [markSteamIdProcessedWithRetries] emits *)
Definition gc_event (e : event) : bool :=
  is_profile_request e || is_delay e || match e with LogOff => true | _ => false end.
Definition mark_event (e : event) : bool := is_mark e || is_delay e.

(** Claim requests *)
Definition is_claim (e : event) : bool :=
  match e with Http (QueueClaim _ _) _ => true | _ => false end.
Definition claims (l : list event) : list event := List.filter is_claim l.

(** The ids that the complete and release requests among the events name,
    in the order of the requests *)
Definition settled_ids (l : list event) : list string :=
  flat_map (fun e => match e with
                     | Http (QueueComplete _ ids) _ | Http (QueueRelease _ ids) _ => ids
                     | _ => []
                     end) l.

(** ** Concrete inputs *)

Module Sample.

Definition url : string := "https://queue.example/api/".

Definition cfg : Config :=
  mkConfig (Some url) (Some "https://marker.example/mark/"%string)
    10 10000 500 1000 15000 25000 5000 3 20000 10 120000.

(** [{ success: true }] *)
Definition accepted : parsed := mkParsed true false None None true.

(** A profile that passes the filter *)
Definition passing : Profile := mkProfile (Some [874; 1376; 1377]) 3 2 1.

(** The same medals with 100 commendations in all *)
Definition commended : Profile := mkProfile (Some [874; 1376; 1377]) 40 30 30.

Definition env_of (net : nat -> http_outcome) (coordinator : nat -> gc_reply) : Env :=
  mkEnv net coordinator (fun _ => Sid 40000001 true) true (fun lo _ => lo)
    true true true cfg "filter-00c0ffee" false false false 4242.

Definition up : nat -> http_outcome := fun _ => Reply 200 (Some accepted).
Definition down : nat -> http_outcome := fun _ => NetError.
Definition answers : nat -> gc_reply := fun _ => GcProfile (Some passing).

Definition env_up : Env := env_of up answers.
Definition env_down : Env := env_of down answers.
Definition env_silent : Env := env_of up (fun _ => GcSilent).

(** The second request of the process, the downstream enqueue of the first
    item, meets a network error. *)
Definition env_add_fails : Env :=
  env_of (fun n => if Nat.eqb n 1 then NetError else Reply 200 (Some accepted)) answers.

(** The first request fails, the later ones succeed. *)
Definition env_first_fails : Env :=
  env_of (fun n => if Nat.eqb n 0 then NetTimeout else Reply 200 (Some accepted)) answers.

(** [gamesPlayed] throws *)
Definition env_no_game : Env :=
  mkEnv up answers (fun _ => Sid 40000001 true) true (fun lo _ => lo)
    true false true cfg "filter-00c0ffee" false false false 4242.

Definition t0 : Z := 1700000000000.

Definition sys0 : Sys := mkSys t0 0 0 None 0 [] [].

Definition store0 : CooldownStateManager.t :=
  CooldownStateManager.new "filter-00c0ffee" (Some url).

Definition manager (attempts level : Z) : ConnectionManager.t :=
  ConnectionManager.mk attempts 0 None false 0 0 level store0 120000.

Definition item (id : string) : WorkItem.t := WorkItem.mk id "harvester".

Definition a : WorkItem.t := item "76561198000000001".
Definition b : WorkItem.t := item "76561198000000002".
Definition c : WorkItem.t := item "76561198000000003".

Definition worker (m : ConnectionManager.t) (batch : list WorkItem.t)
    (current : option WorkItem.t) (loggedOn : bool) : FilterService.t :=
  FilterService.mk true true "filter-00c0ffee" batch current ∅ m 0 0 0 0 loggedOn false None cfg.

(** A worker at level 2 with [b; c] claimed and [a] in flight *)
Definition busy : FilterService.t := worker (manager 0 2) [b; c] (Some a) true.

(** The same worker with Steam logged off *)
Definition logged_off : FilterService.t := worker (manager 0 2) [b; c] (Some a) false.

(** The same worker after one connection timeout *)
Definition timed_out_once : FilterService.t := worker (manager 1 2) [b; c] (Some a) true.

(** A worker about to take [a] from its batch *)
Definition ready : FilterService.t := worker (manager 0 0) [a; b] None true.

(** A worker with nothing claimed *)
Definition idle : FilterService.t := worker (manager 0 0) [] None true.

(** The state a ban left in the fallback file ten minutes ago: level 1 *)
Definition persisted : CooldownState.t := CooldownState.mk (t0 - 600000) 1 1.

Definition sys_cooling : Sys := mkSys t0 0 0 (Some (Some persisted)) 0 [] [].

(** The supervisor inside [start()], before [checkAndStartFilterService] *)
Definition supervisor : GCFilterWorker.t :=
  GCFilterWorker.mk true None false None "gc-worker-00c0ffee"
    (CooldownStateManager.new "gc-worker-00c0ffee" (Some url)).

(** The store with remote access turned off *)
Definition file_only : CooldownStateManager.t :=
  CooldownStateManager.set_useRedis false store0.

(** A manager ten minutes into the cooldown that [persisted] records *)
Definition cooling_manager : ConnectionManager.t :=
  ConnectionManager.mk 0 0 None false (t0 - 600000) 1 1 store0 120000.

(** An idle worker with that manager *)
Definition cooling : FilterService.t := worker cooling_manager [] None true.

(** The process was started with RESET_COOLDOWN=true; the remote store is
    unreachable *)
Definition env_manual : Env :=
  mkEnv down answers (fun _ => Sid 40000001 true) true (fun lo _ => lo)
    true true true cfg "filter-00c0ffee" true false false 4242.

(** The maFile cannot be read *)
Definition env_no_maFile : Env :=
  mkEnv up answers (fun _ => Sid 40000001 true) true (fun lo _ => lo)
    true true false cfg "filter-00c0ffee" false false false 4242.

(** The supervisor with the worker [busy] running *)
Definition supervising : GCFilterWorker.t :=
  GCFilterWorker.mk true (Some busy) true None "gc-worker-00c0ffee"
    (CooldownStateManager.new "gc-worker-00c0ffee" (Some url)).

(** The answer to a claim: the items [a] and [b] *)
Definition claimed : parsed := mkParsed true false None (Some [a; b]) true.

(** The first request of the process, the claim, is answered with [a] and
    [b]; the later ones are accepted. *)
Definition env_claims : Env :=
  env_of (fun n => if Nat.eqb n 0 then Reply 200 (Some claimed)
                   else Reply 200 (Some accepted)) answers.



(** The worker [ready] with [MAX_CONSECUTIVE_TIMEOUTS] set to 3 *)
Definition impatient : FilterService.t :=
  FilterService.set_config
    (mkConfig (Some url) (Some "https://marker.example/mark/"%string)
       10 10000 500 1000 15000 25000 5000 3 20000 3 120000) ready.

(** The worker [impatient] with Steam logged off and two request timeouts
    in a row behind it *)
Definition stranded : FilterService.t :=
  FilterService.set_steamID false (FilterService.set_consecutiveTimeouts 2 impatient).

(** The coordinator is silent on the first request and answers the later
    ones *)
Definition env_late : Env :=
  env_of up (fun n => if Nat.eqb n 0 then GcSilent else GcProfile (Some passing)).

(** What the ban of [busy] at [t0] saves: its first ban, level 3 *)
Definition saved : CooldownState.t := CooldownState.mk t0 1 3.

(** The next process, started ten minutes after that ban *)
Definition sys_restarted : Sys := mkSys (t0 + 600000) 0 0 (Some (Some saved)) 0 [] [].

End Sample.

(** ** Proof tools *)

(** Reduction of the monad's primitives and of record fields, leaving
    methods folded. *)
Tactic Notation "simp" :=
  cbv [negb andb orb option_map fst snd
       ret throw bind try_catch finally get put modify ask get_sys modify_sys
       emit zoom now delay spawn setTimeout clearTimeout node_request
       events sys_of st_of val_of set_clock set_reqno set_gcno set_file
       set_timers set_spawned clock reqno gcno file timerno timers spawned
       http gc steamid fs_ok random totp_ok gamesPlayed_ok maFile_ok
       worker_config worker_id RESET_COOLDOWN argv_reset_cooldown
       INVOCATION_ID ppid CooldownStateManager.useRedis
       CooldownStateManager.config_QUEUE_API_URL
       CooldownStateManager.instanceId CooldownStateManager.set_useRedis
       ConnectionManager.store ConnectionManager.snapshot
       ConnectionManager.gcConnectionAttempts
       ConnectionManager.lastGcConnectionTime
       ConnectionManager.connectionTimer ConnectionManager.recoveryInProgress
       ConnectionManager.lastBanTime ConnectionManager.totalBanCount
       ConnectionManager.cooldownLevel ConnectionManager.cooldownStateManager
       ConnectionManager.config_GC_CONNECTION_TIMEOUT
       ConnectionManager.set_gcConnectionAttempts
       ConnectionManager.set_lastGcConnectionTime
       ConnectionManager.set_connectionTimer
       ConnectionManager.set_recoveryInProgress
       ConnectionManager.set_lastBanTime ConnectionManager.set_totalBanCount
       ConnectionManager.set_cooldownLevel
       ConnectionManager.set_cooldownStateManager
       ConnectionManager.set_config_GC_CONNECTION_TIMEOUT
       CooldownState.lastBanTime CooldownState.totalBanCount
       CooldownState.cooldownLevel CooldownState.zero FilterService.cm
       FilterService.running FilterService.processingActive
       FilterService.instanceId FilterService.currentBatch
       FilterService.currentItem FilterService.failureStats
       FilterService.connectionManager FilterService.requestCount
       FilterService.consecutiveTimeouts FilterService.lastSuccessTime
       FilterService.sessionStartTime FilterService.steamID
       FilterService.isBanned FilterService.banEndTime FilterService.config
       FilterService.set_running FilterService.set_processingActive
       FilterService.set_instanceId FilterService.set_currentBatch
       FilterService.set_currentItem FilterService.set_failureStats
       FilterService.set_connectionManager FilterService.set_requestCount
       FilterService.set_consecutiveTimeouts
       FilterService.set_lastSuccessTime FilterService.set_sessionStartTime
       FilterService.set_steamID FilterService.set_isBanned
       FilterService.set_banEndTime FilterService.set_config WorkItem.id
       WorkItem.username Recovery.attempts Recovery.level Recovery.bans
       Recovery.lastBan Recovery.recovering GCFilterWorker.store
       GCFilterWorker.running GCFilterWorker.filterWorker
       GCFilterWorker.filterWorkerRunning GCFilterWorker.filterRestartTimer
       GCFilterWorker.instanceId GCFilterWorker.cooldownStateManager
       GCFilterWorker.set_running GCFilterWorker.set_filterWorker
       GCFilterWorker.set_filterWorkerRunning
       GCFilterWorker.set_filterRestartTimer GCFilterWorker.set_instanceId
       GCFilterWorker.set_cooldownStateManager].
Tactic Notation "simp" "in" hyp(H) :=
  cbv [negb andb orb option_map fst snd
       ret throw bind try_catch finally get put modify ask get_sys modify_sys
       emit zoom now delay spawn setTimeout clearTimeout node_request
       events sys_of st_of val_of set_clock set_reqno set_gcno set_file
       set_timers set_spawned clock reqno gcno file timerno timers spawned
       http gc steamid fs_ok random totp_ok gamesPlayed_ok maFile_ok
       worker_config worker_id RESET_COOLDOWN argv_reset_cooldown
       INVOCATION_ID ppid CooldownStateManager.useRedis
       CooldownStateManager.config_QUEUE_API_URL
       CooldownStateManager.instanceId CooldownStateManager.set_useRedis
       ConnectionManager.store ConnectionManager.snapshot
       ConnectionManager.gcConnectionAttempts
       ConnectionManager.lastGcConnectionTime
       ConnectionManager.connectionTimer ConnectionManager.recoveryInProgress
       ConnectionManager.lastBanTime ConnectionManager.totalBanCount
       ConnectionManager.cooldownLevel ConnectionManager.cooldownStateManager
       ConnectionManager.config_GC_CONNECTION_TIMEOUT
       ConnectionManager.set_gcConnectionAttempts
       ConnectionManager.set_lastGcConnectionTime
       ConnectionManager.set_connectionTimer
       ConnectionManager.set_recoveryInProgress
       ConnectionManager.set_lastBanTime ConnectionManager.set_totalBanCount
       ConnectionManager.set_cooldownLevel
       ConnectionManager.set_cooldownStateManager
       ConnectionManager.set_config_GC_CONNECTION_TIMEOUT
       CooldownState.lastBanTime CooldownState.totalBanCount
       CooldownState.cooldownLevel CooldownState.zero FilterService.cm
       FilterService.running FilterService.processingActive
       FilterService.instanceId FilterService.currentBatch
       FilterService.currentItem FilterService.failureStats
       FilterService.connectionManager FilterService.requestCount
       FilterService.consecutiveTimeouts FilterService.lastSuccessTime
       FilterService.sessionStartTime FilterService.steamID
       FilterService.isBanned FilterService.banEndTime FilterService.config
       FilterService.set_running FilterService.set_processingActive
       FilterService.set_instanceId FilterService.set_currentBatch
       FilterService.set_currentItem FilterService.set_failureStats
       FilterService.set_connectionManager FilterService.set_requestCount
       FilterService.set_consecutiveTimeouts
       FilterService.set_lastSuccessTime FilterService.set_sessionStartTime
       FilterService.set_steamID FilterService.set_isBanned
       FilterService.set_banEndTime FilterService.set_config WorkItem.id
       WorkItem.username Recovery.attempts Recovery.level Recovery.bans
       Recovery.lastBan Recovery.recovering GCFilterWorker.store
       GCFilterWorker.running GCFilterWorker.filterWorker
       GCFilterWorker.filterWorkerRunning GCFilterWorker.filterRestartTimer
       GCFilterWorker.instanceId GCFilterWorker.cooldownStateManager
       GCFilterWorker.set_running GCFilterWorker.set_filterWorker
       GCFilterWorker.set_filterWorkerRunning
       GCFilterWorker.set_filterRestartTimer GCFilterWorker.set_instanceId
       GCFilterWorker.set_cooldownStateManager] in H.

(** Full symbolic run of a method. *)
Ltac run :=
  cbv [negb andb orb option_map fst snd
       ret throw bind try_catch finally get put modify ask get_sys modify_sys
       emit zoom now delay spawn setTimeout clearTimeout node_request
       events sys_of st_of val_of set_clock set_reqno set_gcno set_file
       set_timers set_spawned clock reqno gcno file timerno timers spawned
       http gc steamid fs_ok random totp_ok gamesPlayed_ok maFile_ok
       worker_config worker_id RESET_COOLDOWN argv_reset_cooldown
       INVOCATION_ID ppid CooldownStateManager.useRedis
       CooldownStateManager.config_QUEUE_API_URL
       CooldownStateManager.instanceId CooldownStateManager.set_useRedis
       ConnectionManager.store ConnectionManager.snapshot
       ConnectionManager.gcConnectionAttempts
       ConnectionManager.lastGcConnectionTime
       ConnectionManager.connectionTimer ConnectionManager.recoveryInProgress
       ConnectionManager.lastBanTime ConnectionManager.totalBanCount
       ConnectionManager.cooldownLevel ConnectionManager.cooldownStateManager
       ConnectionManager.config_GC_CONNECTION_TIMEOUT
       ConnectionManager.set_gcConnectionAttempts
       ConnectionManager.set_lastGcConnectionTime
       ConnectionManager.set_connectionTimer
       ConnectionManager.set_recoveryInProgress
       ConnectionManager.set_lastBanTime ConnectionManager.set_totalBanCount
       ConnectionManager.set_cooldownLevel
       ConnectionManager.set_cooldownStateManager
       ConnectionManager.set_config_GC_CONNECTION_TIMEOUT
       CooldownState.lastBanTime CooldownState.totalBanCount
       CooldownState.cooldownLevel CooldownState.zero FilterService.cm
       FilterService.running FilterService.processingActive
       FilterService.instanceId FilterService.currentBatch
       FilterService.currentItem FilterService.failureStats
       FilterService.connectionManager FilterService.requestCount
       FilterService.consecutiveTimeouts FilterService.lastSuccessTime
       FilterService.sessionStartTime FilterService.steamID
       FilterService.isBanned FilterService.banEndTime FilterService.config
       FilterService.set_running FilterService.set_processingActive
       FilterService.set_instanceId FilterService.set_currentBatch
       FilterService.set_currentItem FilterService.set_failureStats
       FilterService.set_connectionManager FilterService.set_requestCount
       FilterService.set_consecutiveTimeouts
       FilterService.set_lastSuccessTime FilterService.set_sessionStartTime
       FilterService.set_steamID FilterService.set_isBanned
       FilterService.set_banEndTime FilterService.set_config WorkItem.id
       WorkItem.username Recovery.attempts Recovery.level Recovery.bans
       Recovery.lastBan Recovery.recovering GCFilterWorker.store
       GCFilterWorker.running GCFilterWorker.filterWorker
       GCFilterWorker.filterWorkerRunning GCFilterWorker.filterRestartTimer
       GCFilterWorker.instanceId GCFilterWorker.cooldownStateManager
       GCFilterWorker.set_running GCFilterWorker.set_filterWorker
       GCFilterWorker.set_filterWorkerRunning
       GCFilterWorker.set_filterRestartTimer GCFilterWorker.set_instanceId
       GCFilterWorker.set_cooldownStateManager CooldownStateManager.run_op
       CooldownStateManager.load CooldownStateManager.save
       CooldownStateManager.clear CooldownStateManager.makeApiRequest
       CooldownStateManager.readFileSync CooldownStateManager.writeFileSync
       CooldownStateManager.unlinkSync CooldownStateManager.existsSync
       CooldownStateManager.new ConnectionManager.reset ConnectionManager.new
       ConnectionManager.loadCooldownState
       ConnectionManager.saveCooldownState_body
       ConnectionManager.saveCooldownState
       ConnectionManager.clearConnectionTimer
       ConnectionManager.connectionTimeout
       ConnectionManager.startConnectionTimer ConnectionManager.onGcConnected
       ConnectionManager.onGcDisconnected ConnectionManager.onSteamError
       FilterService.makeQueueApiRequest FilterService.markSteamIdProcessed
       FilterService.markSteamIdProcessedWithRetries
       FilterService.claimBatchFromQueue FilterService.completeInFilterQueue
       FilterService.releaseToFilterQueue FilterService.addToProcessorQueue
       FilterService.elapse FilterService.fetchAndCheckProfile
       FilterService.processSteamIDWithRetries FilterService.processItem
       FilterService.processQueue_turn FilterService.startProcessing
       FilterService.logOff FilterService.gamesPlayed FilterService.stop
       FilterService.isRunning FilterService.login FilterService.start
       FilterService.new FilterService.on_loggedOn FilterService.launchGame
       FilterService.on_connectedToGC FilterService.on_disconnectedFromGC
       FilterService.on_error FilterService.on_disconnected
       FilterService.login_if_running FilterService.on_signal
       FilterService.currentSteamID FilterService.returnToQueue
       FilterService.performCleanShutdown_begin
       FilterService.handleBanDetected_begin
       FilterService.attemptSimpleGcReconnection_begin
       FilterService.handleConnectionTimeout_begin
       Recovery.performCleanShutdown Recovery.handleBanDetected
       Recovery.attemptSimpleGcReconnection Recovery.handleConnectionTimeout
       Recovery.attemptSimpleGcReconnection_rest Recovery.performCleanShutdown_rest
       Recovery.startRecovery Recovery.run_task GCFilterWorker.worker
       GCFilterWorker.loadCooldownStateAsync GCFilterWorker.loadCooldownState
       GCFilterWorker.detectManualRestart GCFilterWorker.clearCooldownState
       GCFilterWorker.scheduleFilterRestart GCFilterWorker.startFilterWorker
       GCFilterWorker.filterRestart_callback
       GCFilterWorker.checkAndStartFilterService GCFilterWorker.shutdown
       GCFilterWorker.on_uncaughtException GCFilterWorker.callback
       GCFilterWorker.fire].

(** Records taken apart, so that their fields compute *)
Ltac break_fs fs :=
  destruct fs as [up pa inst batch cur stats [att lgc tmr rip lbt tbc lvl st gct]
                  rc ct lst sst sid ib bet cfg].
Ltac break_sys sys := destruct sys as [c rn gn f tn tm sp].
Ltac break_env env := destruct env as [h g sidp fok rnd tp gp mf wc wid rc' ar inv pp].

(** Name the result of the first call of [f] left in the goal. *)
Ltac name_call f :=
  match goal with
  | |- context [f ?a ?b ?c ?d] =>
      let ev := fresh "ev" in let s1 := fresh "sys1" in
      let s2 := fresh "fs1" in let v := fresh "v" in
      destruct (f a b c d) as [ev s1 s2 v] eqn:?
  | |- context [f ?b ?c ?d] =>
      let ev := fresh "ev" in let s1 := fresh "sys1" in
      let s2 := fresh "fs1" in let v := fresh "v" in
      destruct (f b c d) as [ev s1 s2 v] eqn:?
  end.

(** ** The worker and its connection manager *)

Section WorkerFacts.
Import FilterService.

Lemma performCleanShutdown_spec minutes env sys fs :
  let r := Recovery.performCleanShutdown minutes env sys fs in
  same_cooldown fs (st_of r) /\
  isBanned (st_of r) = true /\
  processingActive (st_of r) = false /\
  (forall t, In t (spawned sys) -> In t (spawned (sys_of r))) /\
  val_of r = inr tt.
Proof.
  break_fs fs. break_sys sys. break_env env. unfold same_cooldown.
  destruct minutes, sid, up, tmr, batch, cur; run;
    repeat split; auto; intros; rewrite ?in_app_iff; auto.
Qed.

Lemma handleBanDetected_unfold env sys fs :
  Recovery.handleBanDetected env sys fs =
  Recovery.performCleanShutdown
    (at_index COOLDOWN_LEVELS (Z.min (Recovery.level fs + 1) maxLevel)) env
    (set_spawned
       (spawned sys ++
        [T_saveCooldownState
           (CooldownState.mk (clock sys) (Recovery.bans fs + 1)
              (Z.min (Recovery.level fs + 1) maxLevel))]) sys)
    (escalated (clock sys) fs).
Proof.
  break_fs fs. break_sys sys.
  unfold Recovery.handleBanDetected, ConnectionManager.saveCooldownState, escalated. simp.
  name_call Recovery.performCleanShutdown.
  reflexivity.
Qed.

Lemma handleBanDetected_spec env sys fs :
  let r := Recovery.handleBanDetected env sys fs in
  Recovery.bans (st_of r) = Recovery.bans fs + 1 /\
  Recovery.lastBan (st_of r) = clock sys /\
  Recovery.level (st_of r) = Z.min (Recovery.level fs + 1) maxLevel /\
  Recovery.attempts (st_of r) = Recovery.attempts fs /\
  isBanned (st_of r) = true /\
  processingActive (st_of r) = false /\
  In (T_saveCooldownState
        (CooldownState.mk (clock sys) (Recovery.bans fs + 1)
           (Z.min (Recovery.level fs + 1) maxLevel)))
     (spawned (sys_of r)) /\
  val_of r = inr tt.
Proof.
  cbv zeta. rewrite handleBanDetected_unfold.
  match goal with |- context [Recovery.performCleanShutdown ?a ?b ?c ?d] =>
    destruct (performCleanShutdown_spec a b c d) as ((H1 & H2 & H3 & H4) & H5 & H6 & H7 & H8) end.
  rewrite H1, H2, H3, H4, H5, H6, H8.
  repeat split; try (break_fs fs; reflexivity).
  apply H7. break_sys sys. simp. rewrite in_app_iff. right. left. reflexivity.
Qed.

Lemma maxLevel_eq : maxLevel = 5.
Proof. reflexivity. Qed.

(** C1.  For every level [L] of the escalation table, [0 <= L <= maxLevel],
    a ban detected at level [L] ([handleBanDetected]) counts one more ban,
    sets [lastBanTime] to the current time and sets [cooldownLevel] to
    [min (L + 1) maxLevel], which stays inside the table; the new state is
    handed to [saveCooldownState]. *)
Theorem ban_escalates_one_level env sys fs L :
  0 <= L <= maxLevel ->
  Recovery.level fs = L ->
  let r := Recovery.handleBanDetected env sys fs in
  Recovery.bans (st_of r) = Recovery.bans fs + 1 /\
  Recovery.lastBan (st_of r) = clock sys /\
  Recovery.level (st_of r) = Z.min (L + 1) maxLevel /\
  0 <= Recovery.level (st_of r) <= maxLevel /\
  In (T_saveCooldownState
        (CooldownState.mk (clock sys) (Recovery.bans fs + 1) (Z.min (L + 1) maxLevel)))
     (spawned (sys_of r)).
Proof.
  intros HL Hfs r.
  destruct (handleBanDetected_spec env sys fs) as (H1 & H2 & H3 & _ & _ & _ & H7 & _).
  fold r in H1, H2, H3, H7. rewrite Hfs in H3, H7.
  repeat split; auto; rewrite H3; lia.
Qed.

Lemma ban_escalates_one_level_witness :
  0 <= 2 <= maxLevel /\
  Recovery.level Sample.busy = 2 /\
  Recovery.level (st_of (Recovery.handleBanDetected Sample.env_up Sample.sys0 Sample.busy)) = 3.
Proof.
  assert (H1 : 0 <= 2 <= maxLevel) by (vm_compute; split; discriminate).
  assert (H2 : Recovery.level Sample.busy = 2) by reflexivity.
  split; [exact H1|]. split; [exact H2|].
  exact (proj1 (proj2 (proj2
           (ban_escalates_one_level Sample.env_up Sample.sys0 Sample.busy 2 H1 H2)))).
Defined.

Lemma performCleanShutdown_end m env sys fs :
  let r := Recovery.performCleanShutdown (Some m) env sys fs in
  banEndTime (st_of r) = Some (clock (sys_of r) + m * 60 * 1000).
Proof.
  break_fs fs. break_sys sys. break_env env.
  destruct sid, up, tmr, batch, cur; reflexivity.
Qed.

Lemma handleConnectionTimeout_unfold env sys fs :
  Recovery.handleConnectionTimeout env sys fs =
  (if Recovery.attempts fs + 1 =? 1
   then Recovery.attemptSimpleGcReconnection
   else Recovery.handleBanDetected) env sys (counted fs).
Proof.
  break_fs fs. unfold Recovery.handleConnectionTimeout, counted. simp.
  destruct (att + 1 =? 1).
  - name_call Recovery.attemptSimpleGcReconnection. reflexivity.
  - name_call Recovery.handleBanDetected. reflexivity.
Qed.

Lemma declares_ban_counted fs r :
  declares_ban (counted fs) r -> declares_ban fs r.
Proof. break_fs fs. exact (fun H => H). Qed.

Lemma attemptSimple_logged_off env sys fs :
  steamID fs = false ->
  Recovery.attemptSimpleGcReconnection env sys fs = Recovery.handleBanDetected env sys fs.
Proof.
  intros H. pose proof (handleBanDetected_spec env sys fs) as S.
  break_fs fs. cbn in H. subst sid.
  unfold Recovery.attemptSimpleGcReconnection. simp.
  name_call Recovery.handleBanDetected.
  cbv zeta in S. simp in S. destruct S as (_ & _ & _ & _ & _ & _ & _ & Sv). rewrite Sv.
  rewrite app_nil_l. reflexivity.
Qed.

Lemma attemptSimple_connect_throws env sys fs :
  steamID fs = true -> gamesPlayed_ok env = false ->
  declares_ban fs (Recovery.attemptSimpleGcReconnection env sys fs) /\
  Recovery.attempts (st_of (Recovery.attemptSimpleGcReconnection env sys fs)) = Recovery.attempts fs.
Proof.
  intros H G. break_fs fs. break_env env. break_sys sys. cbn in H, G. subst sid gp.
  unfold Recovery.attemptSimpleGcReconnection, FilterService.gamesPlayed. simp.
  match goal with |- context [Recovery.handleBanDetected ?a ?b ?c] =>
    pose proof (handleBanDetected_spec a b c) as S;
    destruct (Recovery.handleBanDetected a b c) as [ev s1 s2 v] end.
  cbv zeta in S. unfold declares_ban. simp in S. simp. intuition.
Qed.

Lemma attemptSimple_reconnects env sys fs :
  steamID fs = true -> gamesPlayed_ok env = true ->
  let r := Recovery.attemptSimpleGcReconnection env sys fs in
  events r = [Delay 5000; GamesPlayed] /\
  ConnectionManager.connectionTimer (connectionManager (st_of r)) = Some (timerno sys) /\
  In (timerno sys,
      (ConnectionManager.connectionTimeout (connectionManager fs), T_handleConnectionTimeout))
     (timers (sys_of r)) /\
  same_cooldown fs (st_of r) /\
  isBanned (st_of r) = isBanned fs /\
  spawned (sys_of r) = spawned sys.
Proof.
  intros H G. break_fs fs. break_env env. break_sys sys. cbn in H, G. subst sid gp.
  unfold same_cooldown. destruct tmr; run; repeat split; auto; rewrite in_app_iff; right; left; reflexivity.
Qed.

(** C8.  [handleConnectionTimeout] counts the attempt.  When the counter
    becomes 1 and the light reconnection goes through (Steam still logged
    on, [gamesPlayed] does not throw) it waits the fixed 5 s, re-issues the
    connect command once and restarts the connection timer, and neither the
    level nor the ban count nor the banned flag changes and nothing is
    saved.  When the counter becomes 1 and the reconnection fails, or on any
    later timeout, a ban is declared. *)
Theorem first_timeout_reconnects_then_ban env sys fs :
  let r := Recovery.handleConnectionTimeout env sys fs in
  Recovery.attempts (st_of r) = Recovery.attempts fs + 1 /\
  (Recovery.attempts fs = 0 -> steamID fs = true -> gamesPlayed_ok env = true ->
     events r = [Delay 5000; GamesPlayed] /\
     ConnectionManager.connectionTimer (connectionManager (st_of r)) = Some (timerno sys) /\
     In (timerno sys,
         (ConnectionManager.connectionTimeout (connectionManager fs), T_handleConnectionTimeout))
        (timers (sys_of r)) /\
     Recovery.level (st_of r) = Recovery.level fs /\
     Recovery.bans (st_of r) = Recovery.bans fs /\
     isBanned (st_of r) = isBanned fs /\
     spawned (sys_of r) = spawned sys) /\
  (Recovery.attempts fs = 0 -> steamID fs = false \/ gamesPlayed_ok env = false ->
     declares_ban fs r) /\
  (Recovery.attempts fs <> 0 -> declares_ban fs r).
Proof.
  cbv zeta. rewrite handleConnectionTimeout_unfold.
  assert (Hc : Recovery.attempts (counted fs) = Recovery.attempts fs + 1) by (break_fs fs; reflexivity).
  assert (Hs : steamID (counted fs) = steamID fs) by (break_fs fs; reflexivity).
  assert (Hb : isBanned (counted fs) = isBanned fs) by (break_fs fs; reflexivity).
  assert (Ht : ConnectionManager.connectionTimeout (connectionManager (counted fs)) =
               ConnectionManager.connectionTimeout (connectionManager fs)) by (break_fs fs; reflexivity).
  assert (Hl : Recovery.level (counted fs) = Recovery.level fs) by (break_fs fs; reflexivity).
  assert (Hn : Recovery.bans (counted fs) = Recovery.bans fs) by (break_fs fs; reflexivity).
  pose proof (handleBanDetected_spec env sys (counted fs)) as B. cbv zeta in B.
  assert (D : declares_ban fs (Recovery.handleBanDetected env sys (counted fs))).
  { apply declares_ban_counted. unfold declares_ban. intuition. }
  destruct (Z.eqb_spec (Recovery.attempts fs + 1) 1) as [E|E].
  - destruct (steamID fs) eqn:Sid, (gamesPlayed_ok env) eqn:G.
    + destruct (attemptSimple_reconnects env sys (counted fs) Hs G) as (R1 & R2 & R3 & (R4 & R5 & R6 & R7) & R8 & R9).
      rewrite R7, Hc. split; [reflexivity|]. split; [|split; intros; [discriminate || intuition discriminate | lia]].
      intros _ _ _. rewrite <- Ht, <- Hl, R6, <- Hn, R4, R8, Hb. repeat split; auto.
    + destruct (attemptSimple_connect_throws env sys (counted fs) Hs G) as (R1 & R2).
      rewrite R2, Hc. split; [reflexivity|]. split; [intros; discriminate|].
      split; [|intros; lia]. intros _ _. apply declares_ban_counted, R1.
    + rewrite (attemptSimple_logged_off env sys (counted fs) Hs).
      destruct B as (_ & _ & _ & Ba & _). rewrite Ba. rewrite Hc.
      split; [reflexivity|]. split; [intros; discriminate|]. split; [auto | intros; lia].
    + rewrite (attemptSimple_logged_off env sys (counted fs) Hs).
      destruct B as (_ & _ & _ & Ba & _). rewrite Ba. rewrite Hc.
      split; [reflexivity|]. split; [intros; discriminate|]. split; [auto | intros; lia].
  - destruct B as (_ & _ & _ & Ba & _). rewrite Ba. rewrite Hc.
    split; [reflexivity|]. split; [intros; lia|]. split; [intros; lia| auto].
Qed.

Lemma first_timeout_reconnects_then_ban_witness :
  events (Recovery.handleConnectionTimeout Sample.env_up Sample.sys0 Sample.busy) =
    [Delay 5000; GamesPlayed] /\
  Recovery.level
    (st_of (Recovery.handleConnectionTimeout Sample.env_up Sample.sys0 Sample.busy)) = 2 /\
  declares_ban Sample.busy
    (Recovery.handleConnectionTimeout Sample.env_no_game Sample.sys0 Sample.busy) /\
  declares_ban Sample.logged_off
    (Recovery.handleConnectionTimeout Sample.env_up Sample.sys0 Sample.logged_off) /\
  declares_ban Sample.timed_out_once
    (Recovery.handleConnectionTimeout Sample.env_up Sample.sys0 Sample.timed_out_once).
Proof.
  destruct (first_timeout_reconnects_then_ban Sample.env_up Sample.sys0 Sample.busy)
    as (_ & First & _ & _).
  destruct (First eq_refl eq_refl eq_refl) as (E & _ & _ & L & _).
  destruct (first_timeout_reconnects_then_ban Sample.env_no_game Sample.sys0 Sample.busy)
    as (_ & _ & Throws & _).
  destruct (first_timeout_reconnects_then_ban Sample.env_up Sample.sys0 Sample.logged_off)
    as (_ & _ & Off & _).
  destruct (first_timeout_reconnects_then_ban Sample.env_up Sample.sys0 Sample.timed_out_once)
    as (_ & _ & _ & Again).
  split; [exact E|]. split; [exact L|].
  split; [exact (Throws eq_refl (or_intror eq_refl))|].
  split; [exact (Off eq_refl (or_introl eq_refl))|].
  apply Again. discriminate.
Defined.

(** *** The timeout handling that runs inside a fetch attempt *)

Lemma same_work_refl fs : same_work fs fs.
Proof. repeat split. Qed.

Lemma same_work_trans a b c : same_work a b -> same_work b c -> same_work a c.
Proof.
  unfold same_work. intros (A1 & A2 & A3 & A4 & A5) (B1 & B2 & B3 & B4 & B5).
  repeat split; congruence.
Qed.

Lemma performCleanShutdown_begin_quiet minutes env sys fs :
  quiet sys fs (performCleanShutdown_begin minutes env sys fs).
Proof.
  break_fs fs. break_sys sys. break_env env. unfold quiet, same_work.
  destruct minutes, sid, up, tmr, batch, cur; run;
    repeat split; eauto; repeat constructor.
Qed.

Lemma handleBanDetected_begin_unfold env sys fs :
  handleBanDetected_begin env sys fs =
  performCleanShutdown_begin
    (at_index COOLDOWN_LEVELS (Z.min (Recovery.level fs + 1) maxLevel)) env
    (set_spawned
       (spawned sys ++
        [T_saveCooldownState
           (CooldownState.mk (clock sys) (Recovery.bans fs + 1)
              (Z.min (Recovery.level fs + 1) maxLevel))]) sys)
    (escalated (clock sys) fs).
Proof.
  break_fs fs. break_sys sys.
  unfold handleBanDetected_begin, ConnectionManager.saveCooldownState, escalated. simp.
  name_call performCleanShutdown_begin.
  reflexivity.
Qed.

Lemma handleBanDetected_begin_quiet env sys fs :
  quiet sys fs (handleBanDetected_begin env sys fs).
Proof.
  rewrite handleBanDetected_begin_unfold.
  match goal with |- quiet _ _ (performCleanShutdown_begin ?m ?e ?y ?s) =>
    destruct (performCleanShutdown_begin_quiet m e y s) as (W & E & R & G & C & V) end.
  split; [|split; [exact E|]].
  - eapply same_work_trans; [|exact W]. break_fs fs. repeat split.
  - break_sys sys. exact (conj R (conj G (conj C V))).
Qed.

Lemma attemptSimple_begin_quiet env sys fs :
  quiet sys fs (attemptSimpleGcReconnection_begin env sys fs).
Proof.
  pose proof (handleBanDetected_begin_quiet env sys fs) as Q.
  unfold attemptSimpleGcReconnection_begin, try_catch, bind, get.
  destruct (steamID fs) eqn:S; cbn [negb].
  - break_fs fs. break_sys sys. repeat split; eauto.
  - destruct (handleBanDetected_begin env sys fs) as [ev sys1 fs1 v].
    destruct Q as (W & E & R & G & C & rest & V). cbn [val_of] in V. subst v.
    repeat split; eauto; apply W.
Qed.

Lemma timeout_begin_quiet env sys fs :
  quiet sys fs (handleConnectionTimeout_begin env sys fs).
Proof.
  unfold handleConnectionTimeout_begin, bind, get, cm, zoom, modify.
  cbv beta iota. cbn [events sys_of st_of val_of app].
  match goal with |- context [if ?b then _ else _] => destruct b end;
    match goal with |- context [?f env sys ?s] =>
      match f with
      | attemptSimpleGcReconnection_begin => pose proof (attemptSimple_begin_quiet env sys s) as Q
      | handleBanDetected_begin => pose proof (handleBanDetected_begin_quiet env sys s) as Q
      end; destruct (f env sys s) as [ev sys1 fs1 v]
    end;
    destruct Q as (W & E & R & G & C & V);
    (split; [eapply same_work_trans; [|exact W]; break_fs fs; repeat split|]);
    exact (conj E (conj R (conj G (conj C V)))).
Qed.

Lemma performCleanShutdown_in_two_parts minutes env sys fs :
  Recovery.performCleanShutdown minutes env sys fs =
  (let* rest := performCleanShutdown_begin minutes in finish rest) env sys fs.
Proof.
  break_fs fs. break_sys sys. break_env env. unfold finish.
  destruct minutes, sid, up, tmr, batch, cur; run; rewrite ?app_nil_r; reflexivity.
Qed.

Lemma handleBanDetected_in_two_parts env sys fs :
  Recovery.handleBanDetected env sys fs =
  (let* rest := handleBanDetected_begin in finish rest) env sys fs.
Proof.
  rewrite handleBanDetected_unfold, performCleanShutdown_in_two_parts.
  unfold bind. rewrite handleBanDetected_begin_unfold. reflexivity.
Qed.

Lemma attemptSimple_in_two_parts env sys fs :
  Recovery.attemptSimpleGcReconnection env sys fs =
  (let* rest := attemptSimpleGcReconnection_begin in finish rest) env sys fs.
Proof.
  destruct (steamID fs) eqn:S.
  - break_fs fs. cbn in S. subst sid.
    unfold Recovery.attemptSimpleGcReconnection, attemptSimpleGcReconnection_begin, finish,
      Recovery.run_task, Recovery.attemptSimpleGcReconnection_rest.
    simp.
    match goal with |- context [gamesPlayed ?e ?y ?s] =>
      destruct (gamesPlayed e y s) as [ev1 y1 s1 [e1|[]]] end.
    + name_call Recovery.handleBanDetected. reflexivity.
    + match goal with |- context [ConnectionManager.startConnectionTimer ?e ?y ?s] =>
        destruct (ConnectionManager.startConnectionTimer e y s) as [ev2 y2 s2 [e2|[]]] end.
      * name_call Recovery.handleBanDetected. reflexivity.
      * reflexivity.
  - rewrite (attemptSimple_logged_off env sys fs S), handleBanDetected_in_two_parts.
    pose proof (handleBanDetected_begin_quiet env sys fs) as Q.
    unfold attemptSimpleGcReconnection_begin, try_catch, bind, get. rewrite S. cbn [negb].
    destruct (handleBanDetected_begin env sys fs) as [ev sys1 fs1 v].
    destruct Q as (_ & _ & _ & _ & _ & rest & V). cbn [val_of] in V. subst v.
    cbn [app]. reflexivity.
Qed.

(** What the request timer runs of [handleConnectionTimeout()] at once,
    followed by the call it leaves, is the method in full: the same
    events, the same worker, the same timers and queued calls, for every
    state -- the light reconnection, the ban with Steam logged on, the ban
    with Steam logged off. *)
Lemma timeout_call_in_two_parts env sys fs :
  Recovery.handleConnectionTimeout env sys fs =
  (let* rest := handleConnectionTimeout_begin in finish rest) env sys fs.
Proof.
  rewrite handleConnectionTimeout_unfold.
  unfold handleConnectionTimeout_begin, bind, get, cm, zoom, modify.
  cbv beta iota. cbn [events sys_of st_of val_of app].
  assert (C : counted fs =
              set_connectionManager
                (ConnectionManager.set_gcConnectionAttempts
                   (ConnectionManager.gcConnectionAttempts (connectionManager fs) + 1)
                   (connectionManager fs)) fs) by reflexivity.
  rewrite <- C.
  assert (A : ConnectionManager.gcConnectionAttempts (connectionManager (counted fs)) =
              Recovery.attempts fs + 1) by (break_fs fs; reflexivity).
  rewrite A.
  destruct (Recovery.attempts fs + 1 =? 1).
  - rewrite attemptSimple_in_two_parts. unfold bind.
    destruct (attemptSimpleGcReconnection_begin env sys (counted fs)) as [ev sys1 fs1 [e|rest]];
      [reflexivity|].
    destruct (finish rest env sys1 fs1). reflexivity.
  - rewrite handleBanDetected_in_two_parts. unfold bind.
    destruct (handleBanDetected_begin env sys (counted fs)) as [ev sys1 fs1 [e|rest]];
      [reflexivity|].
    destruct (finish rest env sys1 fs1). reflexivity.
Qed.

(** *** Fetch attempts, retries and the work on one item *)

Lemma claims_app l1 l2 : claims (l1 ++ l2) = claims l1 ++ claims l2.
Proof. apply List.filter_app. Qed.


Lemma queue_calls_app l1 l2 : queue_calls (l1 ++ l2) = queue_calls l1 ++ queue_calls l2.
Proof. apply List.filter_app. Qed.

Lemma profile_requests_app l1 l2 :
  profile_requests (l1 ++ l2) = profile_requests l1 ++ profile_requests l2.
Proof. apply List.filter_app. Qed.

Lemma checkProfile_some p : exists r, checkProfile (Some p) = inr r.
Proof.
  unfold checkProfile.
  destruct (100 <=? _); [eauto|]. destruct (negb _); [eauto|].
  destruct (_ <? _)%nat; [eauto|]. destruct (List.find _ _); eauto.
Qed.

Lemma filter_nil_of (p q : event -> bool) l :
  Forall (fun e => q e = true) l -> (forall e, q e = true -> p e = false) ->
  List.filter p l = [].
Proof.
  intros F H. induction F as [|e l He F IH]; [reflexivity|].
  cbn. rewrite (H e He). exact IH.
Qed.

Lemma filter_logoffs (p : event -> bool) l :
  Forall (fun e => e = LogOff) l -> p LogOff = false -> List.filter p l = [].
Proof.
  intros F H. induction F as [|e l -> F IH]; [reflexivity|].
  cbn. rewrite H. exact IH.
Qed.

Lemma logoffs_are_gc_events l :
  Forall (fun e => e = LogOff) l -> Forall (fun e => gc_event e = true) l.
Proof. intros H. eapply Forall_impl; [exact H|]. cbn. intros e ->. reflexivity. Qed.

Lemma fetch_cases steamID64 env sys fs :
  let r := fetchAndCheckProfile steamID64 env sys fs in
  same_work fs (st_of r) /\
  reqno (sys_of r) = reqno sys /\
  Forall (fun e => gc_event e = true) (events r) /\
  (gc env (gcno sys) <> GcSilent ->
   running (st_of r) = running fs /\ processingActive (st_of r) = processingActive fs) /\
  ((profile_requests (events r) = [] /\ gcno (sys_of r) = gcno sys /\
    (exists e, val_of r = inl e) /\ forall n, fetch_rejects env steamID64 n = true) \/
   (exists answered, profile_requests (events r) = [RequestProfile steamID64 answered]) /\
   gcno (sys_of r) = S (gcno sys) /\
   ((fetch_rejects env steamID64 (gcno sys) = true /\ exists e, val_of r = inl e) \/
    (fetch_rejects env steamID64 (gcno sys) = false /\
     exists prof verdict, gc env (gcno sys) = GcProfile (Some prof) /\
       checkProfile (Some prof) = inr verdict /\ val_of r = inr verdict))).
Proof.
  break_fs fs. break_sys sys. break_env env.
  unfold fetch_rejects, fetchAndCheckProfile, elapse, same_work. simp.
  destruct (sidp steamID64) as [|a ind]; [repeat split; left; eauto 6|].
  destruct (a =? 0); [repeat split; left; eauto 6|].
  destruct ind; cbn [negb orb]; [|repeat split; left; eauto 6].
  destruct (g gn) as [|[p|]] eqn:G.
  - destruct (MAX_CONSECUTIVE_TIMEOUTS cfg <=? ct + 1); simp.
    + match goal with |- context [handleConnectionTimeout_begin ?e ?y ?s] =>
        destruct (timeout_begin_quiet e y s) as (W & E & R & Gn & C & rest & V);
        destruct (handleConnectionTimeout_begin e y s) as [ev sys1 fs1 v] end.
      cbn [events sys_of st_of val_of reqno gcno] in *. subst v.
      unfold same_work in W. cbn in W.
      assert (P : profile_requests ev = []).
      { apply filter_logoffs; [exact E | reflexivity]. }
      destruct rest as [call|]; simp; cbn [events sys_of st_of val_of reqno gcno app];
        (split; [exact W|]); (split; [destruct sys1; exact R|]);
        (split; [constructor; [reflexivity|];
                 rewrite ?app_nil_r; apply logoffs_are_gc_events, E|]);
        (split; [intros N; contradiction|]);
        right; unfold profile_requests in *; cbn [List.filter is_profile_request];
        rewrite ?app_nil_r, ?List.filter_app, P;
        (split; [eauto|]); (split; [destruct sys1; exact Gn|]); left; eauto.
    + repeat split; try (intros N; contradiction); [repeat constructor|].
      right. split; [eauto|]. split; [reflexivity|]. left. eauto.
  - destruct (checkProfile_some p) as [r Hr]. rewrite Hr. simp.
    repeat split; [repeat constructor|].
    right. split; [eauto|]. split; [reflexivity|]. right.
    split; [reflexivity|]. exists p, r. auto.
  - repeat split; [repeat constructor|].
    right. split; [eauto|]. split; [reflexivity|]. left. eauto.
Qed.

(** [fetch_rejects] says when an attempt rejects, and only then. *)
Lemma fetch_rejects_iff steamID64 env sys fs :
  fetch_rejects env steamID64 (gcno sys) = true <->
  exists e, val_of (fetchAndCheckProfile steamID64 env sys fs) = inl e.
Proof.
  destruct (fetch_cases steamID64 env sys fs) as (_ & _ & _ & _ & C).
  destruct C as [(_ & _ & V & All) | (_ & _ & [(Rj & V) | (Rj & prof & verdict & _ & _ & V)])].
  - split; [intros _; exact V | intros _; apply All].
  - split; [intros _; exact V | intros _; exact Rj].
  - rewrite Rj, V. split; [discriminate | intros [e [=]]].
Qed.

Lemma retryLoop_outcome steamID64 maxRetries env remaining : forall attempts lastError sys fs,
  let r := retryLoop remaining attempts maxRetries steamID64 lastError env sys fs in
  let n := length (profile_requests (events r)) in
  same_work fs (st_of r) /\
  Forall (fun e => gc_event e = true) (events r) /\
  reqno (sys_of r) = reqno sys /\
  (n <= remaining)%nat /\
  ((forall j, gc env j <> GcSilent) ->
   running (st_of r) = running fs /\ processingActive (st_of r) = processingActive fs) /\
  (exists result, val_of r = inr result) /\
  ((forall k, (k < remaining)%nat -> fetch_rejects env steamID64 (gcno sys + k) = true) ->
   exists e, val_of r = inr (Failed e)) /\
  (forall k, (k < remaining)%nat -> fetch_rejects env steamID64 (gcno sys + k) = false ->
   exists k prof passed reason,
     (k < remaining)%nat /\
     (forall j, (j < k)%nat -> fetch_rejects env steamID64 (gcno sys + j) = true) /\
     gc env (gcno sys + k) = GcProfile (Some prof) /\
     checkProfile (Some prof) = inr (passed, reason) /\
     val_of r = inr (Checked passed reason) /\
     n = S k).
Proof.
  induction remaining as [|rem IH]; intros attempts lastError sys fs r n; subst r n.
  - cbn. split; [apply same_work_refl|]. split; [constructor|]. split; [reflexivity|].
    split; [lia|]. split; [auto|]. split; [eauto|]. split; [eauto|]. intros; lia.
  - cbn [retryLoop]. unfold try_catch, bind, get, ret.
    pose proof (fetch_cases steamID64 env sys fs) as C. cbv zeta in C.
    destruct (fetchAndCheckProfile steamID64 env sys fs) as [ev sys1 fs1 v].
    cbn [events sys_of st_of val_of] in C. destruct C as (W & Rq & Ge & Qt & C).
    destruct C as [(Ev & G & (e & V) & All)
                  | ((ans & Ev) & G & [(Rj & e & V) | (Rj & prof & [passed reason] & Gc & Ck & V)])];
      subst v.
    + (* the id is refused before any request *)
      destruct (S attempts <? maxRetries)%nat; unfold delay; cbv beta iota;
        match goal with |- context [retryLoop rem ?a maxRetries steamID64 ?le env ?y ?s] =>
          pose proof (IH a le y s) as I; cbv zeta in I;
          destruct (retryLoop rem a maxRetries steamID64 le env y s) as [ev2 sys2 fs2 v2]
        end; cbn [events sys_of st_of val_of gcno reqno set_clock app] in *;
        destruct I as (I0 & I1 & I2 & I3 & Iq & Iv & I4 & I5);
        rewrite ?profile_requests_app, Ev; cbn [app profile_requests List.filter is_profile_request];
        fold (profile_requests ev2);
        (split; [exact (same_work_trans _ _ _ W I0)|]);
        (split; [repeat (apply Forall_app; split); try exact Ge; try exact I1;
                 repeat constructor|]);
        (split; [lia|]); (split; [lia|]);
        (split; [intros Hq; destruct (Iq Hq) as [Q1 Q2]; destruct (Qt (Hq _)) as [Q3 Q4];
                 split; congruence|]);
        (split; [exact Iv|]);
        (split; [intros _; apply I4; intros; apply All|]);
        intros k _ Hk; rewrite All in Hk; discriminate.
    + (* the request is made and rejects *)
      destruct (S attempts <? maxRetries)%nat; unfold delay; cbv beta iota;
        match goal with |- context [retryLoop rem ?a maxRetries steamID64 ?le env ?y ?s] =>
          pose proof (IH a le y s) as I; cbv zeta in I;
          destruct (retryLoop rem a maxRetries steamID64 le env y s) as [ev2 sys2 fs2 v2]
        end; cbn [events sys_of st_of val_of gcno reqno set_clock app] in *;
        destruct I as (I0 & I1 & I2 & I3 & Iq & Iv & I4 & I5);
        rewrite ?profile_requests_app, Ev in *;
        cbn [app profile_requests List.filter is_profile_request length] in *;
        fold (profile_requests ev2) in *;
        set (n2 := length (profile_requests ev2)) in *;
        rewrite ?G in *;
        (split; [exact (same_work_trans _ _ _ W I0)|]);
        (split; [repeat (apply Forall_app; split); try exact Ge; try exact I1;
                 repeat constructor|]);
        (split; [lia|]); (split; [lia|]);
        (split; [intros Hq; destruct (Iq Hq) as [Q1 Q2]; destruct (Qt (Hq _)) as [Q3 Q4];
                 split; congruence|]);
        (split; [exact Iv|]);
        (split; [intros H; apply I4; intros k Hk;
                 replace (S (gcno sys) + k)%nat with (gcno sys + S k)%nat by lia; apply H; lia|]);
        (intros k Hk Hf; destruct k as [|k]; [rewrite Nat.add_0_r in Hf; congruence|];
         destruct (I5 k ltac:(lia)) as (k' & prof & passed & reason & K1 & K2 & K3 & K4 & K5 & K6);
         [replace (S (gcno sys) + k)%nat with (gcno sys + S k)%nat by lia; exact Hf|];
         exists (S k'), prof, passed, reason;
         (split; [lia|]);
         (split; [intros j Hj; destruct j as [|j]; [rewrite Nat.add_0_r; exact Rj|];
                  replace (gcno sys + S j)%nat with (S (gcno sys) + j)%nat by lia; apply K2; lia|]);
         replace (gcno sys + S k')%nat with (S (gcno sys) + k')%nat by lia;
         (split; [exact K3|]); (split; [exact K4|]); (split; [exact K5|]); lia).
    + (* the request is answered with a profile *)
      cbn [events sys_of st_of val_of app]. rewrite ?app_nil_r. rewrite Ev. cbn [length].
      split; [exact W|]. split; [exact Ge|]. split; [exact Rq|]. split; [lia|].
      split; [intros Hq; apply Qt, Hq|]. split; [eauto|].
      split; [intros H; specialize (H 0%nat ltac:(lia)); rewrite Nat.add_0_r in H; congruence|].
      intros k Hk Hf. exists 0%nat, prof, passed, reason. rewrite Nat.add_0_r.
      split; [lia|]. split; [intros; lia|]. auto.
Qed.

Lemma markLoop_spec steamID64 maxRetries env remaining : forall attempt sys fs,
  exists ev sys' marked,
    markLoop remaining attempt maxRetries steamID64 env sys fs =
      mkRes ev sys' fs (inr marked) /\
    queue_calls ev = [].
Proof.
  induction remaining as [|rem IH]; intros attempt sys fs.
  - exists [], sys, false. split; reflexivity.
  - cbn [markLoop].
    unfold markSteamIdProcessed, node_request, try_catch, bind, get, ret, throw, delay.
    destruct (DJANGO_API_URL (config fs)) as [u|];
      [destruct (http env (reqno sys)) as [| |code [p|]];
        [ | | destruct (code =? 200); [destruct (success p)|] | ] | ];
      cbv beta iota;
      try (do 3 eexists; split; reflexivity);
      destruct (attempt <? maxRetries)%nat; cbv beta iota;
      match goal with
      | |- context [markLoop rem ?a maxRetries steamID64 env ?y fs] =>
          destruct (IH a y fs) as (ev2 & sys2 & m2 & E2 & Q2); rewrite E2
      end;
      do 3 eexists; (split; [reflexivity|]);
      rewrite ?queue_calls_app, Q2; reflexivity.
Qed.

Lemma gc_events_no_queue_calls l :
  Forall (fun e => gc_event e = true) l -> queue_calls l = [].
Proof.
  intros H. apply (filter_nil_of _ gc_event); [exact H|].
  intros [[] ?| | | | | | | | |] E; try reflexivity; discriminate E.
Qed.

(** [processSteamIDWithRetries] returns a result, issues no queue request,
    and holds on to the work. *)
Lemma processSteamIDWithRetries_spec steamID64 maxRetries env sys fs :
  let p := processSteamIDWithRetries steamID64 maxRetries env sys fs in
  same_work fs (st_of p) /\
  queue_calls (events p) = [] /\
  ((forall j, gc env j <> GcSilent) ->
   running (st_of p) = running fs /\ processingActive (st_of p) = processingActive fs) /\
  exists result,
    val_of p = inr result /\
    ((forall n, (gcno sys <= n < gcno sys + maxRetries)%nat ->
                fetch_rejects env steamID64 n = true) ->
     exists e, result = Failed e).
Proof.
  cbv zeta.
  unfold processSteamIDWithRetries, markSteamIdProcessedWithRetries, bind, try_catch, ret.
  pose proof (retryLoop_outcome steamID64 maxRetries env maxRetries 0%nat None sys fs) as R.
  cbv zeta in R.
  destruct (retryLoop maxRetries 0 maxRetries steamID64 None env sys fs) as [ev sys1 fs1 v].
  cbn [events sys_of st_of val_of] in R.
  destruct R as (W & Ge & _ & _ & Qt & (result & V) & Fl & _). subst v.
  destruct (markLoop_spec steamID64 3%nat env 3%nat 1%nat sys1 fs1)
    as (ev2 & sys2 & m & E2 & Q2).
  rewrite E2. cbn [events sys_of st_of val_of].
  split; [exact W|].
  split; [rewrite !queue_calls_app, Q2, (gc_events_no_queue_calls _ Ge); reflexivity|].
  split; [exact Qt|].
  exists result. split; [reflexivity|]. intros H.
  destruct Fl as [e [= ->]]; [|eauto].
  intros k Hk. apply H. lia.
Qed.

Lemma markLoop_events steamID64 maxRetries env remaining : forall attempt sys fs,
  Forall (fun e => mark_event e = true)
    (events (markLoop remaining attempt maxRetries steamID64 env sys fs)).
Proof.
  induction remaining as [|rem IH]; intros attempt sys fs; [constructor|].
  cbn [markLoop].
  unfold markSteamIdProcessed, node_request, try_catch, bind, get, ret, throw, delay.
  destruct (DJANGO_API_URL (config fs)) as [u|];
    [destruct (http env (reqno sys)) as [| |code [p|]];
      [ | | destruct (code =? 200); [destruct (success p)|] | ] | ];
    cbv beta iota;
    try (cbn; repeat constructor; fail);
    destruct (attempt <? maxRetries)%nat; cbv beta iota;
    match goal with
    | |- context [markLoop rem ?a maxRetries steamID64 env ?y fs] =>
        pose proof (IH a y fs) as I;
        destruct (markLoop rem a maxRetries steamID64 env y fs) as [ev2 sys2 fs2 v2]
    end; cbn [events] in *; repeat (apply Forall_app; split); try exact I;
    repeat constructor.
Qed.

Lemma process_events steamID64 maxRetries env sys fs :
  Forall (fun e => gc_event e || mark_event e = true)
    (events (processSteamIDWithRetries steamID64 maxRetries env sys fs)).
Proof.
  unfold processSteamIDWithRetries, markSteamIdProcessedWithRetries, bind, try_catch, ret.
  pose proof (retryLoop_outcome steamID64 maxRetries env maxRetries 0%nat None sys fs) as R.
  cbv zeta in R.
  destruct (retryLoop maxRetries 0 maxRetries steamID64 None env sys fs) as [ev sys1 fs1 v].
  cbn [events sys_of st_of val_of] in R.
  destruct R as (_ & Ge & _ & _ & _ & (result & V) & _). subst v.
  destruct (markLoop_spec steamID64 3%nat env 3%nat 1%nat sys1 fs1)
    as (ev2 & sys2 & m & E2 & _).
  pose proof (markLoop_events steamID64 3%nat env 3%nat 1%nat sys1 fs1) as Me.
  rewrite E2 in *. cbn [events] in *. rewrite !app_nil_r.
  apply Forall_app. split.
  - eapply Forall_impl; [exact Ge|]. cbn. intros e ->. reflexivity.
  - eapply Forall_impl; [exact Me|]. cbn. intros e ->. apply orb_true_r.
Qed.

Lemma process_claims steamID64 maxRetries env sys fs :
  claims (events (processSteamIDWithRetries steamID64 maxRetries env sys fs)) = [].
Proof.
  apply (filter_nil_of _ (fun e => gc_event e || mark_event e)); [apply process_events|].
  intros [[] ?| | | | | | | | |] H; try reflexivity; discriminate H.
Qed.

Lemma settlements_of_queue_calls l : settlements l = List.filter is_settlement (queue_calls l).
Proof.
  unfold settlements, queue_calls. induction l as [|e l IH]; [reflexivity|].
  cbn [List.filter]. destruct e as [[] ?| | | | | | | | |]; cbn; rewrite ?IH; reflexivity.
Qed.

Lemma queue_request_spec r u env sys fs :
  QUEUE_API_URL (config fs) = Some u ->
  exists ok v,
    makeQueueApiRequest r env sys fs =
      mkRes [Http r ok] (set_reqno (S (reqno sys)) sys) fs v /\
    (ok = true -> exists p, v = inr p) /\ (ok = false -> exists e, v = inl e).
Proof.
  intros H. unfold makeQueueApiRequest, node_request, bind, get. rewrite H.
  destruct (http env (reqno sys)) as [| |code [p|]]; [ | | destruct (ok200 code p) | ];
    do 2 eexists; (split; [reflexivity|]); split; intros; try discriminate; eauto.
Qed.

Ltac use_request r u H :=
  match goal with
  | |- context [makeQueueApiRequest r ?env ?sys ?fs] =>
      let ok := fresh "ok" in let v := fresh "v" in let E := fresh "E" in
      let T := fresh "T" in let F := fresh "F" in
      destruct (queue_request_spec r u env sys fs H) as (ok & v & E & T & F);
      rewrite E; clear E
  end.

Lemma complete_spec ids u env sys fs :
  QUEUE_API_URL (config fs) = Some u ->
  exists ok,
    completeInFilterQueue ids env sys fs =
      mkRes [Http (QueueComplete (instanceId fs) ids) ok]
        (set_reqno (S (reqno sys)) sys) fs (inr tt).
Proof.
  intros H. unfold completeInFilterQueue, try_catch, bind, get, ret. cbv beta iota.
  use_request (QueueComplete (instanceId fs) ids) u H.
  exists ok. destruct v; reflexivity.
Qed.

Lemma release_spec ids u env sys fs :
  QUEUE_API_URL (config fs) = Some u ->
  exists ok,
    releaseToFilterQueue ids env sys fs =
      mkRes [Http (QueueRelease (instanceId fs) ids) ok]
        (set_reqno (S (reqno sys)) sys) fs (inr tt).
Proof.
  intros H. unfold releaseToFilterQueue, try_catch, bind, get, ret. cbv beta iota.
  use_request (QueueRelease (instanceId fs) ids) u H.
  exists ok. destruct v; reflexivity.
Qed.

Lemma add_spec steamID64 username u env sys fs :
  QUEUE_API_URL (config fs) = Some u ->
  exists ok v,
    addToProcessorQueue steamID64 username env sys fs =
      mkRes [Http (ProcessorAdd username [steamID64]) ok]
        (set_reqno (S (reqno sys)) sys) fs v /\
    (ok = true -> v = inr tt) /\ (ok = false -> exists e, v = inl e).
Proof.
  intros H. unfold addToProcessorQueue, try_catch, bind, get, ret, throw. cbv beta iota.
  use_request (ProcessorAdd username [steamID64]) u H.
  destruct ok.
  - destruct (T eq_refl) as [p ->]. do 2 eexists. split; [reflexivity|]. split; [reflexivity|discriminate].
  - destruct (F eq_refl) as [e ->]. do 2 eexists. split; [reflexivity|]. split; [discriminate|eauto].
Qed.

(** The work on one item: what it sends to the queue, by the outcome of
    [processSteamIDWithRetries], and what it leaves in the worker. *)
Lemma processItem_spec item u env sys fs :
  QUEUE_API_URL (config fs) = Some u ->
  let p := processSteamIDWithRetries (WorkItem.id item) (MAX_RETRIES (config fs)) env sys
             (set_currentItem (Some item) fs) in
  let r := processItem item env sys fs in
  config (st_of r) = config fs /\
  currentBatch (st_of r) = currentBatch fs /\
  claims (events r) = [] /\
  ((forall j, gc env j <> GcSilent) ->
   running (st_of r) = running fs /\ processingActive (st_of r) = processingActive fs) /\
  exists result,
    val_of p = inr result /\
    ((exists ok,
        queue_calls (events r) = routed (instanceId fs) item result ok /\
        val_of r = inr tt /\
        currentItem (st_of r) = None /\
        failureStats (st_of r) =
          match result with
          | Failed _ => countFailure (WorkItem.id item) (failureStats fs)
          | _ => failureStats fs
          end)
     \/
     (queue_calls (events r) =
        [Http (ProcessorAdd (WorkItem.username item) [WorkItem.id item]) false] /\
      (exists e, val_of r = inl e) /\
      exists f, result = Checked true f)).
Proof.
  intros H p r. subst p r.
  pose proof (process_claims (WorkItem.id item) (MAX_RETRIES (config fs)) env sys
                (set_currentItem (Some item) fs)) as PC.
  destruct (processSteamIDWithRetries_spec (WorkItem.id item) (MAX_RETRIES (config fs)) env sys
              (set_currentItem (Some item) fs)) as (W & Q & Qt & result & V & _).
  destruct (processSteamIDWithRetries (WorkItem.id item) (MAX_RETRIES (config fs)) env sys
              (set_currentItem (Some item) fs)) as [ev sys1 fs1 v] eqn:E.
  cbn [events sys_of st_of val_of] in *. subst v.
  break_fs fs. cbn [config] in H.
  destruct fs1 as [up1 pa1 inst1 batch1 cur1 stats1 cm1 rc1 ct1 lst1 sst1 sid1 ib1 bet1 cfg1].
  unfold same_work in W. cbn in W. destruct W as (-> & -> & -> & -> & ->).
  assert (Qt' : (forall j, gc env j <> GcSilent) -> up1 = up /\ pa1 = pa)
    by (intros Hq; apply (Qt Hq)).
  clear Qt.
  unfold processItem. simp. simp in E. rewrite E. clear E.
  destruct result as [[|] reason|err]; simp.
  - (* pass *)
    match goal with |- context [addToProcessorQueue ?a ?b ?e ?y ?s] =>
      destruct (add_spec a b u e y s H) as (ok & v & E & T & F); simp in E; rewrite E; clear E end.
    destruct ok.
    + rewrite (T eq_refl). simp.
      match goal with |- context [completeInFilterQueue ?a ?e ?y ?s] =>
        destruct (complete_spec a u e y s H) as (ok & E); simp in E; rewrite E; clear E end.
      simp. rewrite !claims_app, PC, !queue_calls_app, Q.
      repeat split; try apply Qt'; auto.
      eexists. split; [reflexivity|]. left. exists ok. repeat split; reflexivity.
    + destruct (F eq_refl) as [e ->]. rewrite !claims_app, PC, !queue_calls_app, Q.
      repeat split; try apply Qt'; auto.
      eexists. split; [reflexivity|]. right. repeat split; eauto.
  - (* fail-criteria *)
    match goal with |- context [completeInFilterQueue ?a ?e ?y ?s] =>
      destruct (complete_spec a u e y s H) as (ok & E); simp in E; rewrite E; clear E end.
    simp. rewrite !claims_app, PC, !queue_calls_app, Q.
    repeat split; try apply Qt'; auto.
    eexists. split; [reflexivity|]. left. exists ok. repeat split; reflexivity.
  - (* transient error *)
    match goal with |- context [releaseToFilterQueue ?a ?e ?y ?s] =>
      destruct (release_spec a u e y s H) as (ok & E); simp in E; rewrite E; clear E end.
    simp. rewrite !claims_app, PC, !queue_calls_app, Q.
    repeat split; try apply Qt'; auto.
    eexists. split; [reflexivity|]. left. exists ok. repeat split; reflexivity.
Qed.

Lemma claim_spec env sys fs :
  exists ev sys' batch,
    claimBatchFromQueue env sys fs = mkRes ev sys' fs (inr batch) /\
    ev = events (makeQueueApiRequest
                   (QueueClaim (instanceId fs) (CLAIM_BATCH_SIZE (config fs))) env sys fs) /\
    (forall e, val_of (makeQueueApiRequest
                   (QueueClaim (instanceId fs) (CLAIM_BATCH_SIZE (config fs))) env sys fs) = inl e ->
               batch = []).
Proof.
  unfold claimBatchFromQueue, makeQueueApiRequest, node_request, try_catch, bind, get, ret.
  destruct (QUEUE_API_URL (config fs)) as [u|];
    [destruct (http env (reqno sys)) as [| |code [p|]]; [ | | destruct (ok200 code p) | ] | ];
    do 3 eexists; (split; [reflexivity|]); split; try reflexivity; intros; try discriminate; reflexivity.
Qed.

Lemma claim_events env sys fs :
  Forall (fun e => is_claim e = true) (events (claimBatchFromQueue env sys fs)).
Proof.
  unfold claimBatchFromQueue, makeQueueApiRequest, node_request, try_catch, bind, get, ret.
  destruct (QUEUE_API_URL (config fs)) as [u|];
    [destruct (http env (reqno sys)) as [| |code [p|]]; [ | | destruct (ok200 code p) | ] | ];
    cbn; repeat constructor.
Qed.

Lemma claims_are_no_settlements l :
  Forall (fun e => is_claim e = true) l ->
  queue_calls l = [] /\ enqueue_failed l = false.
Proof.
  intros H. induction H as [|e l He H [IH1 IH2]]; [split; reflexivity|].
  destruct e as [[] ?| | | | | | | | |]; try discriminate He.
  split; [exact IH1 | exact IH2].
Qed.

(** A turn that takes an item is the claim, if the turn had to claim,
    followed by the work on the item under the loop's [catch]. *)
Lemma turn_unfold env sys fs item rest sys1 :
  next_item env sys fs = Some (item, rest, sys1) ->
  exists ev0,
    Forall (fun e => is_claim e = true) ev0 /\
    (currentBatch fs <> [] -> ev0 = []) /\
    processQueue_turn env sys fs =
      let r := try_catch (processItem item) loop_catch env sys1 (set_currentBatch rest fs) in
      mkRes (ev0 ++ events r) (sys_of r) (st_of r) (val_of r).
Proof.
  unfold next_item. intros N.
  destruct (currentBatch fs) as [|i l] eqn:B.
  - pose proof (claim_events env sys fs) as Ce.
    destruct (claim_spec env sys fs) as (ev & sys' & batch & E & _ & _).
    rewrite E in N, Ce. cbn [val_of sys_of events] in N, Ce.
    destruct batch as [|i l]; [discriminate|]. injection N as -> -> ->.
    exists ev. split; [exact Ce|]. split; [congruence|].
    break_fs fs. cbn [currentBatch] in B. subst batch.
    unfold processQueue_turn, loop_catch, try_catch. simp. simp in E. rewrite E. simp.
    name_call processItem.
    destruct v; cbn [events sys_of st_of val_of app]; rewrite ?app_nil_r, <- ?app_assoc;
      reflexivity.
  - injection N as -> -> ->. exists []. split; [constructor|]. split; [reflexivity|].
    break_fs fs. cbn [currentBatch] in B. subst batch.
    unfold processQueue_turn, loop_catch, try_catch. simp.
    name_call processItem. destruct v; reflexivity.
Qed.

Lemma enqueue_failed_app l1 l2 :
  enqueue_failed (l1 ++ l2) = enqueue_failed l1 || enqueue_failed l2.
Proof. apply existsb_app. Qed.


Lemma turn_total env sys fs : val_of (processQueue_turn env sys fs) = inr tt.
Proof.
  unfold processQueue_turn, try_catch.
  match goal with |- context [match ?m env sys fs with _ => _ end] =>
    destruct (m env sys fs) as [ev sys1 s1 [e|[]]] end; reflexivity.
Qed.



(** C4, amended.  For the item that a turn of the loop takes -- the head
    of the batch in hand, or the head of the batch that the turn itself
    claims -- the turn never issues more than one of {complete, release},
    and it leaves the rest of the batch for the next turn.  When no
    downstream enqueue fails in the turn, exactly one of the two is issued,
    by the outcome of [processSteamIDWithRetries]: a passing item is
    enqueued downstream and then completed, a fail-criteria item is
    completed, a transient-error item is released. *)
Theorem item_settled_exactly_once env sys fs item rest sys1 u :
  QUEUE_API_URL (config fs) = Some u ->
  next_item env sys fs = Some (item, rest, sys1) ->
  let p := processSteamIDWithRetries (WorkItem.id item) (MAX_RETRIES (config fs)) env sys1
             (set_currentItem (Some item) (set_currentBatch rest fs)) in
  let r := processQueue_turn env sys fs in
  (length (settlements (events r)) <= 1)%nat /\
  currentBatch (st_of r) = rest /\
  exists result,
    val_of p = inr result /\
    (enqueue_failed (events r) = false ->
     length (settlements (events r)) = 1%nat /\
     exists ok, queue_calls (events r) = routed (instanceId fs) item result ok).
Proof.
  intros U N p r. subst p r.
  destruct (turn_unfold env sys fs item rest sys1 N) as (ev0 & Cl & _ & ->).
  destruct (claims_are_no_settlements ev0 Cl) as [Q0 F0].
  assert (U' : QUEUE_API_URL (config (set_currentBatch rest fs)) = Some u)
    by (break_fs fs; exact U).
  destruct (processItem_spec item u env sys1 (set_currentBatch rest fs) U')
    as (_ & B1 & _ & _ & result & P & R).
  assert (C : config (set_currentBatch rest fs) = config fs) by (break_fs fs; reflexivity).
  assert (I : instanceId (set_currentBatch rest fs) = instanceId fs) by (break_fs fs; reflexivity).
  assert (Bt : currentBatch (set_currentBatch rest fs) = rest) by (break_fs fs; reflexivity).
  rewrite C in P. rewrite I in R. rewrite Bt in B1. cbv zeta. unfold try_catch, loop_catch.
  destruct (processItem item env sys1 (set_currentBatch rest fs)) as [ev sys2 s1 v].
  cbn [events val_of st_of] in R, B1.
  destruct R as [(ok & Q & V & _) | (Q & (e & V) & f & Rf)]; subst v.
  - cbn [events st_of]. rewrite settlements_of_queue_calls, queue_calls_app, Q0, Q. cbn [app].
    split; [destruct result as [[|] ?|?]; cbn; lia|]. split; [exact B1|].
    exists result. split; [exact P|]. intros _.
    split; [destruct result as [[|] ?|?]; reflexivity | eauto].
  - unfold bind, get, delay. cbn [events st_of].
    rewrite settlements_of_queue_calls, !queue_calls_app, Q0, Q.
    cbn [List.filter app is_settlement queue_calls is_queue_call length].
    split; [lia|]. split; [exact B1|]. exists result. split; [exact P|].
    intros Hf. exfalso.
    rewrite !enqueue_failed_app, F0 in Hf. cbn [orb] in Hf.
    apply orb_false_iff in Hf as [Hf _].
    assert (enqueue_failed ev = true); [|congruence].
    unfold enqueue_failed. 
    assert (In (Http (ProcessorAdd (WorkItem.username item) [WorkItem.id item]) false) (queue_calls ev))
      as Hin by (rewrite Q; left; reflexivity).
    apply List.filter_In in Hin. apply existsb_exists. eexists. split; [apply Hin|reflexivity].
Qed.

Lemma item_settled_exactly_once_witness :
  QUEUE_API_URL (config Sample.idle) = Some Sample.url /\
  currentBatch Sample.idle = [] /\
  next_item Sample.env_claims Sample.sys0 Sample.idle =
    Some (Sample.a, [Sample.b], set_reqno 1 Sample.sys0) /\
  length (settlements (events (processQueue_turn Sample.env_claims Sample.sys0 Sample.idle))) =
    1%nat /\
  currentBatch (st_of (processQueue_turn Sample.env_claims Sample.sys0 Sample.idle)) =
    [Sample.b].
Proof.
  assert (H1 : QUEUE_API_URL (config Sample.idle) = Some Sample.url) by reflexivity.
  assert (H2 : next_item Sample.env_claims Sample.sys0 Sample.idle =
               Some (Sample.a, [Sample.b], set_reqno 1 Sample.sys0)) by reflexivity.
  split; [exact H1|]. split; [reflexivity|]. split; [exact H2|].
  destruct (item_settled_exactly_once Sample.env_claims Sample.sys0 Sample.idle
              Sample.a [Sample.b] (set_reqno 1 Sample.sys0) Sample.url H1 H2)
    as (_ & B & result & _ & Once).
  split; [exact (proj1 (Once eq_refl)) | exact B].
Defined.

(** C4, as stated, fails: the item passes the filter, its downstream enqueue
    meets a network error, [addToProcessorQueue] rethrows, and the turn ends
    in the loop's [catch] with neither a complete nor a release issued for
    the item, while the batch has moved on to the next item. *)
Lemma passed_item_left_unsettled :
  let r := processQueue_turn Sample.env_add_fails Sample.sys0 Sample.ready in
  val_of r = inr tt /\
  queue_calls (events r) =
    [Http (ProcessorAdd "harvester" [WorkItem.id Sample.a]) false] /\
  settlements (events r) = [] /\
  currentBatch (st_of r) = [Sample.b].
Proof. vm_compute. repeat split; reflexivity. Qed.

(** The turn of an item whose every attempt rejects. *)
Lemma exhausted_turn env sys fs item rest sys1 u :
  QUEUE_API_URL (config fs) = Some u ->
  next_item env sys fs = Some (item, rest, sys1) ->
  (forall k, (k < MAX_RETRIES (config fs))%nat ->
             fetch_rejects env (WorkItem.id item) (gcno sys1 + k) = true) ->
  let r := processQueue_turn env sys fs in
  (exists ok,
     queue_calls (events r) = [Http (QueueRelease (instanceId fs) [WorkItem.id item]) ok]) /\
  failureStats (st_of r) = countFailure (WorkItem.id item) (failureStats fs) /\
  currentItem (st_of r) = None /\
  currentBatch (st_of r) = rest /\
  val_of r = inr tt.
Proof.
  intros U N F r. subst r.
  destruct (turn_unfold env sys fs item rest sys1 N) as (ev0 & Cl & _ & ->).
  destruct (claims_are_no_settlements ev0 Cl) as [Q0 _].
  assert (U' : QUEUE_API_URL (config (set_currentBatch rest fs)) = Some u)
    by (break_fs fs; exact U).
  destruct (processItem_spec item u env sys1 (set_currentBatch rest fs) U')
    as (_ & B1 & _ & _ & result & P & R).
  assert (C : config (set_currentBatch rest fs) = config fs) by (break_fs fs; reflexivity).
  assert (I : instanceId (set_currentBatch rest fs) = instanceId fs) by (break_fs fs; reflexivity).
  assert (S : failureStats (set_currentBatch rest fs) = failureStats fs) by (break_fs fs; reflexivity).
  assert (Bt : currentBatch (set_currentBatch rest fs) = rest) by (break_fs fs; reflexivity).
  rewrite C in P. rewrite I, S in R. rewrite Bt in B1.
  destruct (processSteamIDWithRetries_spec (WorkItem.id item) (MAX_RETRIES (config fs)) env sys1
              (set_currentItem (Some item) (set_currentBatch rest fs)))
    as (_ & _ & _ & result0 & P0 & R0).
  rewrite P0 in P. injection P as <-.
  destruct R0 as [err ->].
  { intros n Hn. replace n with (gcno sys1 + (n - gcno sys1))%nat by lia. apply F. lia. }
  cbv zeta. unfold try_catch.
  destruct (processItem item env sys1 (set_currentBatch rest fs)) as [ev sys2 s1 v].
  cbn [events val_of st_of] in R, B1.
  destruct R as [(ok & Q & V & Cur & St) | (_ & _ & f & Rf)]; [subst v | discriminate].
  cbn [events st_of val_of]. rewrite queue_calls_app, Q0, Q. cbn [app routed].
  split; [exists ok; reflexivity|]. auto.
Qed.

Lemma countFailure_own id stats :
  inherited id = false ->
  countFailure id stats !! id =
    Some (Count (match stats !! id with Some (Count n) => n + 1 | _ => 1 end)).
Proof.
  intros H. unfold countFailure.
  destruct (stats !! id) as [[|n]|] eqn:E; rewrite ?lookup_insert_eq; try reflexivity.
  assert (P : String.eqb id "__proto__" = false).
  { destruct (String.eqb_spec id "__proto__") as [->|]; [discriminate H|reflexivity]. }
  rewrite P, H, lookup_insert_eq. reflexivity.
Qed.





(** What does hold for every id.  When every one of the [MAX_RETRIES]
    fetch attempts for the item that a turn takes rejects (the coordinator
    stays silent until the request timer fires, or answers without a
    profile, or the id is no individual account), the turn issues one
    release request for the item and no complete and no downstream
    enqueue, and returns normally.  For an id that is not the name of a
    property of [Object.prototype] -- every SteamID is such an id -- the
    item's failure counter goes up by one, from 0 when the item had
    none. *)
Lemma exhausted_retries_release env sys fs item rest sys1 u :
  QUEUE_API_URL (config fs) = Some u ->
  next_item env sys fs = Some (item, rest, sys1) ->
  (forall k, (k < MAX_RETRIES (config fs))%nat ->
             fetch_rejects env (WorkItem.id item) (gcno sys1 + k) = true) ->
  let r := processQueue_turn env sys fs in
  (exists ok,
     queue_calls (events r) = [Http (QueueRelease (instanceId fs) [WorkItem.id item]) ok]) /\
  (inherited (WorkItem.id item) = false ->
   failureStats (st_of r) !! WorkItem.id item =
     Some (Count (match failureStats fs !! WorkItem.id item with
                  | Some (Count n) => n + 1
                  | _ => 1
                  end))) /\
  currentItem (st_of r) = None /\
  val_of r = inr tt.
Proof.
  intros U N F r.
  destruct (exhausted_turn env sys fs item rest sys1 u U N F) as (Q & S & C & _ & V).
  fold r in Q, S, C, V. split; [exact Q|]. split; [|auto].
  intros I. rewrite S. apply countFailure_own, I.
Qed.


Lemma exhausted_retries_release_witness :
  QUEUE_API_URL (config Sample.ready) = Some Sample.url /\
  next_item Sample.env_silent Sample.sys0 Sample.ready =
    Some (Sample.a, [Sample.b], Sample.sys0) /\
  (forall k, (k < MAX_RETRIES (config Sample.ready))%nat ->
             fetch_rejects Sample.env_silent (WorkItem.id Sample.a)
               (gcno Sample.sys0 + k) = true) /\
  inherited (WorkItem.id Sample.a) = false /\
  let r := processQueue_turn Sample.env_silent Sample.sys0 Sample.ready in
  (exists ok,
     queue_calls (events r) =
       [Http (QueueRelease (instanceId Sample.ready) [WorkItem.id Sample.a]) ok]) /\
  failureStats (st_of r) !! WorkItem.id Sample.a = Some (Count 1).
Proof.
  assert (H1 : QUEUE_API_URL (config Sample.ready) = Some Sample.url) by reflexivity.
  assert (H2 : next_item Sample.env_silent Sample.sys0 Sample.ready =
               Some (Sample.a, [Sample.b], Sample.sys0)) by reflexivity.
  assert (H3 : forall k, (k < MAX_RETRIES (config Sample.ready))%nat ->
                 fetch_rejects Sample.env_silent (WorkItem.id Sample.a)
                   (gcno Sample.sys0 + k) = true) by (intros; reflexivity).
  assert (H4 : inherited (WorkItem.id Sample.a) = false) by reflexivity.
  split; [exact H1|]. split; [exact H2|]. split; [exact H3|]. split; [exact H4|].
  destruct (exhausted_retries_release Sample.env_silent Sample.sys0 Sample.ready
              Sample.a [Sample.b] Sample.sys0 Sample.url H1 H2 H3) as (Q & C & _).
  split; [exact Q | exact (C H4)].
Defined.

(** A network error, a timeout, an unparsable body, a status other than
    200 and a body without [success] each make the request reject. *)
Lemma request_error_kinds r u env sys fs :
  QUEUE_API_URL (config fs) = Some u ->
  match http env (reqno sys) with
  | NetError | NetTimeout | Reply _ None => True
  | Reply code (Some p) => code <> 200 \/ success p = false
  end ->
  exists e, val_of (makeQueueApiRequest r env sys fs) = inl e.
Proof.
  intros U H. unfold makeQueueApiRequest, node_request, bind, get. rewrite U.
  destruct (http env (reqno sys)) as [| |code [p|]]; cbn; eauto.
  unfold ok200. destruct H as [H|H].
  - destruct (Z.eqb_spec code 200); [contradiction|]. cbn. eauto.
  - rewrite H, andb_false_r. cbn. eauto.
Qed.



Lemma request_keeps_state r env sys fs : st_of (makeQueueApiRequest r env sys fs) = fs.
Proof.
  unfold makeQueueApiRequest, node_request, bind, get.
  destruct (QUEUE_API_URL (config fs)); [destruct (http env (reqno sys)) as [| |code [q|]];
      [ | | destruct (ok200 code q) | ] | ]; reflexivity.
Qed.

(** A drained queue gives the same turn. *)
Lemma drained_queue_turn env sys fs p :
  val_of (makeQueueApiRequest
            (QueueClaim (instanceId fs) (CLAIM_BATCH_SIZE (config fs))) env sys fs) = inr p ->
  default [] (items p) = [] ->
  currentBatch fs = [] ->
  let r := processQueue_turn env sys fs in
  val_of r = inr tt /\
  st_of r = fs /\
  events r = events (claimBatchFromQueue env sys fs) ++ [Delay (EMPTY_QUEUE_DELAY (config fs))].
Proof.
  intros H I B r. subst r. break_fs fs. cbn [currentBatch] in B. subst batch.
  unfold processQueue_turn, claimBatchFromQueue, try_catch. simp. simp in H.
  match goal with |- context [makeQueueApiRequest ?a ?b ?c ?d] =>
    pose proof (request_keeps_state a b c d) as K;
    destruct (makeQueueApiRequest a b c d) as [ev sys1 s1 v] end.
  simp in K. subst s1 v. rewrite I. simp. repeat split. rewrite !app_nil_r. reflexivity.
Qed.

(** C5, amended.  [stop()] returns without throwing and before any request
    has been answered.  On a worker that is not running it does nothing.
    On a running worker it clears both flags and calls
    [releaseToFilterQueue], without awaiting it, once for the ids of the
    whole remaining batch (when it is not empty) and once for the in-flight
    item (when there is one), so every such item is named by a queued
    release.  A queued release, when it runs, makes one request and returns
    normally whatever the answer: a failure is logged and goes no
    further. *)
Theorem stop_queues_releases env sys fs :
  let r := stop env sys fs in
  val_of r = inr tt /\
  remote_calls (events r) = [] /\
  (running fs = false -> st_of r = fs /\ sys_of r = sys) /\
  (running fs = true ->
     running (st_of r) = false /\
     processingActive (st_of r) = false /\
     spawned (sys_of r) = spawned sys ++ queued_by_stop fs /\
     (forall item, In item (currentBatch fs) ->
        exists ids, In (T_releaseToFilterQueue ids) (spawned (sys_of r)) /\
                    In (WorkItem.id item) ids) /\
     (forall item, currentItem fs = Some item ->
        In (T_releaseToFilterQueue [WorkItem.id item]) (spawned (sys_of r)))) /\
  (forall turns ids sys' fs' u,
     QUEUE_API_URL (config fs') = Some u ->
     exists ok,
       Recovery.run_task turns (T_releaseToFilterQueue ids) env sys' fs' =
         mkRes [Http (QueueRelease (instanceId fs') ids) ok]
           (set_reqno (S (reqno sys')) sys') fs' (inr tt)).
Proof.
  cbv zeta. split; [|split; [|split; [|split]]].
  - break_fs fs. break_sys sys. destruct up, tmr, batch, cur, sid; reflexivity.
  - break_fs fs. break_sys sys. destruct up, tmr, batch, cur, sid; reflexivity.
  - intros H. break_fs fs. cbn in H. subst up. split; reflexivity.
  - intros H. break_fs fs. break_sys sys. cbn in H. subst up. unfold queued_by_stop.
    assert (Hb : forall item : WorkItem.t, In item batch ->
              In (WorkItem.id item) (map WorkItem.id batch))
      by (intros; apply in_map; assumption).
    destruct tmr, batch as [|b0 batch], cur as [it|], sid; run;
      (split; [reflexivity|]); (split; [reflexivity|]);
      (split; [cbn [app]; rewrite <- ?app_assoc, ?app_nil_r; reflexivity|]);
      (split; intros item Hi;
        [ first [ solve [destruct Hi]
                | eexists; split; [|apply (Hb item Hi)]; rewrite ?in_app_iff; cbn [In]; eauto 8 ]
        | first [ discriminate
                | injection Hi as <-; rewrite ?in_app_iff; cbn [In]; eauto 8 ] ]).
  - intros turns ids sys' fs' u U. cbn [Recovery.run_task]. apply (release_spec ids u env sys' fs' U).
Qed.

Lemma stop_queues_releases_witness :
  running Sample.busy = true /\
  spawned (sys_of (stop Sample.env_up Sample.sys0 Sample.busy)) =
    [T_releaseToFilterQueue [WorkItem.id Sample.b; WorkItem.id Sample.c];
     T_releaseToFilterQueue [WorkItem.id Sample.a]].
Proof.
  split; [reflexivity|].
  destruct (stop_queues_releases Sample.env_up Sample.sys0 Sample.busy)
    as (_ & _ & _ & Running & _).
  exact (proj1 (proj2 (proj2 (Running eq_refl)))).
Defined.

(** C5, as stated, fails: with the queue API unreachable, [stop()] returns
    normally before any request has been answered; the two releases it
    queued run afterwards, both fail, nothing retries them, and neither the
    items of the batch nor the in-flight item are released. *)
Lemma stop_returns_before_any_release :
  let r := stop Sample.env_down Sample.sys0 Sample.busy in
  let later := Recovery.drain 0 2 Sample.env_down (sys_of r) (st_of r) in
  val_of r = inr tt /\
  remote_calls (events r) = [] /\
  events later =
    [Http (QueueRelease "filter-00c0ffee" [WorkItem.id Sample.b; WorkItem.id Sample.c]) false;
     Http (QueueRelease "filter-00c0ffee" [WorkItem.id Sample.a]) false] /\
  release_confirmed (WorkItem.id Sample.a) (events r ++ events later) = false /\
  release_confirmed (WorkItem.id Sample.b) (events r ++ events later) = false /\
  release_confirmed (WorkItem.id Sample.c) (events r ++ events later) = false /\
  spawned (sys_of later) = [] /\
  val_of later = inr tt.
Proof. vm_compute. repeat split; reflexivity. Qed.

(** C2, on the code.  The handler that [setupEventHandlers] registers for
    [connectedToGC] clears the connection timer and resets the attempt
    counter, but it leaves [cooldownLevel] as it was, whatever its value,
    and queues no save: it never calls [onGcConnected]. *)
Theorem connectedToGC_keeps_cooldownLevel env sys fs :
  let r := on_connectedToGC env sys fs in
  Recovery.level (st_of r) = Recovery.level fs /\
  spawned (sys_of r) =
    spawned sys ++ (if processingActive fs then [] else [T_processQueue]) /\
  events r = [] /\
  Recovery.attempts (st_of r) = 0 /\
  ConnectionManager.connectionTimer (connectionManager (st_of r)) = None.
Proof.
  break_fs fs. break_sys sys. destruct tmr, pa; run; rewrite ?app_nil_r; repeat split; reflexivity.
Qed.

(** At level 2 the level is still 2 after the event. *)
Example connectedToGC_at_level_2 :
  let r := on_connectedToGC Sample.env_up Sample.sys0 Sample.busy in
  Recovery.level Sample.busy = 2 /\
  Recovery.level (st_of r) = 2 /\
  spawned (sys_of r) = [].
Proof. vm_compute. repeat split; reflexivity. Qed.

(** What the method that the handler does not call would do: from a
    nonzero level, [onGcConnected] sets the level to 0 and queues a save of
    the new state. *)
Lemma onGcConnected_resets_level env sys m :
  0 < ConnectionManager.cooldownLevel m ->
  let r := ConnectionManager.onGcConnected env sys m in
  ConnectionManager.cooldownLevel (st_of r) = 0 /\
  ConnectionManager.gcConnectionAttempts (st_of r) = 0 /\
  ConnectionManager.connectionTimer (st_of r) = None /\
  In (T_saveCooldownState
        (CooldownState.mk (ConnectionManager.lastBanTime m)
           (ConnectionManager.totalBanCount m) 0))
     (spawned (sys_of r)).
Proof.
  intros H. destruct m as [att lgc tmr rip lbt tbc lvl st gct]. break_sys sys.
  cbn [ConnectionManager.cooldownLevel] in H. apply Z.ltb_lt in H.
  destruct tmr; run; rewrite H; run; repeat split; rewrite in_app_iff; right; left; reflexivity.
Qed.

(** C9, on the code.  The handler registered for [disconnectedFromGC] only
    clears [processingActive]: it arms no timer and queues no call, so no
    recovery follows.  The handler registered for the client's [error]
    event throws a TypeError, since it calls a method the manager does not
    have, and changes nothing.  Neither calls [onGcDisconnected] or
    [onSteamError]. *)
Theorem failure_signals_start_no_recovery env sys fs :
  let d := on_disconnectedFromGC env sys fs in
  let e := on_error env sys fs in
  sys_of d = sys /\ events d = [] /\ st_of d = set_processingActive false fs /\
  (exists msg, val_of e = inl (TypeError msg)) /\ sys_of e = sys /\ st_of e = fs /\ events e = [].
Proof. cbv zeta. repeat split. eexists. reflexivity. Qed.

(** What the methods that the handlers do not call would do: with no
    recovery in progress, [onGcDisconnected] arms [startRecovery] after 5 s
    and [onSteamError] after 10 s. *)
Lemma onGcDisconnected_schedules_recovery env sys m :
  ConnectionManager.recoveryInProgress m = false ->
  exists rest,
    timers (sys_of (ConnectionManager.onGcDisconnected env sys m)) =
      rest ++ [(timerno sys, (5000, T_startRecovery))] /\
    timers (sys_of (ConnectionManager.onSteamError env sys m)) =
      rest ++ [(timerno sys, (10000, T_startRecovery))] /\
    st_of (ConnectionManager.onGcDisconnected env sys m) =
      ConnectionManager.set_connectionTimer None m.
Proof.
  intros H. destruct m as [att lgc tmr rip lbt tbc lvl st gct]. break_sys sys.
  cbn in H. subst rip. destruct tmr; run; eexists; repeat split; reflexivity.
Qed.

(** [startRecovery] does nothing while a recovery is in progress. *)
Lemma startRecovery_is_exclusive env sys fs :
  Recovery.recovering fs = true ->
  Recovery.startRecovery env sys fs = mkRes [] sys fs (inr tt).
Proof. intros H. break_fs fs. cbn in H. subst rip. reflexivity. Qed.

End WorkerFacts.

(** ** The cooldown store *)

Section StoreFacts.
Import CooldownStateManager.

Lemma remote_calls_app l1 l2 : remote_calls (l1 ++ l2) = remote_calls l1 ++ remote_calls l2.
Proof. apply List.filter_app. Qed.

Lemma file_only_op env sys s o :
  useRedis s = false ->
  remote_calls (events (run_op o env sys s)) = [] /\
  useRedis (st_of (run_op o env sys s)) = false.
Proof.
  intros H. destruct s as [i u b]. cbn in H. subst b.
  destruct sys as [c rn gn [[f|]|] tn tm sp], env as [h g sidp [|] rnd tp gp mf wc wid rc' ar inv pp], o;
    split; reflexivity.
Qed.

Lemma file_only_ops env ops : forall sys s,
  useRedis s = false ->
  remote_calls (events (run_ops ops env sys s)) = [] /\
  useRedis (st_of (run_ops ops env sys s)) = false.
Proof.
  induction ops as [|o ops IH]; intros sys s H; [split; [reflexivity|exact H]|].
  destruct (file_only_op env sys s o H) as [H1 H2].
  cbn [run_ops]. unfold bind.
  destruct (run_op o env sys s) as [ev1 sys1 s1 [e|[]]]; cbn [events st_of sys_of] in *; [auto|].
  destruct (IH sys1 s1 H2) as [H3 H4].
  destruct (run_ops ops env sys1 s1) as [ev2 sys2 s2 v2]; cbn [events st_of sys_of] in *.
  rewrite remote_calls_app, H1, H3. auto.
Qed.

Lemma failure_disables env sys s o :
  o <> Clear ->
  remote_failed (events (run_op o env sys s)) = true ->
  useRedis (st_of (run_op o env sys s)) = false.
Proof.
  intros Ho. destruct s as [i u [|]].
  - destruct sys as [c rn gn [[f|]|] tn tm sp], env as [h g sidp [|] rnd tp gp mf wc wid rc' ar inv pp],
      o, u; try congruence; run;
    destruct (h rn) as [| |code [p|]]; try reflexivity;
      destruct (ok200 code p); try reflexivity;
      destruct (found p); try (intros; discriminate); destruct (state p); try reflexivity;
      intros; discriminate.
  - intros _. apply file_only_op. reflexivity.
Qed.

Lemma file_only_save env sys s st :
  useRedis s = false ->
  events (save st env sys s) = if fs_ok env then [FileWrite st] else [].
Proof.
  intros H. destruct s as [i u b]. cbn in H. subst b.
  break_sys sys. destruct env as [h g sidp [|] rnd tp gp mf wc wid rc' ar inv pp]; reflexivity.
Qed.

(** X6.  [save] always writes the local file as well: when the disk
    accepts the write, the file holds the saved state afterwards, whether
    or not the remote write happened or succeeded. *)
Theorem save_writes_through env sys s st :
  fs_ok env = true ->
  let r := save st env sys s in
  In (FileWrite st) (events r) /\
  file (sys_of r) = Some (Some st) /\
  val_of r = inr tt.
Proof.
  intros H. destruct s as [i u b]. break_sys sys. break_env env.
  cbn [fs_ok] in H. subst fok.
  destruct b; [destruct u; [destruct (h rn) as [| |code [p|]] eqn:E;
    [ | | destruct (ok200 code p) eqn:O | ] | ] | ];
    unfold save, makeApiRequest, writeFileSync, node_request; simp;
    rewrite ?E, ?O; cbn; auto 6.
Qed.

Lemma save_writes_through_witness :
  fs_ok Sample.env_up = true /\
  file (sys_of (save Sample.persisted Sample.env_up Sample.sys0 Sample.store0)) =
    Some (Some Sample.persisted) /\
  events (save Sample.persisted Sample.env_up Sample.sys0 Sample.store0) =
    [Http (CooldownPost "filter-00c0ffee" Sample.persisted) true; FileWrite Sample.persisted].
Proof.
  assert (H : fs_ok Sample.env_up = true) by reflexivity.
  split; [exact H|].
  split; [|reflexivity].
  exact (proj1 (proj2 (save_writes_through Sample.env_up Sample.sys0 Sample.store0
                         Sample.persisted H))).
Defined.

(** C6, amended.  After a [load] or a [save] whose remote request failed,
    the store has [useRedis = false], and every later sequence of loads,
    saves and clears makes no remote call and leaves it so; a later save
    writes the local file only. *)
Theorem load_or_save_failure_disables_remote env sys s o ops :
  o <> Clear ->
  remote_failed (events (run_op o env sys s)) = true ->
  let r := run_op o env sys s in
  let r' := run_ops ops env (sys_of r) (st_of r) in
  useRedis (st_of r) = false /\
  remote_calls (events r') = [] /\
  useRedis (st_of r') = false /\
  (forall st sys', events (save st env sys' (st_of r)) = if fs_ok env then [FileWrite st] else []).
Proof.
  intros Ho Hf r r'. pose proof (failure_disables env sys s o Ho Hf) as H. fold r in H.
  destruct (file_only_ops env ops (sys_of r) (st_of r) H) as [H1 H2].
  repeat split; auto. intros. apply file_only_save, H.
Qed.

Lemma load_or_save_failure_disables_remote_witness :
  Load <> Clear /\
  remote_failed (events (run_op Load Sample.env_down Sample.sys0 Sample.store0)) = true /\
  useRedis (st_of (run_op Load Sample.env_down Sample.sys0 Sample.store0)) = false.
Proof.
  assert (H1 : Load <> Clear) by discriminate.
  assert (H2 : remote_failed
                 (events (run_op Load Sample.env_down Sample.sys0 Sample.store0)) = true)
    by reflexivity.
  split; [exact H1|]. split; [exact H2|].
  exact (proj1 (load_or_save_failure_disables_remote Sample.env_down Sample.sys0
                  Sample.store0 Load [] H1 H2)).
Defined.

(** C6, as stated, fails: a [clear] whose remote request times out leaves
    [useRedis = true], and the save that follows goes to the remote store
    again. *)
Lemma failed_clear_keeps_remote_access :
  let r := run_op Clear Sample.env_first_fails Sample.sys0 Sample.store0 in
  let r' := run_op (Save Sample.persisted) Sample.env_first_fails (sys_of r) (st_of r) in
  remote_failed (events r) = true /\
  useRedis (st_of r) = true /\
  remote_calls (events r') = [Http (CooldownPost "filter-00c0ffee" Sample.persisted) true].
Proof. vm_compute. repeat split; reflexivity. Qed.

End StoreFacts.

(** ** The supervisor *)

Section SupervisorFacts.
Import GCFilterWorker.

(** The restart callback throws before it reaches [startFilterWorker]. *)
Lemma filterRestart_callback_throws env sys w :
  filterRestart_callback env sys w = mkRes [] sys w (inl (ReferenceError "loadCooldownState")).
Proof. reflexivity. Qed.

Lemma loadCooldownStateAsync_spec env sys w :
  exists ev sys1 s1 st,
    loadCooldownStateAsync env sys w =
      mkRes ev sys1 (set_cooldownStateManager s1 w) (inr st).
Proof.
  unfold loadCooldownStateAsync, store, zoom, try_catch, ret.
  destruct (CooldownStateManager.load env sys (cooldownStateManager w)) as [e1 y1 s1 [e|a]];
    do 4 eexists; reflexivity.
Qed.

(** Startup inside a cooldown window, without a manual-restart signal,
    arms the restart timer with the remaining time and starts no worker. *)
Lemma cooldown_defers_start env sys w :
  detectManualRestart env = false ->
  let l := loadCooldownStateAsync env sys w in
  forall st, val_of l = inr st ->
  0 < getRemainingCooldownTime st (clock (sys_of l)) ->
  let r := checkAndStartFilterService env sys w in
  In (timerno (sys_of l), (getRemainingCooldownTime st (clock (sys_of l)), T_filterRestart))
     (timers (sys_of r)) /\
  filterRestartTimer (st_of r) = Some (timerno (sys_of l)) /\
  filterWorkerRunning (st_of r) = filterWorkerRunning w /\
  filterWorker (st_of r) = filterWorker w.
Proof.
  intros Hm l st Hl Hr r. subst r l. unfold checkAndStartFilterService, bind, ask, now.
  cbv beta iota. rewrite Hm.
  destruct (loadCooldownStateAsync_spec env sys w) as (ev & sys1 & s1 & st' & E).
  rewrite E in *. cbn [val_of sys_of] in *. injection Hl as ->. cbv beta iota.
  apply Z.ltb_lt in Hr. rewrite Hr.
  destruct w as [r1 fw1 fr1 [tm1|] i1 c1]; break_sys sys1; run;
    repeat split; rewrite in_app_iff; right; left; reflexivity.
Qed.

(** C3, on the code.  The supervisor starts ten minutes into a 30-minute
    cooldown that the fallback file records.  It arms the restart timer
    with exactly the remaining 20 minutes and starts no worker.  When that
    timer fires, its callback throws a ReferenceError at its first
    statement; the 'uncaughtException' handler shuts the supervisor down,
    and no worker has been started. *)
Theorem deferred_restart_throws_before_starting_worker :
  let r := checkAndStartFilterService Sample.env_down Sample.sys_cooling Sample.supervisor in
  let fired := fire 0 0 Sample.env_down (sys_of r) (st_of r) in
  getRemainingCooldownTime Sample.persisted Sample.t0 = 20 * 60 * 1000 /\
  timers (sys_of r) = [(0%nat, (20 * 60 * 1000, T_filterRestart))] /\
  filterWorkerRunning (st_of r) = false /\
  val_of (callback 0 T_filterRestart Sample.env_down (sys_of r) (st_of r)) =
    inl (ReferenceError "loadCooldownState") /\
  filterWorker (st_of fired) = None /\
  filterWorkerRunning (st_of fired) = false /\
  running (st_of fired) = false /\
  timers (sys_of fired) = [(1%nat, (1000, T_exit 0))].
Proof. vm_compute. repeat split; reflexivity. Qed.

End SupervisorFacts.

(** ** The cooldown store, operation by operation *)

Section StoreOperations.
Import CooldownStateManager.

(** X2.  When the remote store answers, [load] returns what it answers --
    the record it holds for the instance, or the zero state when it holds
    none -- with that one request, whatever the local file holds, and
    remote access stays on. *)
Theorem load_prefers_remote env sys s u p :
  useRedis s = true ->
  config_QUEUE_API_URL s = Some u ->
  http env (reqno sys) = Reply 200 (Some p) ->
  success p = true ->
  (found p = true -> exists st, state p = Some st) ->
  let r := load env sys s in
  val_of r = inr (if found p then default CooldownState.zero (state p)
                  else CooldownState.zero) /\
  events r = [Http (CooldownGet (instanceId s)) true] /\
  useRedis (st_of r) = true.
Proof.
  intros R U H S F. destruct s as [i u' b]. break_sys sys. break_env env.
  cbn in R, U, H. subst b u'.
  unfold load, makeApiRequest, node_request. simp. rewrite H. unfold ok200. rewrite S.
  cbn [Z.eqb Pos.eqb andb].
  destruct (found p).
  - destruct (F eq_refl) as [st ->]. repeat split.
  - repeat split.
Qed.

Lemma load_prefers_remote_witness :
  file Sample.sys_cooling = Some (Some Sample.persisted) /\
  found Sample.accepted = false /\
  val_of (load Sample.env_up Sample.sys_cooling Sample.store0) = inr CooldownState.zero.
Proof.
  assert (F : found Sample.accepted = true -> exists st, state Sample.accepted = Some st)
    by (intros H; discriminate H).
  split; [reflexivity|]. split; [reflexivity|].
  exact (proj1 (load_prefers_remote Sample.env_up Sample.sys_cooling Sample.store0
                  Sample.url Sample.accepted eq_refl eq_refl eq_refl eq_refl F)).
Defined.

Lemma load_file_fallback env sys s :
  (useRedis s = true ->
   exists e, val_of (makeApiRequest (CooldownGet (instanceId s)) env sys s) = inl e) ->
  let r := load env sys s in
  val_of r = inr (match file sys with
                  | Some (Some st) => st
                  | _ => CooldownState.zero
                  end) /\
  useRedis (st_of r) = false /\
  file (sys_of r) = file sys /\
  timers (sys_of r) = timers sys /\ timerno (sys_of r) = timerno sys /\
  clock (sys_of r) = clock sys.
Proof.
  intros H. destruct s as [i u b]. break_sys sys. break_env env.
  destruct b.
  - destruct (H eq_refl) as [e He]. clear H.
    unfold load, makeApiRequest, node_request, readFileSync, existsSync in *.
    simp. simp in He.
    destruct u; [destruct (h rn) as [| |code [p|]]; [ | | destruct (ok200 code p) | ] | ];
      try discriminate He; destruct f as [[x|]|]; repeat split.
  - clear H. destruct f as [[x|]|]; repeat split.
Qed.

Lemma save_sets_file env sys s st :
  fs_ok env = true ->
  file (sys_of (save st env sys s)) = Some (Some st) /\
  val_of (save st env sys s) = inr tt.
Proof.
  intros H. destruct s as [i u b]. break_sys sys. break_env env.
  cbn [fs_ok] in H. subst fok.
  destruct b; [destruct u; [destruct (h rn) as [| |code [p|]] eqn:E;
    [ | | destruct (ok200 code p) eqn:O | ] | ] | ];
    unfold save, makeApiRequest, writeFileSync, node_request; simp;
    rewrite ?E, ?O; cbn; auto.
Qed.

(** X3.  When remote access is off, or the remote request of [load] fails,
    [load] returns the state in the local file, or the zero state when
    the file is missing or unreadable; it makes no remote request beyond
    the failed one, leaves the file alone and leaves remote access off. *)
Theorem load_falls_back_to_file env sys s :
  (useRedis s = true ->
   exists e, val_of (makeApiRequest (CooldownGet (instanceId s)) env sys s) = inl e) ->
  let r := load env sys s in
  val_of r = inr (match file sys with
                  | Some (Some st) => st
                  | _ => CooldownState.zero
                  end) /\
  remote_calls (events r) =
    (if useRedis s
     then events (makeApiRequest (CooldownGet (instanceId s)) env sys s)
     else []) /\
  useRedis (st_of r) = false /\
  file (sys_of r) = file sys.
Proof.
  intros H r. destruct (load_file_fallback env sys s H) as (V & U & F & _).
  split; [exact V|]. split; [|split; [exact U | exact F]].
  subst r. clear V U F. destruct s as [i u b]. break_sys sys. break_env env.
  destruct b.
  - destruct (H eq_refl) as [e He]. clear H.
    unfold load, makeApiRequest, node_request, readFileSync, existsSync in *. simp. simp in He.
    destruct u; [destruct (h rn) as [| |code [p|]]; [ | | destruct (ok200 code p) | ] | ];
      try discriminate He; destruct f as [[x|]|]; reflexivity.
  - clear H. destruct f as [[x|]|]; reflexivity.
Qed.

Lemma load_falls_back_to_file_witness :
  val_of (load Sample.env_down Sample.sys_cooling Sample.store0) = inr Sample.persisted /\
  useRedis (st_of (load Sample.env_down Sample.sys_cooling Sample.store0)) = false.
Proof.
  assert (H : useRedis Sample.store0 = true ->
              exists e, val_of (makeApiRequest (CooldownGet (instanceId Sample.store0))
                                  Sample.env_down Sample.sys_cooling Sample.store0) = inl e)
    by (intros _; eexists; reflexivity).
  destruct (load_falls_back_to_file Sample.env_down Sample.sys_cooling Sample.store0 H)
    as (V & _ & U & _).
  split; [exact V | exact U].
Defined.

(** X4.  Round trip through the file: after a [save] that leaves remote
    access off, on a disk that accepts the write, the next [load] returns
    the saved state and makes no remote request. *)
Theorem saved_state_is_loaded_back env sys s st :
  fs_ok env = true ->
  let r := save st env sys s in
  useRedis (st_of r) = false ->
  let r' := load env (sys_of r) (st_of r) in
  val_of r' = inr st /\ remote_calls (events r') = [].
Proof.
  intros H. destruct s as [i u b]. break_sys sys. break_env env. cbn in H. subst fok.
  destruct b; [destruct u; [destruct (h rn) as [| |code [p|]] eqn:E;
    [ | | destruct (ok200 code p) eqn:O | ] | ] | ];
    unfold save, load, makeApiRequest, writeFileSync, readFileSync, existsSync, node_request; simp;
    rewrite ?E, ?O; simp; intros; try discriminate; split; reflexivity.
Qed.

Lemma saved_state_is_loaded_back_witness :
  fs_ok Sample.env_down = true /\
  let r := save Sample.persisted Sample.env_down Sample.sys0 Sample.store0 in
  useRedis (st_of r) = false /\
  val_of (load Sample.env_down (sys_of r) (st_of r)) = inr Sample.persisted.
Proof.
  assert (H : fs_ok Sample.env_down = true) by reflexivity.
  assert (U : useRedis (st_of (save Sample.persisted Sample.env_down Sample.sys0
                                 Sample.store0)) = false) by reflexivity.
  split; [exact H|]. split; [exact U|].
  exact (proj1 (saved_state_is_loaded_back Sample.env_down Sample.sys0 Sample.store0
                  Sample.persisted H U)).
Defined.

(** X5.  On a disk that accepts the removal, [clear] leaves no local file;
    with remote access off it makes no request, and the next [load]
    returns the zero state. *)
Theorem cleared_state_loads_as_zero env sys s :
  fs_ok env = true ->
  let r := clear env sys s in
  file (sys_of r) = None /\
  (useRedis s = false ->
   val_of (load env (sys_of r) (st_of r)) = inr CooldownState.zero /\
   remote_calls (events r) = []).
Proof.
  intros H. destruct s as [i u b]. break_sys sys. break_env env. cbn in H. subst fok.
  destruct b; [destruct u; [destruct (h rn) as [| |code [p|]] eqn:E;
    [ | | destruct (ok200 code p) eqn:O | ] | ] | ];
    destruct f as [[x|]|];
    unfold clear, load, makeApiRequest, unlinkSync, readFileSync, existsSync, node_request; simp;
    rewrite ?E, ?O; simp; (split; [reflexivity|]); intros; try discriminate; split; reflexivity.
Qed.

Lemma cleared_state_loads_as_zero_witness :
  fs_ok Sample.env_up = true /\
  file Sample.sys_cooling = Some (Some Sample.persisted) /\
  let r := clear Sample.env_up Sample.sys_cooling Sample.file_only in
  file (sys_of r) = None /\
  val_of (load Sample.env_up (sys_of r) (st_of r)) = inr CooldownState.zero.
Proof.
  assert (H : fs_ok Sample.env_up = true) by reflexivity.
  split; [exact H|]. split; [reflexivity|].
  destruct (cleared_state_loads_as_zero Sample.env_up Sample.sys_cooling Sample.file_only H)
    as (F & L).
  split; [exact F|]. exact (proj1 (L eq_refl)).
Defined.

End StoreOperations.

(** ** What the manager reports *)

Section CooldownInfoFacts.
Import ConnectionManager.

Lemma getCooldownInfo_unfold env sys m :
  getCooldownInfo env sys m =
  mkRes [] sys m
    (inr (if lastBanTime m =? 0
          then CooldownInfo.mk false (totalBanCount m) (cooldownLevel m) None
          else
            let minutes := at_index COOLDOWN_LEVELS (cooldownLevel m) in
            let e := option_map (fun x => lastBanTime m + x * 60 * 1000) minutes in
            let r := option_map (fun e => Z.max 0 (e - clock sys)) e in
            CooldownInfo.mk (match r with Some r => 0 <? r | None => false end)
              (totalBanCount m) (cooldownLevel m)
              (Some (CooldownInfo.mkDetails minutes r e
                       (if cooldownLevel m <? maxLevel
                        then at_index COOLDOWN_LEVELS (cooldownLevel m + 1)
                        else at_index COOLDOWN_LEVELS maxLevel))))).
Proof.
  destruct m as [att lgc tmr rip lbt tbc lvl st gct]. break_sys sys.
  unfold getCooldownInfo. simp. destruct (lbt =? 0); reflexivity.
Qed.

Lemma at_index_cases i :
  at_index COOLDOWN_LEVELS i =
  if i =? 0 then Some 0 else if i =? 1 then Some 30 else if i =? 2 then Some 60
  else if i =? 3 then Some 120 else if i =? 4 then Some 240
  else if i =? 5 then Some 480 else None.
Proof.
  unfold at_index. destruct (Z.ltb_spec i 0).
  - repeat (match goal with |- context [?a =? ?b] => destruct (Z.eqb_spec a b) end; [lia|]).
    reflexivity.
  - destruct (Z.eqb_spec i 0) as [->|]; [reflexivity|].
    destruct (Z.eqb_spec i 1) as [->|]; [reflexivity|].
    destruct (Z.eqb_spec i 2) as [->|]; [reflexivity|].
    destruct (Z.eqb_spec i 3) as [->|]; [reflexivity|].
    destruct (Z.eqb_spec i 4) as [->|]; [reflexivity|].
    destruct (Z.eqb_spec i 5) as [->|]; [reflexivity|].
    replace (Z.to_nat i) with (6 + Z.to_nat (i - 6))%nat by lia. reflexivity.
Qed.

(** X7.  [getCooldownInfo] reports [inCooldown] exactly when a ban is on
    record, the level has an entry in the table, and that many minutes
    have not yet passed since the ban.  A level outside the table is
    never in cooldown. *)
Theorem in_cooldown_iff env sys m info :
  val_of (getCooldownInfo env sys m) = inr info ->
  CooldownInfo.inCooldown info = true <->
  lastBanTime m <> 0 /\
  exists minutes, at_index COOLDOWN_LEVELS (cooldownLevel m) = Some minutes /\
                  clock sys < lastBanTime m + minutes * 60 * 1000.
Proof.
  rewrite getCooldownInfo_unfold. cbn [val_of]. intros [= <-].
  destruct (Z.eqb_spec (lastBanTime m) 0) as [E|E]; cbn.
  - split; [discriminate|]. intros [H _]. contradiction.
  - destruct (at_index COOLDOWN_LEVELS (cooldownLevel m)) as [x|]; cbn.
    + split.
      * intros H. apply Z.ltb_lt in H. split; [exact E|]. exists x. split; [reflexivity|lia].
      * intros [_ (y & [= <-] & H)]. apply Z.ltb_lt. lia.
    + split; [discriminate|]. intros [_ (y & Y & _)]. discriminate.
Qed.

Lemma in_cooldown_iff_witness :
  exists info,
    val_of (getCooldownInfo Sample.env_up Sample.sys0 Sample.cooling_manager) = inr info /\
    (CooldownInfo.inCooldown info = true <->
     lastBanTime Sample.cooling_manager <> 0 /\
     exists minutes,
       at_index COOLDOWN_LEVELS (cooldownLevel Sample.cooling_manager) = Some minutes /\
       clock Sample.sys0 < lastBanTime Sample.cooling_manager + minutes * 60 * 1000).
Proof.
  eexists. split; [reflexivity|].
  apply (in_cooldown_iff Sample.env_up Sample.sys0 Sample.cooling_manager). reflexivity.
Defined.

(** X8.  For a recorded ban at a level 1..5, [getCooldownInfo] of the
    manager and [calculateCooldownEndTime] / [getRemainingCooldownTime]
    of main.js give the same end of the cooldown and the same remaining
    time: the two escalation tables agree. *)
Theorem manager_and_supervisor_agree env sys m info :
  lastBanTime m <> 0 ->
  1 <= cooldownLevel m <= maxLevel ->
  val_of (getCooldownInfo env sys m) = inr info ->
  exists d,
    CooldownInfo.more info = Some d /\
    CooldownInfo.endTime d = Some (calculateCooldownEndTime (snapshot m)) /\
    CooldownInfo.remainingMs d = Some (getRemainingCooldownTime (snapshot m) (clock sys)) /\
    CooldownInfo.inCooldown info = (0 <? getRemainingCooldownTime (snapshot m) (clock sys)).
Proof.
  intros B L. rewrite getCooldownInfo_unfold. cbn [val_of]. intros [= <-].
  apply Z.eqb_neq in B. rewrite B.
  unfold getRemainingCooldownTime, calculateCooldownEndTime, snapshot, CONFIG_COOLDOWN_LEVELS.
  cbn [CooldownState.lastBanTime CooldownState.cooldownLevel]. rewrite B.
  change [0; 30; 60; 120; 240; 480] with COOLDOWN_LEVELS.
  rewrite maxLevel_eq in L.
  assert (C : (cooldownLevel m =? 0) = false) by (apply Z.eqb_neq; lia). rewrite C. cbn [orb].
  rewrite at_index_cases, C.
  assert (H : cooldownLevel m = 1 \/ cooldownLevel m = 2 \/ cooldownLevel m = 3 \/
              cooldownLevel m = 4 \/ cooldownLevel m = 5) by lia.
  destruct H as [->|[->|[->|[->| ->]]]]; cbn; eexists; repeat split.
Qed.

Lemma manager_and_supervisor_agree_witness :
  exists info d,
    val_of (getCooldownInfo Sample.env_up Sample.sys0 Sample.cooling_manager) = inr info /\
    CooldownInfo.more info = Some d /\
    CooldownInfo.remainingMs d = Some (20 * 60 * 1000) /\
    getRemainingCooldownTime Sample.persisted Sample.t0 = 20 * 60 * 1000.
Proof.
  assert (B : lastBanTime Sample.cooling_manager <> 0) by discriminate.
  assert (L : 1 <= cooldownLevel Sample.cooling_manager <= maxLevel)
    by (vm_compute; split; discriminate).
  destruct (manager_and_supervisor_agree Sample.env_up Sample.sys0 Sample.cooling_manager
              _ B L eq_refl) as (d & M & _ & R & _).
  eexists. exists d. split; [reflexivity|]. split; [exact M|]. split; [exact R|reflexivity].
Defined.

End CooldownInfoFacts.

(** ** Bans and the calls on the manager *)

Section ManagerCalls.
Import FilterService.

Lemma performCleanShutdown_stops m env sys fs :
  let r := Recovery.performCleanShutdown m env sys fs in
  clock (sys_of r) = clock sys + (if steamID fs then 2000 else 0) /\
  (running fs = true ->
   running (st_of r) = false /\
   spawned (sys_of r) = spawned sys ++ queued_by_stop fs).
Proof.
  break_fs fs. break_sys sys. break_env env. unfold queued_by_stop.
  destruct m, sid, up, tmr, batch, cur; run; rewrite ?Z.add_0_r, ?app_nil_r, <- ?app_assoc;
    split; try reflexivity; intros; try discriminate; split; reflexivity.
Qed.

Lemma queued_by_stop_covers fs l :
  (forall item, In item (currentBatch fs) ->
     exists ids, In (T_releaseToFilterQueue ids) (l ++ queued_by_stop fs) /\
                 In (WorkItem.id item) ids) /\
  (forall item, currentItem fs = Some item ->
     In (T_releaseToFilterQueue [WorkItem.id item]) (l ++ queued_by_stop fs)).
Proof.
  unfold queued_by_stop. split.
  - intros item Hi. destruct (currentBatch fs) as [|b0 rest] eqn:E; [destruct Hi|].
    exists (map WorkItem.id (b0 :: rest)). split; [|apply in_map; exact Hi].
    rewrite !in_app_iff. right. left. left. reflexivity.
  - intros item ->. rewrite !in_app_iff. right. right. left. reflexivity.
Qed.

(** X12.  A ban at a level of the table imposes the entry of the next
    level, between 30 and 480 minutes.  The worker's [banEndTime] is that
    long after the end of the shutdown, which is the recorded
    [lastBanTime] plus the 2 s logoff wait when Steam was logged on. *)
Theorem ban_sets_cooldown_from_table env sys fs :
  0 <= Recovery.level fs <= maxLevel ->
  let r := Recovery.handleBanDetected env sys fs in
  exists minutes,
    at_index COOLDOWN_LEVELS (Recovery.level (st_of r)) = Some minutes /\
    30 <= minutes <= 480 /\
    banEndTime (st_of r) = Some (clock (sys_of r) + minutes * 60 * 1000) /\
    Recovery.lastBan (st_of r) = clock sys /\
    clock (sys_of r) = clock sys + (if steamID fs then 2000 else 0).
Proof.
  intros H r.
  destruct (handleBanDetected_spec env sys fs) as (_ & T & L & _). fold r in T, L.
  rewrite maxLevel_eq in *.
  assert (exists minutes, at_index COOLDOWN_LEVELS (Z.min (Recovery.level fs + 1) 5) = Some minutes
                          /\ 30 <= minutes <= 480) as (minutes & A & B).
  { rewrite at_index_cases.
    assert (C : Recovery.level fs = 0 \/ Recovery.level fs = 1 \/ Recovery.level fs = 2 \/
                Recovery.level fs = 3 \/ Recovery.level fs = 4 \/ Recovery.level fs = 5) by lia.
    destruct C as [->|[->|[->|[->|[->| ->]]]]]; cbn; eexists; (split; [reflexivity|lia]). }
  exists minutes. rewrite L. split; [exact A|]. split; [exact B|]. split; [|split; [exact T|]].
  - subst r. rewrite handleBanDetected_unfold, maxLevel_eq, A. apply performCleanShutdown_end.
  - subst r. rewrite handleBanDetected_unfold, maxLevel_eq, A.
    match goal with |- context [Recovery.performCleanShutdown ?a ?b ?c ?d] =>
      destruct (performCleanShutdown_stops a b c d) as [C _] end.
    rewrite C. break_fs fs. break_sys sys. reflexivity.
Qed.

Lemma ban_sets_cooldown_from_table_witness :
  0 <= Recovery.level Sample.busy <= maxLevel /\
  let r := Recovery.handleBanDetected Sample.env_up Sample.sys0 Sample.busy in
  at_index COOLDOWN_LEVELS (Recovery.level (st_of r)) = Some 120 /\
  banEndTime (st_of r) = Some (Sample.t0 + 2000 + 120 * 60 * 1000).
Proof.
  assert (H : 0 <= Recovery.level Sample.busy <= maxLevel) by (vm_compute; split; discriminate).
  split; [exact H|].
  destruct (ban_sets_cooldown_from_table Sample.env_up Sample.sys0 Sample.busy H)
    as (minutes & A & _ & E & _ & C).
  assert (M : Some minutes = Some 120) by (rewrite <- A; reflexivity).
  injection M as ->. split; [exact A|]. rewrite E, C. reflexivity.
Defined.

(** X13.  A ban on a running worker stops it, marks it banned and, through
    [stop()], queues the release of every claimed item: the rest of the
    batch and the item in flight. *)
Theorem ban_returns_claimed_items env sys fs :
  running fs = true ->
  let r := Recovery.handleBanDetected env sys fs in
  running (st_of r) = false /\
  processingActive (st_of r) = false /\
  isBanned (st_of r) = true /\
  (forall item, In item (currentBatch fs) ->
     exists ids, In (T_releaseToFilterQueue ids) (spawned (sys_of r)) /\
                 In (WorkItem.id item) ids) /\
  (forall item, currentItem fs = Some item ->
     In (T_releaseToFilterQueue [WorkItem.id item]) (spawned (sys_of r))).
Proof.
  intros R r.
  destruct (handleBanDetected_spec env sys fs) as (_ & _ & _ & _ & B & P & _). fold r in B, P.
  assert (S : running (st_of r) = false /\
              exists l, spawned (sys_of r) = l ++ queued_by_stop fs).
  { subst r. rewrite handleBanDetected_unfold.
    match goal with |- context [Recovery.performCleanShutdown ?a ?b ?c ?d] =>
      destruct (performCleanShutdown_stops a b c d) as [_ C] end.
    destruct C as [C1 C2]; [break_fs fs; exact R|].
    split; [exact C1|]. rewrite C2. eexists.
    replace (queued_by_stop (escalated (clock sys) fs)) with (queued_by_stop fs)
      by (break_fs fs; reflexivity).
    reflexivity. }
  destruct S as (S1 & l & S2). rewrite S2.
  split; [exact S1|]. split; [exact P|]. split; [exact B|].
  apply queued_by_stop_covers.
Qed.

Lemma ban_returns_claimed_items_witness :
  running Sample.busy = true /\
  let r := Recovery.handleBanDetected Sample.env_up Sample.sys0 Sample.busy in
  running (st_of r) = false /\
  In (T_releaseToFilterQueue [WorkItem.id Sample.a]) (spawned (sys_of r)).
Proof.
  assert (H : running Sample.busy = true) by reflexivity.
  split; [exact H|].
  destruct (ban_returns_claimed_items Sample.env_up Sample.sys0 Sample.busy H)
    as (R & _ & _ & _ & C).
  split; [exact R | exact (C Sample.a eq_refl)].
Defined.

(** X9.  Once a ban is on record, the [nextCooldownMinutes] that
    [getCooldownInfo] announces is the table entry of the level to which
    the next [handleBanDetected] moves. *)
Theorem next_cooldown_is_what_a_ban_imposes env sys env' sys' fs info :
  val_of (ConnectionManager.getCooldownInfo env sys (connectionManager fs)) = inr info ->
  Recovery.lastBan fs <> 0 ->
  let r := Recovery.handleBanDetected env' sys' fs in
  exists d,
    CooldownInfo.more info = Some d /\
    CooldownInfo.nextCooldownMinutes d =
      at_index COOLDOWN_LEVELS (Recovery.level (st_of r)).
Proof.
  intros I B r.
  destruct (handleBanDetected_spec env' sys' fs) as (_ & _ & L & _). fold r in L. rewrite L.
  break_fs fs. break_sys sys. unfold ConnectionManager.getCooldownInfo in I. simp in I. simp in B.
  apply Z.eqb_neq in B. rewrite B in I. simp in I. injection I as <-.
  eexists. split; [reflexivity|]. cbn [CooldownInfo.nextCooldownMinutes]. simp.
  destruct (Z.ltb_spec lvl maxLevel).
  - rewrite Z.min_l by lia. reflexivity.
  - rewrite Z.min_r by lia. reflexivity.
Qed.

Lemma next_cooldown_is_what_a_ban_imposes_witness :
  Recovery.lastBan Sample.cooling <> 0 /\
  exists info d,
    val_of (ConnectionManager.getCooldownInfo Sample.env_up Sample.sys0
              (connectionManager Sample.cooling)) = inr info /\
    CooldownInfo.more info = Some d /\
    CooldownInfo.nextCooldownMinutes d = Some 60 /\
    Recovery.level (st_of (Recovery.handleBanDetected Sample.env_up Sample.sys0
                             Sample.cooling)) = 2.
Proof.
  assert (B : Recovery.lastBan Sample.cooling <> 0) by discriminate.
  split; [exact B|].
  destruct (next_cooldown_is_what_a_ban_imposes Sample.env_up Sample.sys0 Sample.env_up
              Sample.sys0 Sample.cooling _ eq_refl B) as (d & M & N).
  eexists. exists d. split; [reflexivity|]. split; [exact M|]. split; [|reflexivity].
  rewrite N. reflexivity.
Defined.

Lemma ban_steps env sys fs : steps fs (Recovery.handleBanDetected env sys fs).
Proof.
  destruct (handleBanDetected_spec env sys fs) as (B & _ & L & _ & _ & _ & _ & V).
  unfold steps. auto.
Qed.

Lemma steps_counted fs r : steps (counted fs) r -> steps fs r.
Proof. break_fs fs. exact (fun H => H). Qed.

Lemma attemptSimple_steps env sys fs :
  steps fs (Recovery.attemptSimpleGcReconnection env sys fs).
Proof.
  destruct (steamID fs) eqn:Hs.
  - destruct (gamesPlayed_ok env) eqn:G.
    + break_fs fs. break_env env. break_sys sys. cbn in Hs, G. subst sid gp.
      unfold steps. destruct tmr; run; auto.
    + break_fs fs. break_env env. break_sys sys. cbn in Hs, G. subst sid gp.
      unfold Recovery.attemptSimpleGcReconnection, FilterService.gamesPlayed. simp.
      match goal with |- context [Recovery.handleBanDetected ?a ?b ?c] =>
        pose proof (ban_steps a b c) as S;
        destruct (Recovery.handleBanDetected a b c) as [ev s1 s2 v] end.
      unfold steps in *. simp in S. simp. exact S.
  - rewrite (attemptSimple_logged_off env sys fs Hs). apply ban_steps.
Qed.

Lemma timeout_steps env sys fs : steps fs (Recovery.handleConnectionTimeout env sys fs).
Proof.
  rewrite handleConnectionTimeout_unfold. apply steps_counted.
  destruct (_ =? 1); [apply attemptSimple_steps | apply ban_steps].
Qed.

Lemma recovery_steps env sys fs : steps fs (Recovery.startRecovery env sys fs).
Proof.
  destruct (Recovery.recovering fs) eqn:R.
  - rewrite (startRecovery_is_exclusive env sys fs R). unfold steps. cbn. auto.
  - pose proof (timeout_steps env sys
        (set_connectionManager
           (ConnectionManager.set_recoveryInProgress true (connectionManager fs)) fs)) as S.
    break_fs fs. cbn in R. subst rip.
    unfold Recovery.startRecovery. simp. simp in S.
    match goal with |- context [Recovery.handleConnectionTimeout ?a ?b ?c] =>
      destruct (Recovery.handleConnectionTimeout a b c) as [ev s1 s2 v] end.
    unfold steps in *. simp in S. destruct S as (-> & S). simp.
    destruct s2 as [up' pa' inst' batch' cur' stats' [att' lgc' tmr' rip' lbt' tbc' lvl' st' gct']
                    rc2 ct' lst' sst' sid' ib' bet' cfg']. simp in S. simp. auto.
Qed.

Lemma call_steps c env sys fs : steps fs (call c env sys fs).
Proof.
  destruct c; cbn [call].
  - apply ban_steps.
  - apply timeout_steps.
  - apply recovery_steps.
  - break_fs fs. break_sys sys. unfold steps. rewrite maxLevel_eq.
    unfold ConnectionManager.onGcConnected, ConnectionManager.clearConnectionTimer,
      ConnectionManager.saveCooldownState, ConnectionManager.reset.
    destruct tmr; simp; destruct (0 <? lvl) eqn:E; simp; auto; repeat split; auto; right; right; lia.
  - break_fs fs. break_sys sys. unfold steps. destruct tmr, rip; run; auto.
  - break_fs fs. break_sys sys. unfold steps. destruct tmr, rip; run; auto.
  - break_fs fs. break_sys sys. unfold steps. destruct tmr; run; auto.
  - break_fs fs. break_sys sys. unfold steps. destruct tmr; run; auto.
  - break_fs fs. break_sys sys. unfold steps. rewrite maxLevel_eq.
    unfold ConnectionManager.resetCooldown, ConnectionManager.saveCooldownState. simp.
    repeat split; auto. right; right; lia.
  - break_fs fs. break_sys sys. unfold steps. rewrite maxLevel_eq.
    unfold ConnectionManager.setCooldownLevel, ConnectionManager.saveCooldownState.
    destruct (Z.leb_spec 0 level), (Z.ltb_spec level (Z.of_nat (length COOLDOWN_LEVELS)));
      simp; repeat split; auto.
    right; right. cbn in *. lia.
Qed.

(** X10.  From a level of the table, no sequence of calls on the manager
    -- bans, timeouts, recoveries, connection and error signals, timer
    starts, manual resets and level settings with any argument -- takes
    [cooldownLevel] out of the table or lowers [totalBanCount], and none of
    the calls throws. *)
Theorem cooldown_level_stays_in_table l : forall env sys fs,
  0 <= Recovery.level fs <= maxLevel ->
  let r := calls l env sys fs in
  0 <= Recovery.level (st_of r) <= maxLevel /\
  Recovery.bans fs <= Recovery.bans (st_of r) /\
  val_of r = inr tt.
Proof.
  induction l as [|c l IH]; intros env sys fs H; cbn [calls].
  - cbn. split; [exact H|]. split; [lia|reflexivity].
  - unfold bind. destruct (call_steps c env sys fs) as (V & B & L).
    destruct (call c env sys fs) as [ev sys1 fs1 v]. cbn [val_of st_of] in *. subst v.
    assert (H1 : 0 <= Recovery.level fs1 <= maxLevel) by (rewrite maxLevel_eq in *; lia).
    destruct (IH env sys1 fs1 H1) as (I1 & I2 & I3).
    destruct (calls l env sys1 fs1) as [ev2 sys2 fs2 v2]. cbn [val_of st_of] in *.
    split; [exact I1|]. split; [lia|exact I3].
Qed.

Lemma cooldown_level_stays_in_table_witness :
  0 <= Recovery.level Sample.busy <= maxLevel /\
  let r := calls [BanDetected; SetCooldownLevel 9; ConnectionTimeout; BanDetected; BanDetected;
                  GcConnected; BanDetected]
             Sample.env_up Sample.sys0 Sample.busy in
  0 <= Recovery.level (st_of r) <= maxLevel /\
  Recovery.bans Sample.busy <= Recovery.bans (st_of r).
Proof.
  assert (H : 0 <= Recovery.level Sample.busy <= maxLevel) by (vm_compute; split; discriminate).
  split; [exact H|].
  destruct (cooldown_level_stays_in_table
              [BanDetected; SetCooldownLevel 9; ConnectionTimeout; BanDetected; BanDetected;
               GcConnected; BanDetected]
              Sample.env_up Sample.sys0 Sample.busy H) as (L & B & _).
  split; [exact L | exact B].
Defined.

(** X11.  [n] bans in a row from a level [L] of the table end at level
    [min (L + n) 5] with [n] more bans counted: five bans from a clean
    state reach the 8-hour level, and further bans stay there. *)
Theorem repeated_bans_climb_to_the_top n : forall env sys fs,
  Recovery.level fs <= maxLevel ->
  let r := bans_in_a_row n env sys fs in
  Recovery.level (st_of r) = Z.min (Recovery.level fs + Z.of_nat n) maxLevel /\
  Recovery.bans (st_of r) = Recovery.bans fs + Z.of_nat n.
Proof.
  induction n as [|n IH]; intros env sys fs H; cbn [bans_in_a_row].
  - cbn. lia.
  - unfold bind.
    destruct (handleBanDetected_spec env sys fs) as (B & _ & L & _ & _ & _ & _ & V).
    destruct (Recovery.handleBanDetected env sys fs) as [ev sys1 fs1 v].
    cbn [val_of st_of] in *. subst v.
    assert (H1 : Recovery.level fs1 <= maxLevel) by lia.
    destruct (IH env sys1 fs1 H1) as (I1 & I2).
    destruct (bans_in_a_row n env sys1 fs1) as [ev2 sys2 fs2 v2]. cbn [st_of] in *.
    rewrite I1, I2, L, B. rewrite maxLevel_eq in *. lia.
Qed.

Lemma repeated_bans_climb_to_the_top_witness :
  Recovery.level Sample.ready <= maxLevel /\
  Recovery.level (st_of (bans_in_a_row 7 Sample.env_up Sample.sys0 Sample.ready)) = 5 /\
  Recovery.bans (st_of (bans_in_a_row 7 Sample.env_up Sample.sys0 Sample.ready)) = 7.
Proof.
  assert (H : Recovery.level Sample.ready <= maxLevel) by (vm_compute; discriminate).
  split; [exact H|].
  exact (repeated_bans_climb_to_the_top 7 Sample.env_up Sample.sys0 Sample.ready H).
Defined.

Lemma NoDup_filter_fst (p : nat * (Z * task) -> bool) l :
  NoDup (map fst l) -> NoDup (map fst (List.filter p l)).
Proof.
  induction l as [|e l IH]; cbn; [auto|]. intros H. apply NoDup_cons in H as [H1 H2].
  destruct (p e); cbn; [|auto]. apply NoDup_cons. split; [|auto].
  intros Hin. apply H1. apply list_elem_of_In, in_map_iff in Hin as (x & Hx & Hi).
  apply list_elem_of_In, in_map_iff. exists x. split; [exact Hx|].
  apply List.filter_In in Hi. tauto.
Qed.

Lemma tracked_at_most_one y fs :
  timer_tracked y fs -> (length (connection_timers y) <= 1)%nat.
Proof.
  intros (_ & N & R). unfold connection_timers in *.
  pose proof (NoDup_filter_fst is_connection_timer _ N) as N'.
  destruct (List.filter is_connection_timer (timers y)) as [|e1 [|e2 l]]; cbn; try lia.
  exfalso. pose proof (R e1 (or_introl eq_refl)) as H1.
  pose proof (R e2 (or_intror (or_introl eq_refl))) as H2.
  rewrite H1 in H2. injection H2 as H2. cbn in N'. apply NoDup_cons in N' as [N1 _].
  apply N1. rewrite H2. left.
Qed.

Lemma tracked_without y fs :
  timer_tracked y fs ->
  Forall (fun e => (fst e < timerno y)%nat) (without (recorded_timer fs) (timers y)) /\
  NoDup (map fst (without (recorded_timer fs) (timers y))) /\
  List.filter is_connection_timer (without (recorded_timer fs) (timers y)) = [].
Proof.
  intros (F & N & R). unfold without. destruct (recorded_timer fs) as [h|] eqn:E.
  - split; [|split].
    + apply List.Forall_forall. intros e He. apply List.filter_In in He as [He _].
      rewrite List.Forall_forall in F. apply F, He.
    + apply NoDup_filter_fst, N.
    + destruct (List.filter is_connection_timer _) as [|e l] eqn:L; [reflexivity|exfalso].
      assert (He : In e (List.filter is_connection_timer
                           (List.filter (fun e => negb (Nat.eqb (fst e) h)) (timers y))))
        by (rewrite L; left; reflexivity).
      apply List.filter_In in He as [He1 He2]. apply List.filter_In in He1 as [He1 He3].
      assert (Some h = Some (fst e)) as [= ->].
      { apply R. unfold connection_timers. apply List.filter_In. auto. }
      rewrite Nat.eqb_refl in He3. discriminate.
  - split; [exact F|]. split; [exact N|].
    destruct (List.filter is_connection_timer (timers y)) as [|e l] eqn:L; [reflexivity|].
    specialize (R e). unfold connection_timers in R. rewrite L in R.
    discriminate (R (or_introl eq_refl)).
Qed.

Lemma tracked_append y fs d t :
  timer_tracked y fs ->
  Forall (fun e => (fst e < S (timerno y))%nat)
    (without (recorded_timer fs) (timers y) ++ [(timerno y, (d, t))]) /\
  NoDup (map fst (without (recorded_timer fs) (timers y) ++ [(timerno y, (d, t))])).
Proof.
  intros T. pose proof (tracked_without y fs T) as (F & N & E). split.
  - apply Forall_app. split; [eapply Forall_impl; [exact F|]; cbn; intros; lia|].
    repeat constructor.
  - rewrite map_app. apply NoDup_app. split; [exact N|].
    split; [|apply NoDup_singleton].
    intros x Hx Hy. apply list_elem_of_singleton in Hy. subst x.
    apply list_elem_of_In, in_map_iff in Hx as (e & He1 & He2).
    rewrite List.Forall_forall in F. specialize (F e He2). cbn in He1. lia.
Qed.

Lemma shape_keeps_tracked y fs r :
  timer_tracked y fs -> timer_shape y fs r -> timer_tracked (sys_of r) (st_of r).
Proof.
  intros T S. pose proof (tracked_without y fs T) as (F & N & E).
  unfold timer_tracked, connection_timers.
  destruct S as [(-> & -> & ->)|[(-> & -> & ->)|[(d & -> & -> & ->)|(d & -> & -> & ->)]]].
  - exact T.
  - split; [exact F|]. split; [exact N|]. rewrite E. intros e [].
  - destruct (tracked_append y fs d T_handleConnectionTimeout T) as [A B].
    split; [exact A|]. split; [exact B|].
    rewrite List.filter_app, E. cbn. intros e [<-|[]]. reflexivity.
  - destruct (tracked_append y fs d T_startRecovery T) as [A B].
    split; [exact A|]. split; [exact B|].
    rewrite List.filter_app, E. cbn. intros e [].
Qed.

Lemma shutdown_shape m env sys fs :
  timer_shape sys fs (Recovery.performCleanShutdown m env sys fs).
Proof.
  break_fs fs. break_sys sys. break_env env. unfold timer_shape, recorded_timer, without.
  destruct m, sid, up, tmr, batch, cur; run; auto.
Qed.

Lemma ban_shape env sys fs : timer_shape sys fs (Recovery.handleBanDetected env sys fs).
Proof.
  rewrite handleBanDetected_unfold.
  match goal with |- context [Recovery.performCleanShutdown ?a ?b ?c ?d] =>
    pose proof (shutdown_shape a b c d) as S end.
  break_fs fs. break_sys sys. exact S.
Qed.

Lemma shape_counted sys fs r : timer_shape sys (counted fs) r -> timer_shape sys fs r.
Proof. break_fs fs. exact (fun H => H). Qed.

Lemma attemptSimple_shape env sys fs :
  timer_shape sys fs (Recovery.attemptSimpleGcReconnection env sys fs).
Proof.
  destruct (steamID fs) eqn:Hs.
  - destruct (gamesPlayed_ok env) eqn:G.
    + break_fs fs. break_env env. break_sys sys. cbn in Hs, G. subst sid gp.
      unfold timer_shape, recorded_timer, without. destruct tmr; run; right; right; left; eauto.
    + break_fs fs. break_env env. break_sys sys. cbn in Hs, G. subst sid gp.
      unfold Recovery.attemptSimpleGcReconnection, FilterService.gamesPlayed. simp.
      match goal with |- context [Recovery.handleBanDetected ?a ?b ?c] =>
        pose proof (ban_shape a b c) as S;
        destruct (Recovery.handleBanDetected a b c) as [ev s1 s2 v] end.
      unfold timer_shape, recorded_timer in *. simp in S. simp. exact S.
  - rewrite (attemptSimple_logged_off env sys fs Hs). apply ban_shape.
Qed.

Lemma timeout_shape env sys fs : timer_shape sys fs (Recovery.handleConnectionTimeout env sys fs).
Proof.
  rewrite handleConnectionTimeout_unfold. apply shape_counted.
  destruct (_ =? 1); [apply attemptSimple_shape | apply ban_shape].
Qed.

Lemma recovery_shape env sys fs : timer_shape sys fs (Recovery.startRecovery env sys fs).
Proof.
  destruct (Recovery.recovering fs) eqn:R.
  - rewrite (startRecovery_is_exclusive env sys fs R). left. auto.
  - pose proof (timeout_shape env sys
        (set_connectionManager
           (ConnectionManager.set_recoveryInProgress true (connectionManager fs)) fs)) as S.
    break_fs fs. cbn in R. subst rip.
    unfold Recovery.startRecovery. simp. simp in S.
    match goal with |- context [Recovery.handleConnectionTimeout ?a ?b ?c] =>
      destruct (timeout_steps a b c) as [V _];
      destruct (Recovery.handleConnectionTimeout a b c) as [ev s1 s2 v] end.
    cbn [val_of] in V. subst v.
    unfold timer_shape, recorded_timer in *. simp in S.
    destruct s2 as [up' pa' inst' batch' cur' stats' [att' lgc' tmr' rip' lbt' tbc' lvl' st' gct']
                    rc2 ct' lst' sst' sid' ib' bet' cfg'].
    simp in S. simp. exact S.
Qed.

Lemma call_shape c env sys fs : timer_shape sys fs (call c env sys fs).
Proof.
  destruct c; cbn [call].
  - apply ban_shape.
  - apply timeout_shape.
  - apply recovery_shape.
  - break_fs fs. break_sys sys. unfold timer_shape, recorded_timer, without.
    unfold ConnectionManager.onGcConnected, ConnectionManager.clearConnectionTimer,
      ConnectionManager.saveCooldownState, ConnectionManager.reset.
    destruct tmr; simp; destruct (0 <? lvl); simp; auto.
  - break_fs fs. break_sys sys. unfold timer_shape, recorded_timer, without.
    destruct tmr, rip; run; eauto 8.
  - break_fs fs. break_sys sys. unfold timer_shape, recorded_timer, without.
    destruct tmr, rip; run; eauto 8.
  - break_fs fs. break_sys sys. unfold timer_shape, recorded_timer, without.
    destruct tmr; run; eauto 8.
  - break_fs fs. break_sys sys. unfold timer_shape, recorded_timer, without.
    destruct tmr; run; eauto 8.
  - break_fs fs. break_sys sys. unfold timer_shape, recorded_timer, without.
    unfold ConnectionManager.resetCooldown, ConnectionManager.saveCooldownState. simp. auto.
  - break_fs fs. break_sys sys. unfold timer_shape, recorded_timer, without.
    unfold ConnectionManager.setCooldownLevel, ConnectionManager.saveCooldownState.
    destruct (0 <=? level), (level <? _); simp; auto.
Qed.

(** X14.  At most one connection timer is pending.  If the only connection
    timer that can be pending is the one on record ([timer_tracked]), this
    stays so through every sequence of calls on the manager:
    [startConnectionTimer] clears the old timer before it arms the new
    one, and a ban clears it. *)
Theorem at_most_one_connection_timer l : forall env sys fs,
  timer_tracked sys fs ->
  let r := calls l env sys fs in
  timer_tracked (sys_of r) (st_of r) /\
  (length (connection_timers (sys_of r)) <= 1)%nat.
Proof.
  assert (forall env sys fs, timer_tracked sys fs ->
            timer_tracked (sys_of (calls l env sys fs)) (st_of (calls l env sys fs))) as H.
  { induction l as [|c l IH]; intros env sys fs T; cbn [calls]; [exact T|].
    unfold bind. pose proof (shape_keeps_tracked sys fs _ T (call_shape c env sys fs)) as T1.
    destruct (call c env sys fs) as [ev sys1 fs1 [e|[]]]; cbn [sys_of st_of] in *; [exact T1|].
    specialize (IH env sys1 fs1 T1).
    destruct (calls l env sys1 fs1) as [ev2 sys2 fs2 v2]. exact IH. }
  intros env sys fs T r. split; [apply H, T|]. eapply tracked_at_most_one, H, T.
Qed.

Lemma at_most_one_connection_timer_witness :
  timer_tracked Sample.sys0 Sample.busy /\
  let r := calls [StartConnectionTimer; StartConnectionTimer; ConnectionTimeout]
             Sample.env_up Sample.sys0 Sample.busy in
  (length (connection_timers (sys_of r)) <= 1)%nat /\
  connection_timers (sys_of r) = [(2%nat, (120000, T_handleConnectionTimeout))].
Proof.
  assert (H : timer_tracked Sample.sys0 Sample.busy).
  { split; [apply Forall_nil; exact I|]. split; [apply NoDup_nil_2|].
    intros e He. vm_compute in He. destruct He. }
  split; [exact H|]. split; [|reflexivity].
  exact (proj2 (at_most_one_connection_timer
                  [StartConnectionTimer; StartConnectionTimer; ConnectionTimeout]
                  Sample.env_up Sample.sys0 Sample.busy H)).
Defined.

End ManagerCalls.

(** ** The worker: checks, retries and the loop *)

Section WorkerLoopFacts.
Import FilterService.

Lemma mem_Z_In x l : mem_Z x l = true <-> In x l.
Proof.
  unfold mem_Z. rewrite existsb_exists. split.
  - intros (y & Hy & E). apply Z.eqb_eq in E. subst. exact Hy.
  - intros H. exists x. split; [exact H|apply Z.eqb_refl].
Qed.

(** X15.  [checkProfile] passes a profile exactly when it has fewer than
    100 commendations in all, shows medal 874 among at least three medals,
    and shows none of the unwanted medals. *)
Theorem checkProfile_passes_iff profile :
  let medals := default [] (display_items_defidx profile) in
  (exists reason, checkProfile (Some profile) = inr (true, reason)) <->
  cmd_friendly profile + cmd_teaching profile + cmd_leader profile < 100 /\
  In 874 medals /\
  (3 <= length medals)%nat /\
  (forall m, In m medals -> ~ In m unwantedMedals).
Proof.
  intros medals. unfold checkProfile. fold medals.
  destruct (Z.leb_spec 100 (cmd_friendly profile + cmd_teaching profile + cmd_leader profile)).
  { split; [intros [r [=]] | intros [? _]; lia]. }
  destruct (mem_Z 874 medals) eqn:M; cbn [negb].
  2:{ split; [intros [r [=]]|]. intros (_ & I & _).
      apply (proj2 (mem_Z_In _ _)) in I. rewrite I in M. discriminate. }
  apply (proj1 (mem_Z_In _ _)) in M.
  destruct (Nat.ltb_spec (length medals) 3).
  { split; [intros [r [=]] | intros (_ & _ & ? & _); lia]. }
  destruct (List.find _ medals) as [x|] eqn:F.
  - split; [intros [r [=]]|]. intros (_ & _ & _ & U).
    apply List.find_some in F as [F1 F2]. apply (proj1 (mem_Z_In _ _)) in F2.
    exfalso. exact (U x F1 F2).
  - split; [|eauto]. intros _. repeat split; auto.
    intros m Hm Hu. pose proof (List.find_none _ _ F m Hm) as N. cbv beta in N.
    apply (proj2 (mem_Z_In _ _)) in Hu. rewrite Hu in N. discriminate.
Qed.

(** X16.  A queue request resolves exactly when the answer has status 200,
    parses, and carries [success: true]; a network error, a timeout, an
    unparsable body, another status and [success: false] all reject.  The
    request is made once; without a base URL it rejects before anything
    is sent. *)
Theorem queue_request_resolves_iff r env sys fs :
  (forall u p, QUEUE_API_URL (config fs) = Some u ->
     (val_of (makeQueueApiRequest r env sys fs) = inr p <->
      http env (reqno sys) = Reply 200 (Some p) /\ success p = true)) /\
  (forall u, QUEUE_API_URL (config fs) = Some u ->
     exists ok, events (makeQueueApiRequest r env sys fs) = [Http r ok] /\
                (ok = true <-> exists p, val_of (makeQueueApiRequest r env sys fs) = inr p)) /\
  (QUEUE_API_URL (config fs) = None ->
     events (makeQueueApiRequest r env sys fs) = [] /\
     exists e, val_of (makeQueueApiRequest r env sys fs) = inl e).
Proof.
  unfold makeQueueApiRequest, node_request, bind, get. split; [|split].
  - intros u p ->. unfold ok200.
    destruct (http env (reqno sys)) as [| |code [q|]]; cbn;
      try (split; [discriminate|intros [[=] _]]).
    destruct (Z.eqb_spec code 200) as [->|N], (success q) eqn:S; cbn.
    + split; [intros [= ->]; auto | intros [[= ->] _]; reflexivity].
    + split; [discriminate|]. intros [[= ->] ?]. congruence.
    + split; [discriminate|]. intros [[= ? ->] _]. contradiction.
    + split; [discriminate|]. intros [[= ? ->] _]. contradiction.
  - intros u ->.
    destruct (http env (reqno sys)) as [| |code [q|]]; [ | | destruct (ok200 code q) | ]; cbn;
      eexists; (split; [reflexivity|]); split; eauto; try discriminate; intros [p [=]].
  - intros ->. cbn. eauto.
Qed.

Lemma mark_calls_app l1 l2 : mark_calls (l1 ++ l2) = mark_calls l1 ++ mark_calls l2.
Proof. apply List.filter_app. Qed.
Lemma delays_app l1 l2 : delays (l1 ++ l2) = delays l1 ++ delays l2.
Proof. apply List.filter_app. Qed.

Lemma mark_attempt steamID64 u env sys fs :
  DJANGO_API_URL (config fs) = Some u ->
  exists ok v,
    markSteamIdProcessed steamID64 env sys fs =
      mkRes [Http (MarkProcessed steamID64) ok] (set_reqno (S (reqno sys)) sys) fs v /\
    (mark_ok env (reqno sys) = true -> exists p, v = inr p /\ success p = true) /\
    (mark_ok env (reqno sys) = false -> match v with inr p => success p = false | inl _ => True end).
Proof.
  intros U. unfold markSteamIdProcessed, node_request, bind, get, mark_ok. rewrite U.
  destruct (http env (reqno sys)) as [| |code [p|]]; cbn;
    try (do 2 eexists; split; [reflexivity|]; split; [discriminate|auto]).
  destruct (code =? 200); cbn.
  - do 2 eexists. split; [reflexivity|]. split; eauto.
  - do 2 eexists. split; [reflexivity|]. split; [discriminate|auto].
Qed.

Lemma markLoop_count steamID64 u env remaining : forall attempt sys fs,
  DJANGO_API_URL (config fs) = Some u ->
  (attempt + remaining = 4)%nat ->
  let r := markLoop remaining attempt 3 steamID64 env sys fs in
  let n := length (mark_calls (events r)) in
  exists marked,
    val_of r = inr marked /\
    st_of r = fs /\
    (n <= remaining)%nat /\
    (1 <= remaining -> 1 <= n)%nat /\
    reqno (sys_of r) = (reqno sys + n)%nat /\
    delays (events r) = repeat (Delay 2000) (n - 1) /\
    (marked = true -> (1 <= n)%nat /\ mark_ok env (reqno sys + n - 1) = true) /\
    (forall k, (k < n - 1)%nat -> mark_ok env (reqno sys + k) = false) /\
    (marked = false -> n = remaining /\
       forall k, (k < remaining)%nat -> mark_ok env (reqno sys + k) = false).
Proof.
  induction remaining as [|rem IH]; intros attempt sys fs U A r n.
  - exists false. subst r n. cbn. repeat split; auto; try lia; try discriminate; intros; lia.
  - subst r n. cbn [markLoop]. unfold try_catch, bind, ret, throw.
    destruct (mark_attempt steamID64 u env sys fs U) as (ok & v & E & T & F). rewrite E.
    destruct (mark_ok env (reqno sys)) eqn:K.
    + destruct (T eq_refl) as (p & -> & S). rewrite S. cbn.
      exists true. split; [reflexivity|]. split; [reflexivity|]. split; [lia|].
      split; [lia|]. split; [lia|]. split; [reflexivity|].
      split; [intros _; split; [lia|];
              replace (reqno sys + 1 - 1)%nat with (reqno sys) by lia; exact K|].
      split; [intros; lia | discriminate].
    + specialize (F eq_refl).
      destruct (Nat.ltb_spec attempt 3) as [L|L].
      * (* a delay, then the next attempt *)
        assert (H : (S attempt + rem = 4)%nat) by lia.
        destruct v as [e|p]; [|rewrite F]; cbn; unfold delay;
          (match goal with |- context [markLoop rem (S attempt) 3 steamID64 env ?y fs] =>
             destruct (IH (S attempt) y fs U H) as (m & V & St & N1 & N2 & Rq & D & M1 & M2 & M3);
             destruct (markLoop rem (S attempt) 3 steamID64 env y fs) as [ev2 sys2 fs2 v2] end);
          cbn [events val_of st_of sys_of reqno set_reqno set_clock] in *;
          exists m; unfold mark_calls, delays in *;
          cbn [List.filter is_mark is_delay app length];
          set (n2 := length (List.filter is_mark ev2)) in *;
          (split; [exact V|]); (split; [exact St|]);
          assert (1 <= n2)%nat by (apply N2; lia);
          (split; [lia|]); (split; [lia|]); (split; [lia|]);
          (split; [rewrite D; replace (S n2 - 1)%nat with (S (n2 - 1)) by lia; reflexivity|]);
          (split; [intros Hm; destruct (M1 Hm) as [M11 M12]; split; [lia|];
                   replace (reqno sys + S n2 - 1)%nat
                     with (S (reqno sys) + n2 - 1)%nat by lia; exact M12|]);
          (split; [intros k Hk; destruct k as [|k]; [rewrite Nat.add_0_r; exact K|];
                   replace (reqno sys + S k)%nat with (S (reqno sys) + k)%nat by lia;
                   apply M2; lia|]);
          (intros Hm; destruct (M3 Hm) as [M31 M32]; split; [lia|];
           intros k Hk; destruct k as [|k]; [rewrite Nat.add_0_r; exact K|];
           replace (reqno sys + S k)%nat with (S (reqno sys) + k)%nat by lia; apply M32; lia).
      * (* the last attempt *)
        assert (rem = 0)%nat by lia. subst rem.
        destruct v as [e|p]; [|rewrite F]; cbn;
          exists false; repeat split; auto; try lia; try discriminate;
          intros k Hk; try lia; assert (k = 0)%nat by lia; subst k;
          rewrite Nat.add_0_r; exact K.
Qed.

(** X17.  [markSteamIdProcessedWithRetries] tells the database about an id
    at least once and at most three times, pauses 2 s between two
    attempts and not after the last, leaves the worker as it is, and
    stops at the first attempt that is acknowledged; it returns [false]
    only after three attempts that were not. *)
Theorem marking_tries_at_most_three_times steamID64 u env sys fs :
  DJANGO_API_URL (config fs) = Some u ->
  let r := markSteamIdProcessedWithRetries steamID64 env sys fs in
  let n := length (mark_calls (events r)) in
  (1 <= n <= 3)%nat /\
  delays (events r) = repeat (Delay 2000) (n - 1) /\
  st_of r = fs /\
  (forall k, (k < n - 1)%nat -> mark_ok env (reqno sys + k) = false) /\
  exists marked,
    val_of r = inr marked /\
    (marked = true -> mark_ok env (reqno sys + n - 1) = true) /\
    (marked = false -> n = 3%nat /\ mark_ok env (reqno sys + 2) = false).
Proof.
  intros U r n. subst r n. unfold markSteamIdProcessedWithRetries.
  destruct (markLoop_count steamID64 u env 3 1 sys fs U eq_refl)
    as (m & V & St & N1 & N2 & Rq & D & M1 & M2 & M3).
  split; [split; [apply N2; lia | exact N1]|]. split; [exact D|]. split; [exact St|].
  split; [exact M2|]. exists m. split; [exact V|]. split; [intros H; apply M1, H|].
  intros H. destruct (M3 H) as [M31 M32]. split; [exact M31 | apply M32; lia].
Qed.

Lemma marking_tries_at_most_three_times_witness :
  DJANGO_API_URL (config Sample.ready) = Some "https://marker.example/mark/"%string /\
  (1 <= length (mark_calls (events (markSteamIdProcessedWithRetries "76561198000000001"
                                      Sample.env_down Sample.sys0 Sample.ready))) <= 3)%nat /\
  events (markSteamIdProcessedWithRetries "76561198000000001"
            Sample.env_down Sample.sys0 Sample.ready) =
    [Http (MarkProcessed "76561198000000001") false; Delay 2000;
     Http (MarkProcessed "76561198000000001") false; Delay 2000;
     Http (MarkProcessed "76561198000000001") false].
Proof.
  assert (H : DJANGO_API_URL (config Sample.ready) = Some "https://marker.example/mark/"%string)
    by reflexivity.
  split; [exact H|]. split; [|reflexivity].
  exact (proj1 (marking_tries_at_most_three_times "76561198000000001" _
                  Sample.env_down Sample.sys0 Sample.ready H)).
Defined.

(** X18.  [processSteamIDWithRetries] asks the coordinator at most
    [maxRetries] times for an item.  Its outcome is a transient error
    exactly when every attempt rejects; otherwise it is the verdict of
    [checkProfile] on the first profile that arrives, and the request
    that brought it is the last one. *)
Theorem retries_stop_at_first_answer steamID64 maxRetries env sys fs :
  let p := processSteamIDWithRetries steamID64 maxRetries env sys fs in
  let n := length (profile_requests (events p)) in
  (n <= maxRetries)%nat /\
  ((exists e, val_of p = inr (Failed e)) <->
   forall k, (k < maxRetries)%nat -> fetch_rejects env steamID64 (gcno sys + k) = true) /\
  (forall passed reason, val_of p = inr (Checked passed reason) ->
   exists k prof,
     (k < maxRetries)%nat /\
     (forall j, (j < k)%nat -> fetch_rejects env steamID64 (gcno sys + j) = true) /\
     gc env (gcno sys + k) = GcProfile (Some prof) /\
     checkProfile (Some prof) = inr (passed, reason) /\
     n = S k).
Proof.
  intros p n. subst p n.
  unfold processSteamIDWithRetries, markSteamIdProcessedWithRetries, bind, try_catch, ret.
  pose proof (retryLoop_outcome steamID64 maxRetries env maxRetries 0%nat None sys fs) as R.
  cbv zeta in R.
  destruct (retryLoop maxRetries 0 maxRetries steamID64 None env sys fs) as [ev sys1 fs1 v].
  cbn [events sys_of st_of val_of] in R.
  destruct R as (_ & _ & _ & N & _ & (result & V) & Fl & Ck). subst v.
  destruct (markLoop_spec steamID64 3%nat env 3%nat 1%nat sys1 fs1)
    as (ev2 & sys2 & m & E2 & _).
  pose proof (markLoop_events steamID64 3%nat env 3%nat 1%nat sys1 fs1) as Me.
  rewrite E2 in *. cbn [events sys_of st_of val_of] in *.
  assert (P2 : profile_requests ev2 = []).
  { apply (filter_nil_of _ mark_event); [exact Me|].
    intros [] H; try reflexivity; discriminate H. }
  rewrite !profile_requests_app, P2, !app_nil_r.
  set (all := forall k, (k < maxRetries)%nat -> fetch_rejects env steamID64 (gcno sys + k) = true).
  assert (D : all \/ exists k, (k < maxRetries)%nat /\
                               fetch_rejects env steamID64 (gcno sys + k) = false).
  { subst all. clear. induction maxRetries as [|n IH]; [left; intros; lia|].
    destruct IH as [IH|(k & K1 & K2)]; [|right; exists k; split; [lia|exact K2]].
    destruct (fetch_rejects env steamID64 (gcno sys + n)) eqn:E.
    - left. intros k Hk. destruct (Nat.eq_dec k n) as [->|]; [exact E|apply IH; lia].
    - right. exists n. split; [lia|exact E]. }
  split; [exact N|]. split; [split|].
  - intros [e [= He]]. destruct D as [D|(k & K1 & K2)]; [exact D|].
    destruct (Ck k K1 K2) as (? & ? & ? & ? & _ & _ & _ & _ & [= X] & _). congruence.
  - intros H. destruct (Fl H) as [e [= ->]]. eauto.
  - intros passed reason [= ->].
    destruct D as [D|(k & K1 & K2)]; [destruct (Fl D) as [e [=]]|].
    destruct (Ck k K1 K2) as (k' & prof & ps & rs & H1 & H2 & H3 & H4 & [= <- <-] & H6).
    exists k', prof. auto.
Qed.


Lemma settled_ids_app l1 l2 : settled_ids (l1 ++ l2) = settled_ids l1 ++ settled_ids l2.
Proof. apply flat_map_app. Qed.

Lemma settled_ids_of_queue_calls l : settled_ids l = settled_ids (queue_calls l).
Proof.
  unfold settled_ids, queue_calls. induction l as [|e l IH]; [reflexivity|].
  cbn [List.filter flat_map]. destruct e as [[] ?| | | | | | | | |]; cbn; rewrite ?IH; reflexivity.
Qed.

Lemma turn_frame item rest u env sys fs :
  QUEUE_API_URL (config fs) = Some u ->
  currentBatch fs = item :: rest ->
  let r := processQueue_turn env sys fs in
  config (st_of r) = config fs /\
  currentBatch (st_of r) = rest /\
  claims (events r) = [] /\
  (settled_ids (events r) = [] \/ settled_ids (events r) = [WorkItem.id item]) /\
  ((forall j, gc env j <> GcSilent) ->
   running (st_of r) = running fs /\ processingActive (st_of r) = processingActive fs).
Proof.
  intros U B r. subst r.
  assert (N : next_item env sys fs = Some (item, rest, sys)) by (unfold next_item; rewrite B; reflexivity).
  destruct (turn_unfold env sys fs item rest sys N) as (ev0 & _ & Z0 & ->).
  rewrite Z0 by (rewrite B; discriminate). cbv zeta. cbn [app].
  assert (U' : QUEUE_API_URL (config (set_currentBatch rest fs)) = Some u)
    by (break_fs fs; exact U).
  destruct (processItem_spec item u env sys (set_currentBatch rest fs) U')
    as (F3 & F4 & F5 & Fq & result & _ & R).
  assert (R1 : running (set_currentBatch rest fs) = running fs) by (break_fs fs; reflexivity).
  assert (R2 : processingActive (set_currentBatch rest fs) = processingActive fs)
    by (break_fs fs; reflexivity).
  assert (R3 : config (set_currentBatch rest fs) = config fs) by (break_fs fs; reflexivity).
  assert (R4 : currentBatch (set_currentBatch rest fs) = rest) by (break_fs fs; reflexivity).
  rewrite R1, R2 in Fq. rewrite R3 in F3. rewrite R4 in F4.
  unfold try_catch, loop_catch.
  destruct (processItem item env sys (set_currentBatch rest fs)) as [ev sys1 s1 v].
  cbn [events val_of st_of] in *.
  assert (S : settled_ids ev = [] \/ settled_ids ev = [WorkItem.id item]).
  { rewrite settled_ids_of_queue_calls.
    destruct R as [(ok & Q & _) | (Q & _)]; rewrite Q.
    - destruct result as [[|] ?|?]; cbn; auto.
    - cbn. auto. }
  destruct v as [e|[]].
  - unfold bind, get, delay. cbn [events st_of].
    rewrite claims_app, settled_ids_app, F5. cbn. rewrite app_nil_r. auto 10.
  - cbn [events st_of]. auto 10.
Qed.


(** X20.  While claimed items remain, the loop claims nothing.  [k]
    turns on a batch of at least [k] items take a first part of the
    batch, [j] items, one per turn, and leave the others in the batch;
    the complete and release requests of the loop name those [j] items
    in their order, each at most once.  The loop stops short of [k] items
    only when the worker is no longer running and processing, as after the
    timeout handling inside a fetch attempt; when the worker is running
    and processing and the coordinator answers every request, all [k]
    items are taken. *)
Theorem batch_is_consumed_in_order k : forall env sys fs u,
  QUEUE_API_URL (config fs) = Some u ->
  (k <= length (currentBatch fs))%nat ->
  let r := processQueue k env sys fs in
  claims (events r) = [] /\
  exists j,
    (j <= k)%nat /\
    currentBatch (st_of r) = drop j (currentBatch fs) /\
    sublist (settled_ids (events r)) (map WorkItem.id (take j (currentBatch fs))) /\
    ((j < k)%nat -> isRunning (st_of r) = false) /\
    (isRunning fs = true -> (forall n, gc env n <> GcSilent) -> j = k).
Proof.
  induction k as [|k IH]; intros env sys fs u U L r; subst r.
  - cbn. split; [reflexivity|]. exists 0%nat. rewrite drop_0.
    repeat split; auto; try lia; constructor.
  - cbn [processQueue]. unfold bind, get. fold (isRunning fs).
    destruct (isRunning fs) eqn:A.
    2:{ cbn. split; [reflexivity|]. exists 0%nat. rewrite drop_0.
        repeat split; auto; try lia; try discriminate; constructor. }
    destruct (currentBatch fs) as [|item rest] eqn:B; [cbn in L; lia|].
    destruct (turn_frame item rest u env sys fs U B) as (F3 & F4 & F5 & F6 & Fq).
    pose proof (turn_total env sys fs) as T.
    destruct (processQueue_turn env sys fs) as [ev sys1 s1 v].
    cbn [events val_of st_of] in *. subst v.
    assert (U1 : QUEUE_API_URL (config s1) = Some u) by (rewrite F3; exact U).
    assert (L1 : (k <= length (currentBatch s1))%nat) by (rewrite F4; cbn in L; lia).
    destruct (IH env sys1 s1 u U1 L1) as (I2 & j & J1 & J2 & J3 & J4 & J5).
    destruct (processQueue k env sys1 s1) as [ev2 sys2 s2 v2].
    cbn [events st_of app] in *. rewrite F4 in J2, J3.
    split; [rewrite claims_app, F5, I2; reflexivity|].
    exists (S j). split; [lia|]. split; [exact J2|].
    split; [|split].
    + rewrite settled_ids_app. cbn [take map].
      destruct F6 as [-> | ->]; cbn [app].
      * apply sublist_cons, J3.
      * apply sublist_skip, J3.
    + intros H. apply J4. lia.
    + intros _ Hq. f_equal. apply J5; [|exact Hq].
      destruct (Fq Hq) as [Q1 Q2]. unfold isRunning in *. rewrite Q1, Q2. exact A.
Qed.


Lemma batch_is_consumed_in_order_witness :
  QUEUE_API_URL (config Sample.ready) = Some Sample.url /\
  (2 <= length (currentBatch Sample.ready))%nat /\
  (let r := processQueue 2 Sample.env_up Sample.sys0 Sample.ready in
   claims (events r) = [] /\
   currentBatch (st_of r) = [] /\
   settled_ids (events r) = [WorkItem.id Sample.a; WorkItem.id Sample.b]) /\
  (let r := processQueue 2 Sample.env_silent Sample.sys0 Sample.impatient in
   claims (events r) = [] /\
   currentBatch (st_of r) = [Sample.b] /\
   settled_ids (events r) = [WorkItem.id Sample.a] /\
   isRunning (st_of r) = false).
Proof.
  assert (U : QUEUE_API_URL (config Sample.ready) = Some Sample.url) by reflexivity.
  assert (L : (2 <= length (currentBatch Sample.ready))%nat) by (vm_compute; lia).
  assert (U' : QUEUE_API_URL (config Sample.impatient) = Some Sample.url) by reflexivity.
  assert (L' : (2 <= length (currentBatch Sample.impatient))%nat) by (vm_compute; lia).
  split; [exact U|]. split; [exact L|]. split.
  - split; [|split; reflexivity].
    exact (proj1 (batch_is_consumed_in_order 2 Sample.env_up Sample.sys0 Sample.ready
                    Sample.url U L)).
  - split; [|repeat split; reflexivity].
    exact (proj1 (batch_is_consumed_in_order 2 Sample.env_silent Sample.sys0 Sample.impatient
                    Sample.url U' L')).
Defined.

(** X19.  Every item that [processSteamIDWithRetries] handles is reported
    to the mark-processed API, with one to three requests, whatever the
    outcome of its check -- also an item that ends in a transient error
    and is released for another try. *)
Theorem every_item_is_reported steamID64 maxRetries u env sys fs :
  DJANGO_API_URL (config fs) = Some u ->
  let p := processSteamIDWithRetries steamID64 maxRetries env sys fs in
  (1 <= length (mark_calls (events p)) <= 3)%nat /\
  exists result, val_of p = inr result.
Proof.
  intros U p. subst p.
  unfold processSteamIDWithRetries, markSteamIdProcessedWithRetries, bind, try_catch, ret.
  pose proof (retryLoop_outcome steamID64 maxRetries env maxRetries 0%nat None sys fs) as R.
  cbv zeta in R.
  destruct (retryLoop maxRetries 0 maxRetries steamID64 None env sys fs) as [ev sys1 fs1 v].
  cbn [events sys_of st_of val_of] in R.
  destruct R as (W & Ge & _ & _ & _ & (result & V) & _). subst v.
  assert (U1 : DJANGO_API_URL (config fs1) = Some u)
    by (destruct W as (_ & _ & _ & _ & ->); exact U).
  destruct (markLoop_count steamID64 u env 3 1 sys1 fs1 U1 eq_refl)
    as (m & V & _ & N1 & N2 & _).
  destruct (markLoop 3 1 3 steamID64 env sys1 fs1) as [ev2 sys2 fs2 v2].
  cbn [events val_of] in *. subst v2. cbn [events val_of]. rewrite !app_nil_r.
  assert (M : mark_calls ev = []).
  { apply (filter_nil_of _ gc_event); [exact Ge|].
    intros [[] ?| | | | | | | | |] H; try reflexivity; discriminate H. }
  rewrite mark_calls_app, M. cbn [app]. split; [split; [apply N2; lia|exact N1]|eauto].
Qed.

Lemma every_item_is_reported_witness :
  DJANGO_API_URL (config Sample.ready) = Some "https://marker.example/mark/"%string /\
  let p := processSteamIDWithRetries "76561198000000001" 3
             Sample.env_silent Sample.sys0 Sample.ready in
  (exists e, val_of p = inr (Failed e)) /\
  (1 <= length (mark_calls (events p)) <= 3)%nat.
Proof.
  assert (H : DJANGO_API_URL (config Sample.ready) = Some "https://marker.example/mark/"%string)
    by reflexivity.
  split; [exact H|]. split; [eexists; reflexivity|].
  exact (proj1 (every_item_is_reported "76561198000000001" 3 _
                  Sample.env_silent Sample.sys0 Sample.ready H)).
Defined.

(** X21.  [stop()] is final for what starts after it.  After it the
    worker is not running; a second [stop()] does nothing, so [stop()]
    queues no release twice; the timer callbacks of the worker -- the
    game launch after login, the login retry -- do nothing; and
    [processQueue], entered after it, makes no turn.  [stop()] leaves
    [currentBatch] and [currentItem] as they are: it takes no claimed item
    out of the worker's hands. *)
Theorem stop_is_final env sys fs env' sys' turns :
  let s := st_of (stop env sys fs) in
  running s = false /\
  currentBatch s = currentBatch fs /\
  currentItem s = currentItem fs /\
  stop env' sys' s = mkRes [] sys' s (inr tt) /\
  launchGame env' sys' s = mkRes [] sys' s (inr tt) /\
  login_if_running env' sys' s = mkRes [] sys' s (inr tt) /\
  processQueue turns env' sys' s = mkRes [] sys' s (inr tt).
Proof.
  break_fs fs. break_sys sys.
  destruct up, tmr, batch, cur, sid; repeat (split; [reflexivity|]);
    destruct turns; reflexivity.
Qed.

(** *** What goes on after [stop()] has run inside a turn *)

Lemma onward_trans {A B} sys fs (r1 : Res FilterService.t A) (r2 : Res FilterService.t B) :
  onward sys fs r1 -> onward (sys_of r1) (st_of r1) r2 -> onward sys fs r2.
Proof. unfold onward. intros (A1 & A2 & A3) (B1 & B2 & B3). auto. Qed.

Lemma performCleanShutdown_begin_onward minutes env sys fs :
  onward sys fs (performCleanShutdown_begin minutes env sys fs).
Proof.
  break_fs fs. break_sys sys. break_env env. unfold onward.
  destruct minutes, sid, up, tmr, batch, cur; run;
    repeat split; intros; rewrite ?in_app_iff; auto; discriminate.
Qed.

Lemma handleBanDetected_begin_onward env sys fs :
  onward sys fs (handleBanDetected_begin env sys fs).
Proof.
  rewrite handleBanDetected_begin_unfold.
  match goal with |- onward _ _ (performCleanShutdown_begin ?m ?e ?y ?s) =>
    destruct (performCleanShutdown_begin_onward m e y s) as (S1 & S2 & S3) end.
  split; [|split].
  - intros t Ht. apply S1. break_sys sys. cbn. rewrite in_app_iff. auto.
  - intros R. apply S2. break_fs fs. exact R.
  - intros R. apply S3. break_fs fs. exact R.
Qed.

Lemma attemptSimple_begin_onward env sys fs :
  onward sys fs (attemptSimpleGcReconnection_begin env sys fs).
Proof.
  pose proof (handleBanDetected_begin_onward env sys fs) as O.
  pose proof (handleBanDetected_begin_quiet env sys fs) as Q.
  unfold attemptSimpleGcReconnection_begin, try_catch, bind, get.
  destruct (steamID fs) eqn:S; cbn [negb].
  - break_fs fs. break_sys sys. repeat split; auto.
  - destruct (handleBanDetected_begin env sys fs) as [ev sys1 fs1 v].
    destruct Q as (_ & _ & _ & _ & _ & rest & V). cbn [val_of] in V. subst v. exact O.
Qed.

Lemma timeout_begin_onward env sys fs :
  onward sys fs (handleConnectionTimeout_begin env sys fs).
Proof.
  unfold handleConnectionTimeout_begin, bind, get, cm, zoom, modify.
  cbv beta iota. cbn [events sys_of st_of val_of app].
  match goal with |- context [if ?b then _ else _] => destruct b end;
    match goal with |- context [?f env sys ?s] =>
      match f with
      | attemptSimpleGcReconnection_begin => pose proof (attemptSimple_begin_onward env sys s) as Q
      | handleBanDetected_begin => pose proof (handleBanDetected_begin_onward env sys s) as Q
      end; destruct (f env sys s) as [ev sys1 fs1 v]
    end;
    destruct Q as (S1 & S2 & S3); cbn [sys_of st_of] in *;
    (split; [exact S1 | split; intros R; [apply S2|apply S3]; break_fs fs; exact R]).
Qed.

Lemma fetch_onward steamID64 env sys fs :
  onward sys fs (fetchAndCheckProfile steamID64 env sys fs).
Proof.
  break_fs fs. break_sys sys. break_env env.
  unfold fetchAndCheckProfile, elapse, onward. simp.
  destruct (sidp steamID64) as [|a ind]; [auto|].
  destruct (a =? 0); [auto|].
  destruct ind; cbn [negb]; [|auto].
  destruct (g gn) as [|[p|]].
  - destruct (MAX_CONSECUTIVE_TIMEOUTS cfg <=? ct + 1); simp; [|auto].
    match goal with |- context [handleConnectionTimeout_begin ?e ?y ?s] =>
      destruct (timeout_begin_onward e y s) as (S1 & S2 & S3);
      destruct (timeout_begin_quiet e y s) as (_ & _ & _ & _ & _ & rest & V);
      destruct (handleConnectionTimeout_begin e y s) as [ev sys1 fs1 v] end.
    cbn [events sys_of st_of val_of spawned running isBanned] in *. subst v.
    destruct rest as [call|]; simp; cbn [sys_of st_of spawned];
      (split; [intros t Ht; rewrite ?in_app_iff; auto|]); auto.
  - destruct (checkProfile_some p) as [r Hr]. rewrite Hr. simp. auto.
  - auto.
Qed.

Lemma retryLoop_onward steamID64 maxRetries env remaining : forall attempts lastError sys fs,
  onward sys fs (retryLoop remaining attempts maxRetries steamID64 lastError env sys fs).
Proof.
  induction remaining as [|rem IH]; intros attempts lastError sys fs.
  - repeat split; auto.
  - cbn [retryLoop]. unfold try_catch, bind, get, ret.
    pose proof (fetch_onward steamID64 env sys fs) as O.
    destruct (fetchAndCheckProfile steamID64 env sys fs) as [ev sys1 fs1 [e|[passed reason]]].
    + destruct (S attempts <? maxRetries)%nat; unfold delay; cbv beta iota;
        match goal with |- context [retryLoop rem ?a maxRetries steamID64 ?le env ?y ?s] =>
          pose proof (IH a le y s) as I;
          destruct (retryLoop rem a maxRetries steamID64 le env y s) as [ev2 sys2 fs2 v2]
        end;
        (eapply onward_trans; [exact O|]); destruct sys1; exact I.
    + exact O.
Qed.

Lemma markLoop_spawned steamID64 maxRetries env remaining : forall attempt sys fs,
  spawned (sys_of (markLoop remaining attempt maxRetries steamID64 env sys fs)) = spawned sys.
Proof.
  induction remaining as [|rem IH]; intros attempt sys fs; [reflexivity|].
  cbn [markLoop].
  unfold markSteamIdProcessed, node_request, try_catch, bind, get, ret, throw, delay.
  destruct (DJANGO_API_URL (config fs)) as [u|];
    [destruct (http env (reqno sys)) as [| |code [p|]];
      [ | | destruct (code =? 200); [destruct (success p)|] | ] | ];
    cbv beta iota; try (destruct sys; reflexivity);
    destruct (attempt <? maxRetries)%nat; cbv beta iota;
    match goal with
    | |- context [markLoop rem ?a maxRetries steamID64 env ?y fs] =>
        pose proof (IH a y fs) as I;
        destruct (markLoop rem a maxRetries steamID64 env y fs) as [ev2 sys2 fs2 v2]
    end; cbn [sys_of] in *; rewrite I; destruct sys; reflexivity.
Qed.

Lemma process_onward steamID64 maxRetries env sys fs :
  onward sys fs (processSteamIDWithRetries steamID64 maxRetries env sys fs).
Proof.
  unfold processSteamIDWithRetries, markSteamIdProcessedWithRetries, bind, try_catch, ret.
  pose proof (retryLoop_onward steamID64 maxRetries env maxRetries 0%nat None sys fs) as O.
  pose proof (retryLoop_outcome steamID64 maxRetries env maxRetries 0%nat None sys fs) as R.
  cbv zeta in R.
  destruct (retryLoop maxRetries 0 maxRetries steamID64 None env sys fs) as [ev sys1 fs1 v].
  cbn [events sys_of st_of val_of] in R.
  destruct R as (_ & _ & _ & _ & _ & (result & V) & _). subst v.
  pose proof (markLoop_spawned steamID64 3%nat env 3%nat 1%nat sys1 fs1) as Ms.
  destruct (markLoop_spec steamID64 3%nat env 3%nat 1%nat sys1 fs1)
    as (ev2 & sys2 & m & E2 & _).
  rewrite E2 in *. cbn [events sys_of st_of val_of] in *.
  destruct O as (S1 & S2 & S3). unfold onward. cbn [sys_of st_of] in *.
  split; [intros t Ht; rewrite Ms; auto|]. auto.
Qed.

Lemma processItem_onward item u env sys fs :
  QUEUE_API_URL (config fs) = Some u ->
  onward sys fs (processItem item env sys fs).
Proof.
  intros H.
  pose proof (process_onward (WorkItem.id item) (MAX_RETRIES (config fs)) env sys
                (set_currentItem (Some item) fs)) as O.
  destruct (processSteamIDWithRetries_spec (WorkItem.id item) (MAX_RETRIES (config fs)) env sys
              (set_currentItem (Some item) fs)) as (W & _ & _ & result & V & _).
  destruct (processSteamIDWithRetries (WorkItem.id item) (MAX_RETRIES (config fs)) env sys
              (set_currentItem (Some item) fs)) as [ev sys1 fs1 v] eqn:E.
  cbn [events sys_of st_of val_of] in *. subst v.
  break_fs fs. cbn [config] in H.
  destruct fs1 as [up1 pa1 inst1 batch1 cur1 stats1 cm1 rc1 ct1 lst1 sst1 sid1 ib1 bet1 cfg1].
  unfold same_work in W. cbn in W. destruct W as (-> & -> & -> & -> & ->).
  destruct O as (S1 & S2 & S3). cbn in S1, S2, S3.
  unfold processItem, onward. simp. simp in E. rewrite E. clear E.
  destruct sys1 as [c1 rn1 gn1 f1 tn1 tm1 sp1]. cbn in S1.
  destruct result as [[|] reason|err]; simp.
  - match goal with |- context [addToProcessorQueue ?a ?b ?e ?y ?s] =>
      destruct (add_spec a b u e y s H) as (ok & v & E & T & F); simp in E; rewrite E; clear E end.
    destruct ok.
    + rewrite (T eq_refl). simp.
      match goal with |- context [completeInFilterQueue ?a ?e ?y ?s] =>
        destruct (complete_spec a u e y s H) as (ok & E); simp in E; rewrite E; clear E end.
      simp. auto.
    + destruct (F eq_refl) as [e ->]. auto.
  - match goal with |- context [completeInFilterQueue ?a ?e ?y ?s] =>
      destruct (complete_spec a u e y s H) as (ok & E); simp in E; rewrite E; clear E end.
    simp. auto.
  - match goal with |- context [releaseToFilterQueue ?a ?e ?y ?s] =>
      destruct (release_spec a u e y s H) as (ok & E); simp in E; rewrite E; clear E end.
    simp. auto.
Qed.

Lemma stopped_onward {A B} item (r1 : Res FilterService.t A) (r2 : Res FilterService.t B) :
  stopped_with item r1 -> onward (sys_of r1) (st_of r1) r2 -> stopped_with item r2.
Proof. unfold stopped_with, onward. intros (A1 & A2 & A3) (B1 & B2 & B3). auto. Qed.

(** The request timer fires with Steam logged off and the timeouts at the
    threshold: the ban is declared and the worker stopped inside the
    attempt, which then rejects. *)
Lemma timeout_with_steam_off steamID64 a env sys fs item :
  running fs = true ->
  steamID fs = false ->
  currentItem fs = Some item ->
  steamid env steamID64 = Sid a true ->
  a <> 0 ->
  gc env (gcno sys) = GcSilent ->
  MAX_CONSECUTIVE_TIMEOUTS (config fs) <= consecutiveTimeouts fs + 1 ->
  let r := fetchAndCheckProfile steamID64 env sys fs in
  stopped_with item r /\
  Recovery.bans (st_of r) = Recovery.bans fs + 1 /\
  exists e, val_of r = inl e.
Proof.
  intros R Hs C P N G M.
  break_fs fs. break_sys sys. break_env env. cbn in R, Hs, C, P, G, M. subst up sid cur.
  apply Z.eqb_neq in N. apply Z.leb_le in M.
  unfold fetchAndCheckProfile, elapse, stopped_with. simp. rewrite P, N, G. simp. rewrite M.
  destruct (att + 1 =? 1) eqn:A, tmr, batch;
    destruct (at_index COOLDOWN_LEVELS (Z.min (lvl + 1) maxLevel)) eqn:I;
    run; rewrite ?A, ?I; run; rewrite ?I; run;
    repeat split; eauto; rewrite ?in_app_iff; cbn; auto 10.
Qed.

Lemma retryLoop_after_ban steamID64 a maxRetries env rem attempts lastError sys fs item :
  running fs = true ->
  steamID fs = false ->
  currentItem fs = Some item ->
  steamid env steamID64 = Sid a true ->
  a <> 0 ->
  gc env (gcno sys) = GcSilent ->
  MAX_CONSECUTIVE_TIMEOUTS (config fs) <= consecutiveTimeouts fs + 1 ->
  stopped_with item (retryLoop (S rem) attempts maxRetries steamID64 lastError env sys fs).
Proof.
  intros R Hs C P N G M.
  destruct (timeout_with_steam_off steamID64 a env sys fs item R Hs C P N G M) as (St & _ & e & V).
  cbn [retryLoop]. unfold try_catch, bind, get, ret.
  destruct (fetchAndCheckProfile steamID64 env sys fs) as [ev sys1 fs1 v].
  cbn [val_of] in V. subst v.
  destruct (S attempts <? maxRetries)%nat; unfold delay; cbv beta iota;
    match goal with |- context [retryLoop rem ?a maxRetries steamID64 ?le env ?y ?s] =>
      pose proof (retryLoop_onward steamID64 maxRetries env rem a le y s) as I;
      destruct (retryLoop rem a maxRetries steamID64 le env y s) as [ev2 sys2 fs2 v2]
    end;
    (eapply stopped_onward; [exact St|]); destruct sys1; exact I.
Qed.

(** After [processSteamIDWithRetries], the work on an item changes neither
    [running] nor [isBanned] nor what is queued. *)
Lemma processItem_tail item u env sys fs :
  QUEUE_API_URL (config fs) = Some u ->
  let p := processSteamIDWithRetries (WorkItem.id item) (MAX_RETRIES (config fs)) env sys
             (set_currentItem (Some item) fs) in
  let r := processItem item env sys fs in
  running (st_of r) = running (st_of p) /\
  isBanned (st_of r) = isBanned (st_of p) /\
  spawned (sys_of r) = spawned (sys_of p).
Proof.
  intros H p r. subst p r.
  destruct (processSteamIDWithRetries_spec (WorkItem.id item) (MAX_RETRIES (config fs)) env sys
              (set_currentItem (Some item) fs)) as (W & _ & _ & result & V & _).
  destruct (processSteamIDWithRetries (WorkItem.id item) (MAX_RETRIES (config fs)) env sys
              (set_currentItem (Some item) fs)) as [ev sys1 fs1 v] eqn:E.
  cbn [events sys_of st_of val_of] in *. subst v.
  break_fs fs. cbn [config] in H.
  destruct fs1 as [up1 pa1 inst1 batch1 cur1 stats1 cm1 rc1 ct1 lst1 sst1 sid1 ib1 bet1 cfg1].
  unfold same_work in W. cbn in W. destruct W as (-> & -> & -> & -> & ->).
  unfold processItem. simp. simp in E. rewrite E. clear E.
  destruct sys1 as [c1 rn1 gn1 f1 tn1 tm1 sp1].
  destruct result as [[|] reason|err]; simp.
  - match goal with |- context [addToProcessorQueue ?a ?b ?e ?y ?s] =>
      destruct (add_spec a b u e y s H) as (ok & v & E & T & F); simp in E; rewrite E; clear E end.
    destruct ok.
    + rewrite (T eq_refl). simp.
      match goal with |- context [completeInFilterQueue ?a ?e ?y ?s] =>
        destruct (complete_spec a u e y s H) as (ok & E); simp in E; rewrite E; clear E end.
      simp. auto.
    + destruct (F eq_refl) as [e ->]. auto.
  - match goal with |- context [completeInFilterQueue ?a ?e ?y ?s] =>
      destruct (complete_spec a u e y s H) as (ok & E); simp in E; rewrite E; clear E end.
    simp. auto.
  - match goal with |- context [releaseToFilterQueue ?a ?e ?y ?s] =>
      destruct (release_spec a u e y s H) as (ok & E); simp in E; rewrite E; clear E end.
    simp. auto.
Qed.

Lemma process_after_ban steamID64 a rem env sys fs item :
  running fs = true ->
  steamID fs = false ->
  currentItem fs = Some item ->
  steamid env steamID64 = Sid a true ->
  a <> 0 ->
  gc env (gcno sys) = GcSilent ->
  MAX_CONSECUTIVE_TIMEOUTS (config fs) <= consecutiveTimeouts fs + 1 ->
  stopped_with item (processSteamIDWithRetries steamID64 (S rem) env sys fs).
Proof.
  intros R Hs C P N G M.
  pose proof (retryLoop_after_ban steamID64 a (S rem) env rem 0%nat None sys fs item
                R Hs C P N G M) as St.
  unfold processSteamIDWithRetries, markSteamIdProcessedWithRetries, bind, try_catch, ret.
  pose proof (retryLoop_outcome steamID64 (S rem) env (S rem) 0%nat None sys fs) as Ro.
  cbv zeta in Ro.
  destruct (retryLoop (S rem) 0 (S rem) steamID64 None env sys fs) as [ev sys1 fs1 v].
  cbn [events sys_of st_of val_of] in Ro.
  destruct Ro as (_ & _ & _ & _ & _ & (result & V) & _). subst v.
  pose proof (markLoop_spawned steamID64 3%nat env 3%nat 1%nat sys1 fs1) as Ms.
  destruct (markLoop_spec steamID64 3%nat env 3%nat 1%nat sys1 fs1)
    as (ev2 & sys2 & m & E2 & _).
  rewrite E2 in *. unfold stopped_with in *. cbn [events sys_of st_of val_of] in *.
  rewrite Ms. exact St.
Qed.

(** X31.  A turn that is under way is not cancelled by [stop()].  Take a
    running worker with a configured queue and at least one attempt per
    item, and a turn whose item has a valid SteamID.  When the request
    timer of its first fetch attempt fires with the consecutive timeouts
    at [MAX_CONSECUTIVE_TIMEOUTS] and Steam logged off (as after a
    disconnect while the request was pending), [handleConnectionTimeout()]
    declares the ban and calls [stop()] inside the attempt: the worker is
    stopped and marked banned, and the release of the item in flight is
    queued.  The attempt only rejects; the retries and the turn go on, and
    the loop still issues its own complete or release for the same item
    (when no downstream enqueue fails).  So an item can be released by
    [stop()] and completed by the loop. *)
Theorem ban_inside_a_turn_settles_twice env sys fs item rest sys1 u a :
  QUEUE_API_URL (config fs) = Some u ->
  next_item env sys fs = Some (item, rest, sys1) ->
  running fs = true ->
  steamID fs = false ->
  steamid env (WorkItem.id item) = Sid a true ->
  a <> 0 ->
  (0 < MAX_RETRIES (config fs))%nat ->
  gc env (gcno sys1) = GcSilent ->
  MAX_CONSECUTIVE_TIMEOUTS (config fs) <= consecutiveTimeouts fs + 1 ->
  let r := processQueue_turn env sys fs in
  running (st_of r) = false /\
  isBanned (st_of r) = true /\
  In (T_releaseToFilterQueue [WorkItem.id item]) (spawned (sys_of r)) /\
  (enqueue_failed (events r) = false -> length (settlements (events r)) = 1%nat).
Proof.
  intros U N R Hs P Na Mr G M r. subst r.
  destruct (turn_unfold env sys fs item rest sys1 N) as (ev0 & Cl & _ & E).
  set (fs' := set_currentBatch rest fs) in *.
  assert (U' : QUEUE_API_URL (config fs') = Some u) by (break_fs fs; exact U).
  assert (C : config fs' = config fs) by (break_fs fs; reflexivity).
  destruct (MAX_RETRIES (config fs)) as [|rem] eqn:Mx; [lia|].
  assert (St : stopped_with item
                 (processSteamIDWithRetries (WorkItem.id item) (S rem) env sys1
                    (set_currentItem (Some item) fs'))).
  { apply (process_after_ban _ a); try assumption;
      subst fs'; break_fs fs; cbn in *; auto. }
  destruct (processItem_tail item u env sys1 fs' U') as (T1 & T2 & T3).
  rewrite C, Mx in T1, T2, T3. destruct St as (St1 & St2 & St3).
  rewrite <- T1 in St1. rewrite <- T2 in St2. rewrite <- T3 in St3.
  destruct (processItem_spec item u env sys1 fs' U') as (_ & _ & _ & _ & result & _ & Q).
  destruct (claims_are_no_settlements ev0 Cl) as [Q0 F0].
  rewrite E. cbv zeta. unfold try_catch, loop_catch.
  destruct (processItem item env sys1 fs') as [ev sys2 s1 v].
  cbn [events sys_of st_of val_of] in *.
  destruct Q as [(ok & Q & V & _) | (Q & (e & V) & f & Rf)]; subst v.
  - cbn [events sys_of st_of]. split; [exact St1|]. split; [exact St2|]. split; [exact St3|].
    intros _. rewrite settlements_of_queue_calls, queue_calls_app, Q0, Q. cbn [app].
    destruct result as [[|] ?|?]; reflexivity.
  - unfold bind, get, delay. cbn [events sys_of st_of].
    split; [exact St1|]. split; [exact St2|]. split; [destruct sys2; exact St3|].
    intros Hf. exfalso.
    rewrite !enqueue_failed_app, F0 in Hf. cbn [orb] in Hf.
    apply orb_false_iff in Hf as [Hf _].
    assert (enqueue_failed ev = true); [|congruence].
    unfold enqueue_failed.
    assert (In (Http (ProcessorAdd (WorkItem.username item) [WorkItem.id item]) false) (queue_calls ev))
      as Hin by (rewrite Q; left; reflexivity).
    apply List.filter_In in Hin. apply existsb_exists. eexists. split; [apply Hin|reflexivity].
Qed.

Lemma ban_inside_a_turn_settles_twice_witness :
  next_item Sample.env_late Sample.sys0 Sample.stranded = Some (Sample.a, [Sample.b], Sample.sys0) /\
  steamID Sample.stranded = false /\
  MAX_CONSECUTIVE_TIMEOUTS (config Sample.stranded) <= consecutiveTimeouts Sample.stranded + 1 /\
  let r := processQueue_turn Sample.env_late Sample.sys0 Sample.stranded in
  In (T_releaseToFilterQueue [WorkItem.id Sample.a]) (spawned (sys_of r)) /\
  settlements (events r) =
    [Http (QueueComplete (instanceId Sample.stranded) [WorkItem.id Sample.a]) true].
Proof.
  assert (U : QUEUE_API_URL (config Sample.stranded) = Some Sample.url) by reflexivity.
  assert (N : next_item Sample.env_late Sample.sys0 Sample.stranded =
              Some (Sample.a, [Sample.b], Sample.sys0)) by reflexivity.
  assert (M : MAX_CONSECUTIVE_TIMEOUTS (config Sample.stranded) <= consecutiveTimeouts Sample.stranded + 1)
    by (vm_compute; discriminate).
  assert (P : steamid Sample.env_late (WorkItem.id Sample.a) = Sid 40000001 true) by reflexivity.
  assert (Mr : (0 < MAX_RETRIES (config Sample.stranded))%nat) by (vm_compute; lia).
  split; [exact N|]. split; [reflexivity|]. split; [exact M|].
  destruct (ban_inside_a_turn_settles_twice Sample.env_late Sample.sys0 Sample.stranded Sample.a [Sample.b]
              Sample.sys0 Sample.url 40000001 U N eq_refl eq_refl P ltac:(discriminate) Mr
              eq_refl M) as (_ & _ & Q & _).
  split; [exact Q | reflexivity].
Defined.

End WorkerLoopFacts.

(** ** The supervisor: startup, monitor and shutdown *)

Section SupervisionFacts.
Import GCFilterWorker.

Lemma main_table_cases i :
  default 0 (at_index CONFIG_COOLDOWN_LEVELS i) =
  if i =? 1 then 30 else if i =? 2 then 60 else if i =? 3 then 120
  else if i =? 4 then 240 else if i =? 5 then 480 else 0.
Proof.
  unfold at_index. destruct (Z.ltb_spec i 0).
  - repeat (match goal with |- context [?a =? ?b] => destruct (Z.eqb_spec a b) end; [lia|]).
    reflexivity.
  - destruct (Z.eqb_spec i 1) as [->|]; [reflexivity|].
    destruct (Z.eqb_spec i 2) as [->|]; [reflexivity|].
    destruct (Z.eqb_spec i 3) as [->|]; [reflexivity|].
    destruct (Z.eqb_spec i 4) as [->|]; [reflexivity|].
    destruct (Z.eqb_spec i 5) as [->|]; [reflexivity|].
    destruct (Z.eqb_spec i 0) as [->|]; [reflexivity|].
    replace (Z.to_nat i) with (6 + Z.to_nat (i - 6))%nat by lia. reflexivity.
Qed.

(** X22.  With a clock that has passed the recorded ban, the remaining
    cooldown that main.js computes lies between 0 and eight hours, is
    positive only for a recorded ban at a level 1..5, and falls by the
    time that passes until it reaches 0. *)
Theorem remaining_cooldown_bounds st t d :
  0 <= t ->
  CooldownState.lastBanTime st <= t ->
  0 <= d ->
  0 <= getRemainingCooldownTime st t <= 480 * 60 * 1000 /\
  (0 < getRemainingCooldownTime st t ->
   CooldownState.lastBanTime st <> 0 /\ 1 <= CooldownState.cooldownLevel st <= 5) /\
  getRemainingCooldownTime st (t + d) = Z.max 0 (getRemainingCooldownTime st t - d).
Proof.
  intros T B D. unfold getRemainingCooldownTime, calculateCooldownEndTime.
  destruct (Z.eqb_spec (CooldownState.lastBanTime st) 0) as [E|E]; cbn [orb]; [lia|].
  destruct (Z.eqb_spec (CooldownState.cooldownLevel st) 0) as [L|L]; [lia|].
  rewrite main_table_cases.
  repeat (match goal with |- context [?a =? ?b] => destruct (Z.eqb_spec a b) end); lia.
Qed.

Lemma remaining_cooldown_bounds_witness :
  getRemainingCooldownTime Sample.persisted Sample.t0 = 20 * 60 * 1000 /\
  getRemainingCooldownTime Sample.persisted (Sample.t0 + 15 * 60 * 1000) = 5 * 60 * 1000 /\
  getRemainingCooldownTime Sample.persisted (Sample.t0 + 45 * 60 * 1000) =
    Z.max 0 (getRemainingCooldownTime Sample.persisted Sample.t0 - 45 * 60 * 1000).
Proof.
  split; [reflexivity|]. split; [reflexivity|].
  apply (remaining_cooldown_bounds Sample.persisted Sample.t0 (45 * 60 * 1000));
    vm_compute; discriminate.
Defined.

Ltac break_sup w := destruct w as [r1 fw1 fr1 tm1 i1 [ci cu cb]].

Lemma startFilterWorker_starts env sys w :
  maFile_ok env = true ->
  filterWorkerRunning w = false ->
  let r := startFilterWorker env sys w in
  val_of r = inr tt /\
  filterWorkerRunning (st_of r) = true /\
  running (st_of r) = running w /\
  filterRestartTimer (st_of r) = filterRestartTimer w /\
  restart_timers (sys_of r) = restart_timers sys /\
  file (sys_of r) = file sys /\
  exists fs, filterWorker (st_of r) = Some fs /\
    FilterService.running fs = true /\ FilterService.processingActive fs = false /\
    FilterService.isBanned fs = false.
Proof.
  intros H R. break_env env. cbn in H. subst mf. break_sys sys. break_sup w. cbn in R. subst fr1.
  unfold restart_timers. destruct tp; run; rewrite ?List.filter_app, ?app_nil_r;
    repeat split; eauto 10.
Qed.

(** X25.  When the construction of the worker throws (the maFile cannot be
    read), [startFilterWorker] keeps [filterWorkerRunning] false, keeps
    the worker it had, and arms the restart timer at 60 s. *)
Theorem failed_start_is_retried_in_a_minute env sys w :
  maFile_ok env = false ->
  filterWorkerRunning w = false ->
  let r := startFilterWorker env sys w in
  val_of r = inr tt /\
  filterWorkerRunning (st_of r) = false /\
  filterWorker (st_of r) = filterWorker w /\
  filterRestartTimer (st_of r) = Some (timerno sys) /\
  In (timerno sys, (60000, T_filterRestart)) (timers (sys_of r)) /\
  events r = [].
Proof.
  intros H R. break_env env. cbn in H. subst mf. break_sys sys. break_sup w. cbn in R. subst fr1.
  destruct tm1; run; repeat split; rewrite in_app_iff; right; left; reflexivity.
Qed.

Lemma failed_start_is_retried_in_a_minute_witness :
  maFile_ok Sample.env_no_maFile = false /\
  filterWorkerRunning Sample.supervisor = false /\
  In (0%nat, (60000, T_filterRestart))
     (timers (sys_of (startFilterWorker Sample.env_no_maFile Sample.sys0 Sample.supervisor))).
Proof.
  assert (H : maFile_ok Sample.env_no_maFile = false) by reflexivity.
  assert (W : filterWorkerRunning Sample.supervisor = false) by reflexivity.
  split; [exact H|]. split; [exact W|].
  destruct (failed_start_is_retried_in_a_minute Sample.env_no_maFile Sample.sys0
              Sample.supervisor H W) as (_ & _ & _ & _ & T & _).
  exact T.
Defined.

Lemma clearCooldownState_spec env sys w :
  let r := clearCooldownState env sys w in
  val_of r = inr tt /\
  running (st_of r) = running w /\
  filterWorker (st_of r) = filterWorker w /\
  filterWorkerRunning (st_of r) = filterWorkerRunning w /\
  filterRestartTimer (st_of r) = filterRestartTimer w /\
  timers (sys_of r) = timers sys /\
  (fs_ok env = true -> file (sys_of r) = None).
Proof.
  break_env env. break_sys sys. break_sup w.
  destruct cb, cu, fok, f as [[x|]|]; try destruct (h rn) as [| |code [p|]] eqn:E;
    try destruct (ok200 code p) eqn:O;
    unfold clearCooldownState, store, CooldownStateManager.clear,
      CooldownStateManager.makeApiRequest, CooldownStateManager.unlinkSync,
      CooldownStateManager.existsSync, node_request; simp; rewrite ?E, ?O; simp;
    repeat split; intros; try discriminate; reflexivity.
Qed.

(** X23.  On a manual restart (RESET_COOLDOWN, --reset-cooldown, or a
    start by systemd) the local file of the stored cooldown is removed and
    the worker is started at once, with no restart timer armed, whatever
    state was stored. *)
Theorem manual_restart_clears_and_starts env sys w :
  detectManualRestart env = true ->
  maFile_ok env = true ->
  fs_ok env = true ->
  filterWorkerRunning w = false ->
  let r := checkAndStartFilterService env sys w in
  file (sys_of r) = None /\
  filterWorkerRunning (st_of r) = true /\
  restart_timers (sys_of r) = restart_timers sys /\
  exists fs, filterWorker (st_of r) = Some fs /\
    FilterService.running fs = true.
Proof.
  intros D Mf Fo R r. subst r. unfold checkAndStartFilterService, bind, ask.
  cbv beta iota. rewrite D.
  destruct (clearCooldownState_spec env sys w) as (V & C1 & C2 & C3 & C4 & C5 & C6).
  destruct (clearCooldownState env sys w) as [ev sys1 w1 v]. cbn [val_of st_of sys_of] in *.
  subst v.
  destruct (startFilterWorker_starts env sys1 w1 Mf (eq_trans C3 R))
    as (_ & S1 & _ & _ & S2 & S3 & fs & S4 & S5 & _).
  destruct (startFilterWorker env sys1 w1) as [ev2 sys2 w2 v2]. cbn [val_of st_of sys_of] in *.
  split; [rewrite S3; apply C6, Fo|]. split; [exact S1|].
  split; [rewrite S2; unfold restart_timers; rewrite C5; reflexivity|]. eauto.
Qed.

Lemma manual_restart_clears_and_starts_witness :
  detectManualRestart Sample.env_manual = true /\
  file Sample.sys_cooling = Some (Some Sample.persisted) /\
  let r := checkAndStartFilterService Sample.env_manual Sample.sys_cooling Sample.supervisor in
  file (sys_of r) = None /\
  filterWorkerRunning (st_of r) = true.
Proof.
  assert (D : detectManualRestart Sample.env_manual = true) by reflexivity.
  split; [exact D|]. split; [reflexivity|].
  destruct (manual_restart_clears_and_starts Sample.env_manual Sample.sys_cooling
              Sample.supervisor D eq_refl eq_refl eq_refl) as (F & W & _).
  split; [exact F | exact W].
Defined.

(** X24.  Without a manual restart and with no cooldown remaining,
    [checkAndStartFilterService] starts the worker at once and arms no
    restart timer. *)
Theorem expired_cooldown_starts_at_once env sys w :
  detectManualRestart env = false ->
  maFile_ok env = true ->
  filterWorkerRunning w = false ->
  let l := loadCooldownStateAsync env sys w in
  forall st, val_of l = inr st ->
  getRemainingCooldownTime st (clock (sys_of l)) = 0 ->
  let r := checkAndStartFilterService env sys w in
  filterWorkerRunning (st_of r) = true /\
  restart_timers (sys_of r) = restart_timers sys /\
  exists fs, filterWorker (st_of r) = Some fs /\ FilterService.running fs = true.
Proof.
  intros D Mf R l st Hl Hr r. subst r l. unfold checkAndStartFilterService, bind, ask, now.
  cbv beta iota. rewrite D.
  assert (K : timers (sys_of (loadCooldownStateAsync env sys w)) = timers sys /\
              filterWorkerRunning (st_of (loadCooldownStateAsync env sys w)) = false).
  { clear Hl Hr. break_env env. break_sys sys. break_sup w. cbn in R. subst fr1.
    destruct cb, cu, f as [[x|]|]; try destruct (h rn) as [| |code [p|]] eqn:E;
      try destruct (ok200 code p) eqn:O; try destruct (found p) eqn:F;
      try destruct (state p) eqn:S;
      unfold loadCooldownStateAsync, store, CooldownStateManager.load,
        CooldownStateManager.makeApiRequest, CooldownStateManager.readFileSync,
        CooldownStateManager.existsSync, node_request; simp; rewrite ?E, ?O; simp;
      rewrite ?F, ?S; simp; split; reflexivity. }
  destruct K as [K1 K2].
  destruct (loadCooldownStateAsync env sys w) as [ev sys1 w1 v]. cbn [val_of st_of sys_of] in *.
  subst v. cbv beta iota. rewrite Hr. cbn [Z.ltb Z.compare].
  destruct (startFilterWorker_starts env sys1 w1 Mf K2)
    as (_ & S1 & _ & _ & S2 & S3 & fs & S4 & S5 & _).
  destruct (startFilterWorker env sys1 w1) as [ev2 sys2 w2 v2]. cbn [val_of st_of sys_of] in *.
  split; [exact S1|]. split; [rewrite S2; unfold restart_timers; rewrite K1; reflexivity|]. eauto.
Qed.

Lemma expired_cooldown_starts_at_once_witness :
  detectManualRestart Sample.env_down = false /\
  val_of (loadCooldownStateAsync Sample.env_down Sample.sys0 Sample.supervisor) =
    inr CooldownState.zero /\
  filterWorkerRunning
    (st_of (checkAndStartFilterService Sample.env_down Sample.sys0 Sample.supervisor)) = true.
Proof.
  assert (D : detectManualRestart Sample.env_down = false) by reflexivity.
  assert (L : val_of (loadCooldownStateAsync Sample.env_down Sample.sys0 Sample.supervisor) =
              inr CooldownState.zero) by reflexivity.
  split; [exact D|]. split; [exact L|].
  exact (proj1 (expired_cooldown_starts_at_once Sample.env_down Sample.sys0 Sample.supervisor
                  D eq_refl eq_refl _ L eq_refl)).
Defined.

(** The timer with the cleared handle is not among those left. *)
Ltac gone :=
  let Hin := fresh "Hin" in
  intros Hin; apply in_app_iff in Hin as [Hin|[Hin|[]]]; [|discriminate Hin];
  repeat (let Hc := fresh "Hc" in
          apply List.filter_In in Hin as [Hin Hc];
          try (cbn in Hc; rewrite Nat.eqb_refl in Hc; discriminate Hc)).

(** X26.  A worker that has declared a ban is left alone by the monitor:
    the tick changes nothing and arms no restart for it. *)
Theorem banned_worker_is_not_restarted env sys sup fs env' sys' :
  running sup = true ->
  filterWorkerRunning sup = true ->
  filterWorker sup = Some fs ->
  let r := worker Recovery.handleBanDetected env sys sup in
  monitorFilterWorker env' sys' (st_of r) = mkRes [] sys' (st_of r) (inr None).
Proof.
  intros R W F r. subst r.
  destruct (handleBanDetected_spec env sys fs) as (_ & _ & _ & _ & B & P & _).
  break_sup sup. cbn in R, W, F. subst r1 fr1 fw1.
  unfold worker. cbn [filterWorker].
  destruct (Recovery.handleBanDetected env sys fs) as [ev sys1 fs1 v]. cbn [st_of] in *.
  unfold monitorFilterWorker, FilterService.isRunning. simp. simp in B. simp in P.
  destruct fs1 as [up' pa' ? ? ? ? ? ? ? ? ? ? ib' ? ?]. cbn in B, P. subst.
  destruct up'; reflexivity.
Qed.

Lemma banned_worker_is_not_restarted_witness :
  running Sample.supervising = true /\
  filterWorker Sample.supervising = Some Sample.busy /\
  val_of (monitorFilterWorker Sample.env_up Sample.sys0
            (st_of (worker Recovery.handleBanDetected Sample.env_up Sample.sys0
                      Sample.supervising))) = inr None.
Proof.
  split; [reflexivity|]. split; [reflexivity|].
  rewrite (banned_worker_is_not_restarted Sample.env_up Sample.sys0 Sample.supervising
             Sample.busy Sample.env_up Sample.sys0 eq_refl eq_refl eq_refl).
  reflexivity.
Defined.

(** X27.  A worker that has been started but is not processing yet, and is
    not banned, counts as dead for the monitor: the tick forgets it
    without calling its [stop()] -- nothing is logged off or released --
    and arms a new start 5 s later. *)
Theorem idle_worker_is_replaced_without_stop env sys sup :
  running sup = true ->
  maFile_ok env = true ->
  filterWorkerRunning sup = false ->
  let r := startFilterWorker env sys sup in
  let m := monitorFilterWorker env (sys_of r) (st_of r) in
  val_of m = inr (Some (5000, StartIfRunning)) /\
  filterWorker (st_of m) = None /\
  filterWorkerRunning (st_of m) = false /\
  events m = [] /\
  sys_of m = sys_of r.
Proof.
  intros R Mf W r m. subst m r.
  destruct (startFilterWorker_starts env sys sup Mf W)
    as (_ & S1 & S0 & _ & _ & _ & fs & S4 & S5 & S6 & S7).
  destruct (startFilterWorker env sys sup) as [ev sys1 w1 v]. cbn [st_of sys_of] in *.
  break_sup w1. cbn in S1, S0, S4. subst. rewrite R.
  unfold monitorFilterWorker, FilterService.isRunning, bind, get, ret, modify.
  cbv beta iota. cbn [running filterWorkerRunning filterWorker negb].
  rewrite S5, S6, S7. cbn. repeat split.
Qed.

Lemma idle_worker_is_replaced_without_stop_witness :
  running Sample.supervisor = true /\
  let r := startFilterWorker Sample.env_up Sample.sys0 Sample.supervisor in
  filterWorkerRunning (st_of r) = true /\
  val_of (monitorFilterWorker Sample.env_up (sys_of r) (st_of r)) =
    inr (Some (5000, StartIfRunning)).
Proof.
  assert (R : running Sample.supervisor = true) by reflexivity.
  split; [exact R|]. split; [reflexivity|].
  exact (proj1 (idle_worker_is_replaced_without_stop Sample.env_up Sample.sys0
                  Sample.supervisor R eq_refl eq_refl)).
Defined.

(** X28.  The monitor does not look at the cooldown.  After a startup that
    deferred the worker for the remaining cooldown, the next tick of the
    monitor arms a start 2 s later, and that start goes through: the
    worker runs while the restart timer of the cooldown is still
    pending. *)
Theorem monitor_starts_worker_inside_cooldown env sys sup :
  detectManualRestart env = false ->
  maFile_ok env = true ->
  running sup = true ->
  filterWorkerRunning sup = false ->
  let l := loadCooldownStateAsync env sys sup in
  forall st, val_of l = inr st ->
  0 < getRemainingCooldownTime st (clock (sys_of l)) ->
  let r := checkAndStartFilterService env sys sup in
  let m := monitorFilterWorker env (sys_of r) (st_of r) in
  let s := monitor_callback StartIfIdle env (sys_of m) (st_of m) in
  filterWorkerRunning (st_of r) = false /\
  val_of m = inr (Some (2000, StartIfIdle)) /\
  filterWorkerRunning (st_of s) = true /\
  In (timerno (sys_of l), (getRemainingCooldownTime st (clock (sys_of l)), T_filterRestart))
     (restart_timers (sys_of s)).
Proof.
  intros D Mf R W l st Hl Hr r m s. subst s m r.
  destruct (cooldown_defers_start env sys sup D st Hl Hr) as (C1 & C2 & C3 & C4).
  assert (C5 : running (st_of (checkAndStartFilterService env sys sup)) = true).
  { clear C1 C2 C3 C4. subst l. unfold checkAndStartFilterService, bind, ask, now.
    cbv beta iota. rewrite D.
    destruct (loadCooldownStateAsync_spec env sys sup) as (ev & sys1 & s1 & st' & E).
    rewrite E in *. cbn [val_of sys_of] in *. injection Hl as ->. cbv beta iota.
    apply Z.ltb_lt in Hr. rewrite Hr.
    break_sup sup. cbn in R. subst r1. break_sys sys1. destruct tm1; reflexivity. }
  destruct (checkAndStartFilterService env sys sup) as [ev sys1 w1 v]. cbn [st_of sys_of] in *.
  rewrite W in C3.
  assert (M : monitorFilterWorker env sys1 w1 = mkRes [] sys1 w1 (inr (Some (2000, StartIfIdle)))).
  { break_sup w1. cbn in C3, C5. subst. destruct fw1; reflexivity. }
  rewrite M. cbn [st_of sys_of val_of].
  split; [exact C3|]. split; [reflexivity|].
  unfold monitor_callback, bind, get. cbv beta iota. rewrite C5, C3. cbn [negb andb].
  destruct (startFilterWorker_starts env sys1 w1 Mf C3) as (_ & S1 & _ & _ & S2 & _).
  destruct (startFilterWorker env sys1 w1) as [ev2 sys2 w2 v2]. cbn [st_of sys_of] in *.
  split; [exact S1|]. rewrite S2. unfold restart_timers. apply List.filter_In.
  split; [exact C1 | reflexivity].
Qed.

Lemma monitor_starts_worker_inside_cooldown_witness :
  detectManualRestart Sample.env_down = false /\
  val_of (loadCooldownStateAsync Sample.env_down Sample.sys_cooling Sample.supervisor) =
    inr Sample.persisted /\
  0 < getRemainingCooldownTime Sample.persisted Sample.t0 /\
  let r := checkAndStartFilterService Sample.env_down Sample.sys_cooling Sample.supervisor in
  let m := monitorFilterWorker Sample.env_down (sys_of r) (st_of r) in
  let s := monitor_callback StartIfIdle Sample.env_down (sys_of m) (st_of m) in
  filterWorkerRunning (st_of r) = false /\
  filterWorkerRunning (st_of s) = true.
Proof.
  assert (D : detectManualRestart Sample.env_down = false) by reflexivity.
  assert (L : val_of (loadCooldownStateAsync Sample.env_down Sample.sys_cooling
                        Sample.supervisor) = inr Sample.persisted) by reflexivity.
  assert (P : 0 < getRemainingCooldownTime Sample.persisted Sample.t0) by reflexivity.
  split; [exact D|]. split; [exact L|]. split; [exact P|].
  destruct (monitor_starts_worker_inside_cooldown Sample.env_down Sample.sys_cooling
              Sample.supervisor D eq_refl eq_refl eq_refl _ L P) as (A & _ & B & _).
  split; [exact A | exact B].
Defined.

(** X29.  [shutdown()] of a running supervisor cancels the pending
    restart, stops the worker -- whose claimed items are thereby queued
    for release -- and arms the exit 1 s later; it does not throw, and a
    second [shutdown()] does nothing. *)
Theorem shutdown_stops_everything env sys sup :
  running sup = true ->
  let r := shutdown env sys sup in
  val_of r = inr tt /\
  running (st_of r) = false /\
  filterWorkerRunning (st_of r) = false /\
  filterRestartTimer (st_of r) = None /\
  (forall h d, filterRestartTimer sup = Some h ->
     ~ In (h, (d, T_filterRestart)) (timers (sys_of r))) /\
  In (timerno sys, (1000, T_exit 0)) (timers (sys_of r)) /\
  (forall fs, filterWorker sup = Some fs ->
     exists fs', filterWorker (st_of r) = Some fs' /\
       FilterService.running fs' = false /\
       (FilterService.running fs = true ->
        spawned (sys_of r) = spawned sys ++ queued_by_stop fs)) /\
  (forall env' sys', shutdown env' sys' (st_of r) = mkRes [] sys' (st_of r) (inr tt)).
Proof.
  intros R. break_sup sup. cbn in R. subst r1. break_sys sys. break_env env.
  destruct fw1 as [fs|].
  - break_fs fs. unfold queued_by_stop.
    destruct tm1 as [h0|], up, tmr, batch, cur, sid; run;
      rewrite ?app_nil_r, <- ?app_assoc;
      (split; [reflexivity|]); (split; [reflexivity|]); (split; [reflexivity|]);
      (split; [reflexivity|]);
      (split; [intros hh d [= <-]; gone |]);
      (split; [rewrite in_app_iff; right; left; reflexivity|]);
      (split; [intros fs [= <-]; eexists; split; [reflexivity|]; split; [reflexivity|];
               intros; try discriminate; cbn [app]; rewrite ?app_nil_r, <- ?app_assoc;
               reflexivity|]);
      intros; reflexivity.
  - destruct tm1 as [h0|]; run;
      (split; [reflexivity|]); (split; [reflexivity|]); (split; [reflexivity|]);
      (split; [reflexivity|]);
      (split; [intros hh d [= <-]; gone |]);
      (split; [rewrite in_app_iff; right; left; reflexivity|]);
      (split; [intros fs [=]|]); intros; reflexivity.
Qed.

Lemma shutdown_stops_everything_witness :
  running Sample.supervising = true /\
  let r := shutdown Sample.env_up Sample.sys0 Sample.supervising in
  running (st_of r) = false /\
  timers (sys_of r) = [(0%nat, (1000, T_exit 0))] /\
  spawned (sys_of r) = queued_by_stop Sample.busy.
Proof.
  assert (R : running Sample.supervising = true) by reflexivity.
  split; [exact R|].
  destruct (shutdown_stops_everything Sample.env_up Sample.sys0 Sample.supervising R)
    as (_ & S & _).
  split; [exact S|]. split; reflexivity.
Defined.

(** X30.  A ban outlasts the process.  The state that [handleBanDetected]
    queues for saving is written to the local file when the queued save
    runs; a process started later, while the cooldown runs and with no
    answer from the remote store, loads that state and defers the worker
    by what is left of the cooldown, counted from the time of the ban. *)
Theorem ban_defers_next_startup env sys fs turns env' sys' sup minutes :
  fs_ok env = true ->
  clock sys <> 0 ->
  0 <= Recovery.level fs ->
  at_index COOLDOWN_LEVELS (Z.min (Recovery.level fs + 1) maxLevel) = Some minutes ->
  let b := Recovery.handleBanDetected env sys fs in
  let saved := CooldownState.mk (clock sys) (Recovery.bans fs + 1)
                 (Z.min (Recovery.level fs + 1) maxLevel) in
  let w := Recovery.run_task turns (T_saveCooldownState saved) env (sys_of b) (st_of b) in
  detectManualRestart env' = false ->
  file sys' = file (sys_of w) ->
  (CooldownStateManager.useRedis (cooldownStateManager sup) = true ->
   exists e, val_of (CooldownStateManager.makeApiRequest
                       (CooldownGet (CooldownStateManager.instanceId (cooldownStateManager sup)))
                       env' sys' (cooldownStateManager sup)) = inl e) ->
  clock sys' < clock sys + minutes * 60 * 1000 ->
  let r := checkAndStartFilterService env' sys' sup in
  In (T_saveCooldownState saved) (spawned (sys_of b)) /\
  file (sys_of w) = Some (Some saved) /\
  In (timerno sys', (clock sys + minutes * 60 * 1000 - clock sys', T_filterRestart))
     (timers (sys_of r)) /\
  filterWorkerRunning (st_of r) = filterWorkerRunning sup.
Proof.
  intros Fo T0 L0 A b saved w D F Rm Tm r.
  destruct (handleBanDetected_spec env sys fs) as (_ & _ & _ & _ & _ & _ & Sp & _).
  fold b in Sp. fold saved in Sp.
  assert (Fw : file (sys_of w) = Some (Some saved)).
  { subst w. cbn [Recovery.run_task].
    unfold FilterService.cm, ConnectionManager.saveCooldownState_body, ConnectionManager.store,
      zoom, try_catch.
    match goal with |- context [CooldownStateManager.save ?a ?e ?y ?s] =>
      destruct (save_sets_file e y s a Fo) as [S1 S2];
      destruct (CooldownStateManager.save a e y s) as [ev1 y1 s1 v1] end.
    cbn [file sys_of val_of] in *. subst v1. exact S1. }
  split; [exact Sp|]. split; [exact Fw|].
  assert (Ld : val_of (loadCooldownStateAsync env' sys' sup) = inr saved /\
               timerno (sys_of (loadCooldownStateAsync env' sys' sup)) = timerno sys' /\
               clock (sys_of (loadCooldownStateAsync env' sys' sup)) = clock sys').
  { destruct (load_file_fallback env' sys' (cooldownStateManager sup) Rm)
      as (V & _ & _ & _ & Tn & Ck).
    rewrite F, Fw in V.
    unfold loadCooldownStateAsync, store, zoom, try_catch.
    destruct (CooldownStateManager.load env' sys' (cooldownStateManager sup)) as [ev1 y1 s1 v1].
    cbn [val_of sys_of] in *. subst v1. auto. }
  destruct Ld as (Lv & Ln & Lc).
  assert (Rem : getRemainingCooldownTime saved (clock sys') =
                clock sys + minutes * 60 * 1000 - clock sys').
  { unfold getRemainingCooldownTime, calculateCooldownEndTime, saved.
    cbn [CooldownState.lastBanTime CooldownState.cooldownLevel].
    apply Z.eqb_neq in T0. rewrite T0.
    assert ((Z.min (Recovery.level fs + 1) maxLevel =? 0) = false) as ->
      by (apply Z.eqb_neq; rewrite maxLevel_eq; lia).
    cbn [orb]. change CONFIG_COOLDOWN_LEVELS with COOLDOWN_LEVELS. rewrite A. cbn. lia. }
  subst r.
  destruct (cooldown_defers_start env' sys' sup D saved Lv) as (C1 & _ & C3 & _).
  { rewrite Lc, Rem. lia. }
  rewrite Ln, Lc, Rem in C1. split; [exact C1 | exact C3].
Qed.

Lemma ban_defers_next_startup_witness :
  at_index COOLDOWN_LEVELS (Z.min (Recovery.level Sample.busy + 1) maxLevel) = Some 120 /\
  clock Sample.sys_restarted = Sample.t0 + 10 * 60 * 1000 /\
  In (0%nat, (110 * 60 * 1000, T_filterRestart))
     (timers (sys_of (checkAndStartFilterService Sample.env_down Sample.sys_restarted
                        Sample.supervisor))).
Proof.
  assert (A : at_index COOLDOWN_LEVELS (Z.min (Recovery.level Sample.busy + 1) maxLevel) =
              Some 120) by reflexivity.
  split; [exact A|]. split; [reflexivity|].
  assert (C : clock Sample.sys0 <> 0) by discriminate.
  assert (L : 0 <= Recovery.level Sample.busy) by (vm_compute; discriminate).
  assert (R : CooldownStateManager.useRedis (cooldownStateManager Sample.supervisor) = true ->
              exists e,
                val_of (CooldownStateManager.makeApiRequest
                          (CooldownGet (CooldownStateManager.instanceId
                                          (cooldownStateManager Sample.supervisor)))
                          Sample.env_down Sample.sys_restarted
                          (cooldownStateManager Sample.supervisor)) = inl e)
    by (intros _; eexists; reflexivity).
  assert (T : clock Sample.sys_restarted < clock Sample.sys0 + 120 * 60 * 1000) by reflexivity.
  exact (proj1 (proj2 (proj2
           (ban_defers_next_startup Sample.env_down Sample.sys0 Sample.busy 0
              Sample.env_down Sample.sys_restarted Sample.supervisor 120
              eq_refl C L A eq_refl eq_refl R T)))).
Defined.

End SupervisionFacts.
